(** * Credential pipeline of game-compare: device-code login, token cache,
      refresh, and the platform-user exchange matrix.

    Shallow embedding of
      - [scripts/xbox_tokens_device_code.py]  (module [Xbox]),
      - [scripts/ms_oauth_cache.py]           (module [MsOauth]),
      - [scripts/msal.py]                     (module [Msal]).

    Python strings are [string] (the UTF-8 bytes of the text), Python
    integers are [Z], Python floats are their IEEE values, JSON documents
    and the loosely typed values decoded from them are [pyval].  Code that
    raises returns an explicit exception value; code that talks to the
    network, the clock or the cache file threads an explicit world state. *)

From Stdlib Require Import ZArith Lia Ascii String.
From Stdlib Require Floats.SpecFloat.
From stdpp Require Import base decidable option list gmap strings pretty.

#[local] Set Warnings "-register-all".
Local Open Scope string_scope.
Local Open Scope Z_scope.
Local Open Scope list_scope.

(** ** Python values and exceptions *)

Module Py.

(** The values [json.loads] can produce.  A float is its IEEE value: a
    zero, an infinity, not a number, or a sign, a mantissa and an exponent
    of 2.  A [dict] is the list of its items; [dict_get] reads the first
    item of a key. *)
Inductive pyval : Type :=
  | PNone
  | PBool (b : bool)
  | PInt (z : Z)
  | PFloat (x : SpecFloat.spec_float)
  | PStr (s : string)
  | PList (l : list pyval)
  | PDict (items : list (string * pyval)).

(** The exceptions the modelled code raises or lets through.  A
    [RuntimeError] carries the fixed text of its message and, where the
    message interpolates a decoded payload, that payload. *)
Inductive exn : Type :=
  | RuntimeError (msg : string) (detail : option pyval)
  | TimeoutError (msg : string)
  | ValueError
  | TypeError
  | KeyError (key : string)
  | AttributeError
  | JSONDecodeError
  | RequestException
  | HTTPError
  | OSError
  | OverflowError.

(** What a text is to [json.loads]: either it does not parse, or it denotes
    a value.  [json.dumps] of a value denotes that value. *)
Inductive content : Type :=
  | Garbage
  | Doc (v : pyval).

(** A computation that returns or raises. *)
Inductive result (A : Type) : Type :=
  | Ok (a : A)
  | Err (e : exn).
Arguments Ok {A} a.
Arguments Err {A} e.

(** [v.get]: only a dict has the method. *)
Definition as_dict (v : pyval) : result (list (string * pyval)) :=
  match v with
  | PDict items => Ok items
  | _ => Err AttributeError
  end.

(** [v == s] for a string literal [s]. *)
Definition is_str (v : pyval) (s : string) : bool :=
  match v with
  | PStr s' => String.eqb s' s
  | _ => false
  end.

(** [bool(v)]: the truth value Python gives [v] in [if], [not] and [or]. *)
Definition truthy (v : pyval) : bool :=
  match v with
  | PNone => false
  | PBool b => b
  | PInt z => negb (z =? 0)
  | PFloat x =>
      match x with
      | SpecFloat.S754_zero _ => false
      | _ => true
      end
  | PStr s => negb (String.eqb s "")
  | PList l => match l with [] => false | _ => true end
  | PDict d => match d with [] => false | _ => true end
  end.

(** [a or b] *)
Definition py_or (a b : pyval) : pyval := if truthy a then a else b.

Fixpoint assoc (k : string) (items : list (string * pyval)) : option pyval :=
  match items with
  | [] => None
  | (k', v) :: rest => if String.eqb k k' then Some v else assoc k rest
  end.

(** [d.get(k)] on a dict [d]. *)
Definition dict_get (k : string) (items : list (string * pyval)) : pyval :=
  default PNone (assoc k items).

(** [d.get(k, dflt)] *)
Definition dict_get_default (k : string) (dflt : pyval)
    (items : list (string * pyval)) : pyval :=
  default dflt (assoc k items).

(** [int(x)] of a float: its integer part, towards zero. *)
Definition int_of_float (x : SpecFloat.spec_float) : result Z :=
  match x with
  | SpecFloat.S754_zero _ => Ok 0
  | SpecFloat.S754_finite s m e =>
      let magnitude :=
        if 0 <=? e then Z.pos m * 2 ^ e else Z.pos m / 2 ^ (- e) in
      Ok (if s then - magnitude else magnitude)
  | SpecFloat.S754_infinity _ => Err OverflowError
  | SpecFloat.S754_nan => Err ValueError
  end.

(** [int(v)], given Python's [int] on a [str] ([None] when that raises
    [ValueError]). *)
Definition py_int (int_of_str : string -> option Z) (v : pyval) : result Z :=
  match v with
  | PInt z => Ok z
  | PFloat x => int_of_float x
  | PBool b => Ok (if b then 1 else 0)
  | PStr s =>
      match int_of_str s with
      | Some z => Ok z
      | None => Err ValueError
      end
  | PNone | PList _ | PDict _ => Err TypeError
  end.

(** [d[k]] on a dict [d]. *)
Definition dict_item (k : string) (items : list (string * pyval))
    : result pyval :=
  match assoc k items with
  | Some v => Ok v
  | None => Err (KeyError k)
  end.

End Py.

(** ** [urllib.parse.quote] and [urllib.parse.unquote] on bytes *)

Module Urllib.

Local Open Scope N_scope.

Definition hex_digit (n : N) : ascii :=
  ascii_of_N (if n <? 10 then 48 + n else 55 + n).

(** Value of a hexadecimal digit, either case. *)
Definition hex_value (c : ascii) : option N :=
  let n := N_of_ascii c in
  if (48 <=? n) && (n <=? 57) then Some (n - 48)
  else if (65 <=? n) && (n <=? 70) then Some (n - 55)
  else if (97 <=? n) && (n <=? 102) then Some (n - 87)
  else None.

(** The characters [quote] never escapes: letters, digits and [_.-~]. *)
Definition unreserved (c : ascii) : bool :=
  let n := N_of_ascii c in
  ((65 <=? n) && (n <=? 90)) || ((97 <=? n) && (n <=? 122))
  || ((48 <=? n) && (n <=? 57))
  || (n =? 95) || (n =? 46) || (n =? 45) || (n =? 126).

(** [quote(s, safe='')]: every byte of the UTF-8 text outside [unreserved]
    becomes [%XX] with upper-case digits. *)
Fixpoint quote (s : string) : string :=
  match s with
  | EmptyString => EmptyString
  | String c rest =>
      if unreserved c then String c (quote rest)
      else
        let n := N_of_ascii c in
        String "%" (String (hex_digit (n / 16))
                      (String (hex_digit (n mod 16)) (quote rest)))
  end.

(** The byte written by two hexadecimal digits. *)
Definition hex_pair (h l : ascii) : option ascii :=
  match hex_value h, hex_value l with
  | Some a, Some b => Some (ascii_of_N (16 * a + b))
  | _, _ => None
  end.

(** [unquote(s)] at the level of bytes: [%XX] with two hexadecimal digits
    becomes the byte, any other [%] stays.  Python then decodes the bytes as
    UTF-8 and puts U+FFFD where they are not; this function is [unquote]
    wherever the unescaped bytes are valid UTF-8 (in particular on ASCII). *)
Fixpoint unquote_bytes (s : string) : string :=
  match s with
  | EmptyString => EmptyString
  | String c rest =>
      match rest with
      | String h (String l rest') =>
          match (if Ascii.eqb c "%" then hex_pair h l else None) with
          | Some b => String b (unquote_bytes rest')
          | None => String c (unquote_bytes rest)
          end
      | _ => String c (unquote_bytes rest)
      end
  end.

Definition unquote (s : string) : option string := Some (unquote_bytes s).

End Urllib.

(** ** Control flow of a Python function body *)

Module Flow.
Import Py.

(** How a block of statements ends: it falls through to the next statement,
    it executes [return], or it raises.  The state reached is kept in every
    case. *)
Inductive outcome (S R : Type) : Type :=
  | Next (s : S)
  | Return (r : R) (s : S)
  | Raise (e : exn) (s : S).
Arguments Next {S R} s.
Arguments Return {S R} r s.
Arguments Raise {S R} e s.

(** [for x in xs: body] *)
Fixpoint for_each {X S R : Type} (xs : list X)
    (body : X -> S -> outcome S R) (s : S) : outcome S R :=
  match xs with
  | [] => Next s
  | x :: rest =>
      match body x s with
      | Next s' => for_each rest body s'
      | stop => stop
      end
  end.

End Flow.

(** ** The [requests] library, as far as the scripts use it *)

Module Requests.
Import Py.

(** A [requests.post(url, headers=..., data=..., json=..., timeout=30)]
    call. *)
Record request : Type := mk_request {
  rq_url : string;
  rq_headers : list (string * string);
  rq_data : list (string * pyval);
  rq_json : pyval }.

Record response : Type := mk_response {
  status_code : Z;
  body : content }.

(** What [requests.post] does: it returns a response or raises. *)
Inductive answer : Type :=
  | Answer (r : response)
  | NoAnswer (e : exn).

(** [r.json()] *)
Definition json (r : response) : result pyval :=
  match body r with
  | Doc v => Ok v
  | Garbage => Err JSONDecodeError
  end.

End Requests.

(** ** [xbox_tokens_device_code.py] *)

Module Xbox.
Import Py Flow Requests.

Definition XBL_AUTH_URL : string :=
  "https://user.auth.xboxlive.com/user/authenticate".
Definition UA : string :=
  "Mozilla/5.0 (Macintosh; Intel Mac OS X) xbox-webapi-ex/diagnostic".

(** The service, as the client sees it: the answer to the [n]-th request
    (counting from 0) when that request is [rq]. *)
Definition endpoint : Type := nat -> request -> answer.

Definition relying_parties : list string :=
  ["http://auth.xboxlive.com"; "https://auth.xboxlive.com"].

(** The request built by the inner function [attempt]. *)
Definition attempt_request (rps_ticket relying_party : string)
    (with_contract_header : bool) : request :=
  let payload :=
    PDict [("Properties",
            PDict [("AuthMethod", PStr "RPS");
                   ("SiteName", PStr "user.auth.xboxlive.com");
                   ("RpsTicket", PStr rps_ticket)]);
           ("RelyingParty", PStr relying_party);
           ("TokenType", PStr "JWT")] in
  let headers :=
    [("Content-Type", "application/json");
     ("Accept", "application/json");
     ("User-Agent", UA);
     ("Accept-Language", "en-US,en;q=0.9");
     ("Accept-Encoding", "gzip, deflate, br");
     ("Connection", "keep-alive");
     ("DNT", "1")] in
  let headers :=
    if with_contract_header
    then headers ++ [("x-xbl-contract-version", "1")]
    else headers in
  mk_request XBL_AUTH_URL headers [] payload.

(** A candidate ticket: [(label, encoded value)]. *)
Definition ticket : Type := string * string.

(** [str(b)] of a Python [bool], as an f-string prints it. *)
Definition str_of_bool (b : bool) : string := if b then "True" else "False".

(** The label under which a failed attempt is recorded. *)
Definition attempt_label (lbl relying_party : string) (with_contract : bool)
    : string :=
  "XBL(" +:+ lbl +:+ ",rp=" +:+ relying_party +:+ ",contract="
    +:+ str_of_bool with_contract +:+ ")".

(** The state of a call: the requests issued so far, oldest first, and the
    local list [attempts]. *)
Record xstate : Type := mk_xstate {
  sent : list request;
  attempts : list (string * response) }.

Definition xstate0 : xstate := mk_xstate [] [].

(** [", ".join([f"{lbl}={r.status_code}" for lbl, r in attempts[:12]])] *)
Definition summary_of (atts : list (string * response)) : string :=
  String.concat ", "
    ((λ a, a.1 +:+ "=" +:+ pretty (status_code a.2)) <$> take 12 atts).

Definition failure_message (atts : list (string * response)) : string :=
  "XBL user/authenticate failed. First attempts: " +:+ summary_of atts.

(** [ms_access_token_raw or ms_access_token] *)
Definition raw_fragment_of (ms_access_token : string)
    (ms_access_token_raw : option string) : string :=
  match ms_access_token_raw with
  | Some r => if String.eqb r "" then ms_access_token else r
  | None => ms_access_token
  end.

(** The inner function [add], on the list [tickets] it appends to. *)
Definition add (tickets : list ticket) (label tk : string) : list ticket :=
  if String.eqb tk "" then tickets else tickets ++ [(label, tk)].

(** Body of [for base_label, base in [...]]. *)
Definition add_prefixed (tickets : list ticket) (b : string * string)
    : list ticket :=
  let tickets := add tickets ("d=" +:+ b.1) ("d=" +:+ b.2) in
  add tickets ("t=" +:+ b.1) ("t=" +:+ b.2).

(** One turn of the de-duplication loop on [(seen, uniq)]. *)
Definition dedup_step (st : gset string * list ticket) (lt : ticket)
    : gset string * list ticket :=
  if decide (lt.2 ∈ st.1) then st
  else ({[ lt.2 ]} ∪ st.1, st.2 ++ [lt]).

Section CandidateEncoder.

(** [urllib.parse.unquote] ([None] when it raises) and
    [urllib.parse.quote(_, safe='')]. *)
Variable unquote : string -> option string.
Variable quote : string -> string.

(** [try: unquote(raw_fragment) except Exception: raw_fragment] *)
Definition raw_fragment_decoded_of (raw_fragment : string) : string :=
  match unquote raw_fragment with
  | Some s => s
  | None => raw_fragment
  end.

Definition pct_encode (s : string) : string := quote s.

(** The six [(base_label, base)] pairs of the prefix loop. *)
Definition bases (ms_access_token : string)
    (ms_access_token_raw : option string) : list (string * string) :=
  let decoded := ms_access_token in
  let raw_fragment := raw_fragment_of ms_access_token ms_access_token_raw in
  let raw_fragment_decoded := raw_fragment_decoded_of raw_fragment in
  [("decoded", decoded);
   ("rawfrag", raw_fragment);
   ("rawfrag_decoded", raw_fragment_decoded);
   ("decoded_enc", pct_encode decoded);
   ("rawfrag_enc", pct_encode raw_fragment);
   ("rawfrag_decoded_enc", pct_encode raw_fragment_decoded)].

(** The list [tickets] before de-duplication. *)
Definition all_tickets (ms_access_token : string)
    (ms_access_token_raw : option string) : list ticket :=
  let decoded := ms_access_token in
  let raw_fragment := raw_fragment_of ms_access_token ms_access_token_raw in
  let raw_fragment_decoded := raw_fragment_decoded_of raw_fragment in
  let decoded_enc := pct_encode decoded in
  let rawfrag_enc := pct_encode raw_fragment in
  let rawfrag_decoded_enc := pct_encode raw_fragment_decoded in
  let tickets := [] in
  let tickets := add tickets "decoded" decoded in
  let tickets := add tickets "rawfrag" raw_fragment in
  let tickets := add tickets "rawfrag_decoded" raw_fragment_decoded in
  let tickets := add tickets "decoded_enc" decoded_enc in
  let tickets := add tickets "rawfrag_enc" rawfrag_enc in
  let tickets := add tickets "rawfrag_decoded_enc" rawfrag_decoded_enc in
  foldl add_prefixed tickets (bases ms_access_token ms_access_token_raw).

(** The list [uniq]: the candidate tickets, in their order of trial. *)
Definition candidates (ms_access_token : string)
    (ms_access_token_raw : option string) : list ticket :=
  (foldl dedup_step (∅, [])
     (all_tickets ms_access_token ms_access_token_raw)).2.

Variable ep : endpoint.

(** Body of the innermost loop [for lbl, t in uniq]. *)
Definition try_candidate (relying_party : string) (with_contract : bool)
    (lt : ticket) (s : xstate) : outcome xstate pyval :=
  let rq := attempt_request lt.2 relying_party with_contract in
  let s' := mk_xstate (sent s ++ [rq]) (attempts s) in
  match ep (length (sent s)) rq with
  | NoAnswer e => Raise e s'
  | Answer r =>
      if status_code r =? 200 then
        match json r with
        | Ok v => Return v s'
        | Err e => Raise e s'
        end
      else
        Next (mk_xstate (sent s')
                (attempts s' ++
                   [(attempt_label lt.1 relying_party with_contract, r)]))
  end.

(** [xbl_user_authenticate(ms_access_token, ms_access_token_raw)].  The
    calls to [log_resp] only print and are left out. *)
Definition xbl_user_authenticate (ms_access_token : string)
    (ms_access_token_raw : option string) : outcome xstate pyval :=
  let uniq := candidates ms_access_token ms_access_token_raw in
  match
    for_each relying_parties (λ relying_party,
      for_each [true; false] (λ with_contract,
        for_each uniq (try_candidate relying_party with_contract)))
      xstate0
  with
  | Next s => Raise (RuntimeError (failure_message (attempts s)) None) s
  | stop => stop
  end.

End CandidateEncoder.

End Xbox.

(** ** Clock, network and cache file *)

Module Sys.
Import Py Requests.

(** What the process is to a file or a directory, which decides the
    permission bits that apply to it: none restrains the superuser, the
    owner's bits apply to the owner, the group's to a member of the group
    of the file, the others' to anybody else. *)
Inductive party : Type :=
  | Superuser
  | Owner
  | Group
  | Other.

(** A regular file: its permission bits, what the process is to it, and
    what [json.loads] makes of its text. *)
Record file : Type := mk_file {
  mode : Z;
  who : party;
  text : content }.

(** The directory of the cache: missing (and then whether [mkdir] can make
    it, with the ancestors it lacks), or there, with its permission bits,
    what the process is to it, the cache file, and the sibling of the cache
    file with suffix [.tmp].  A directory that cannot be reached is a
    directory of somebody else that cannot be searched. *)
Inductive filesystem : Type :=
  | Missing (creatable : bool)
  | Present (dir_mode : Z) (dir_who : party) (cache tmp : option file).

Definition cache_file (fs : filesystem) : option file :=
  match fs with
  | Missing _ => None
  | Present _ _ cache _ => cache
  end.

Definition tmp_file (fs : filesystem) : option file :=
  match fs with
  | Missing _ => None
  | Present _ _ _ tmp => tmp
  end.

Definition S_IRUSR : Z := 256.
Definition S_IWUSR : Z := 128.
Definition S_IXUSR : Z := 64.
Definition S_ISVTX : Z := 512.

(** Whether the bits [m] give the process the access whose owner bit is
    [bit]. *)
Definition permits (bit m : Z) (p : party) : bool :=
  match p with
  | Superuser => true
  | Owner => negb (Z.land m bit =? 0)
  | Group => negb (Z.land m (Z.shiftr bit 3) =? 0)
  | Other => negb (Z.land m (Z.shiftr bit 6) =? 0)
  end.

(** Who may [chmod], and rename or replace in a sticky directory. *)
Definition owns (p : party) : bool :=
  match p with
  | Superuser | Owner => true
  | Group | Other => false
  end.

Definition sticky (m : Z) : bool := negb (Z.land m S_ISVTX =? 0).

Definition readable (f : file) : bool := permits S_IRUSR (mode f) (who f).
Definition writable (f : file) : bool := permits S_IWUSR (mode f) (who f).

(** The token service: the reply to the [n]-th request (counting from 0)
    when that request is [rq], and the time in milliseconds the call
    takes. *)
Record reply : Type := mk_reply {
  latency : N;
  answer_of : answer }.

Definition endpoint : Type := nat -> request -> reply.

(** What the process did, oldest first. *)
Inductive event : Type :=
  | Slept (seconds : Z)
  | Posted (rq : request) (a : answer).

(** The world of a run: the clock in milliseconds since the epoch, the
    cache directory, the number of requests issued, and the log. *)
Record world : Type := mk_world {
  now : Z;
  disk : filesystem;
  posts : nat;
  trace : list event }.

(** Statements that read and change the world, and return or raise. *)
Definition M (A : Type) : Type := world -> result A * world.

Definition ret {A : Type} (a : A) : M A := λ w, (Ok a, w).
Definition raise {A : Type} (e : exn) : M A := λ w, (Err e, w).
Definition lift {A : Type} (r : result A) : M A := λ w, (r, w).
Definition bind {A B : Type} (m : M A) (k : A -> M B) : M B :=
  λ w, match m w with
       | (Ok a, w') => k a w'
       | (Err e, w') => (Err e, w')
       end.

#[global] Instance M_ret : MRet M := @ret.
#[global] Instance M_bind : MBind M := λ A B k m, bind m k.

(** [int(time.time())], in seconds: [int] truncates.  [time.time()] itself
    is [now w]. *)
Definition time_int : M Z := λ w, (Ok (Z.quot (now w) 1000), w).

(** [time.sleep(seconds)] *)
Definition sleep (seconds : Z) : M unit :=
  λ w, if seconds <? 0 then (Err ValueError, w)
       else (Ok tt, mk_world (now w + 1000 * seconds) (disk w) (posts w)
                      (trace w ++ [Slept seconds])).

Section Network.

Variable ep : endpoint.

(** [requests.post(...)] *)
Definition post (rq : request) : M response :=
  λ w, let r := ep (posts w) rq in
       let w' := mk_world (now w + Z.of_N (latency r)) (disk w)
                   (S (posts w)) (trace w ++ [Posted rq (answer_of r)]) in
       match answer_of r with
       | Answer resp => (Ok resp, w')
       | NoAnswer e => (Err e, w')
       end.

End Network.

(** A system call on the cache directory, as a statement. *)
Definition on_disk {A : Type} (op : filesystem -> result A * filesystem)
    : M A :=
  λ w, let (r, fs) := op (disk w) in
       (r, mk_world (now w) fs (posts w) (trace w)).

(** [path.exists()]: [Path.exists] answers [False] where [stat] finds no
    such entry, and lets every other error through, so the
    [PermissionError] of a directory that cannot be searched is raised. *)
Definition path_exists (fs : filesystem) : result bool :=
  match fs with
  | Missing _ => Ok false
  | Present m p cache _ =>
      if permits S_IXUSR m p
      then Ok (match cache with Some _ => true | None => false end)
      else Err OSError
  end.

(** [path.read_text()] followed by [json.loads], in a directory that can be
    searched. *)
Definition read_json (f : file) : result pyval :=
  if readable f then
    match text f with
    | Doc v => Ok v
    | Garbage => Err JSONDecodeError
    end
  else Err OSError.

(** [_mkdir_secure(path)]: [mkdir] with [exist_ok] raises only where the
    directory is missing and cannot be made; the [chmod] to [0o700] takes
    effect where the process may change the mode and is given up silently
    elsewhere. *)
Definition mkdir_secure (fs : filesystem) : result unit * filesystem :=
  match fs with
  | Missing true => (Ok tt, Present 448 Owner None None)
  | Missing false => (Err OSError, fs)
  | Present m p cache tmp =>
      (Ok tt, if owns p then Present 448 p cache tmp else fs)
  end.

(** [tmp.write_text(json.dumps(data, indent=2))]: an existing file is
    opened for writing and keeps its mode and owner; a new one needs a
    directory that can be written to, and is the process's own (its mode
    before the [chmod] that follows is that of a [umask] of [0o022]). *)
Definition write_tmp (data : pyval) (fs : filesystem)
    : result unit * filesystem :=
  match fs with
  | Missing _ => (Err OSError, fs)
  | Present m p cache tmp =>
      if permits S_IXUSR m p then
        match tmp with
        | Some f =>
            if writable f
            then (Ok tt, Present m p cache
                           (Some (mk_file (mode f) (who f) (Doc data))))
            else (Err OSError, fs)
        | None =>
            if permits S_IWUSR m p
            then (Ok tt, Present m p cache
                           (Some (mk_file 420 Owner (Doc data))))
            else (Err OSError, fs)
        end
      else (Err OSError, fs)
  end.

(** [os.chmod(tmp, stat.S_IRUSR | stat.S_IWUSR)] *)
Definition chmod_tmp (fs : filesystem) : result unit * filesystem :=
  match fs with
  | Present m p cache (Some f) =>
      if permits S_IXUSR m p && owns (who f)
      then (Ok tt, Present m p cache
                     (Some (mk_file (Z.lor S_IRUSR S_IWUSR) (who f) (text f))))
      else (Err OSError, fs)
  | _ => (Err OSError, fs)
  end.

(** [tmp.replace(path)]: the entries of the directory must be open to
    change; in a sticky directory that is not the process's own, the file
    renamed and the file replaced must be the process's own. *)
Definition replace_tmp (fs : filesystem) : result unit * filesystem :=
  match fs with
  | Present m p cache (Some f) =>
      if permits S_IWUSR m p && permits S_IXUSR m p
         && (negb (sticky m) || owns p
             || (owns (who f)
                 && match cache with
                    | Some g => owns (who g)
                    | None => true
                    end))
      then (Ok tt, Present m p (Some f) None)
      else (Err OSError, fs)
  | _ => (Err OSError, fs)
  end.

(** [_write_secure(path, data)] *)
Definition write_secure (data : pyval) : M unit :=
  _ ← on_disk mkdir_secure;
  _ ← on_disk (write_tmp data);
  _ ← on_disk chmod_tmp;
  on_disk replace_tmp.

End Sys.

(** ** [ms_oauth_cache.py]

    [_log] and [print] only write to the terminal and are left out, and an
    error message is kept up to the place where it quotes the response. *)

Module MsOauth.
Import Py Requests Sys.

Definition TENANT : string := "consumers".
Definition AUTH_BASE : string :=
  "https://login.microsoftonline.com/" +:+ TENANT +:+ "/oauth2/v2.0".
Definition DEVICE_CODE_URL : string := AUTH_BASE +:+ "/devicecode".
Definition TOKEN_URL : string := AUTH_BASE +:+ "/token".
Definition SCOPES : string := "openid profile offline_access".

(** The dataclass.  Its annotations are not enforced: a field holds whatever
    the JSON document had. *)
Record TokenSet : Type := mk_TokenSet {
  access_token : pyval;
  refresh_token : pyval;
  id_token : pyval;
  expires_at : pyval;
  scope : pyval;
  token_type : pyval }.

Definition from_json (d : pyval) : result TokenSet :=
  match d with
  | PDict items =>
      Ok (mk_TokenSet
            (dict_get "access_token" items)
            (dict_get "refresh_token" items)
            (dict_get "id_token" items)
            (dict_get "expires_at" items)
            (dict_get "scope" items)
            (dict_get "token_type" items))
  | _ => Err AttributeError
  end.

Definition to_json (tok : TokenSet) : pyval :=
  PDict [("access_token", access_token tok);
         ("refresh_token", refresh_token tok);
         ("id_token", id_token tok);
         ("expires_at", expires_at tok);
         ("scope", scope tok);
         ("token_type", token_type tok)].

(** [load_cache()]: [exists] is outside the [try] and raises where the
    directory cannot be searched; past it the result is [None] when the
    file is missing, and when reading, parsing or [from_json] raises. *)
Definition load_cache (fs : filesystem) : result (option TokenSet) :=
  match path_exists fs with
  | Err e => Err e
  | Ok false => Ok None
  | Ok true =>
      match cache_file fs with
      | None => Ok None
      | Some f =>
          match read_json f with
          | Ok d =>
              match from_json d with
              | Ok tok => Ok (Some tok)
              | Err _ => Ok None
              end
          | Err _ => Ok None
          end
      end
  end.

Definition save_cache (tok : TokenSet) : M unit := write_secure (to_json tok).

(** How [get_token] obtained the token. *)
Inductive mode : Type :=
  | cached_access
  | refreshed
  | device_login.

(** A step of the poll loop: go round again with this interval, or return
    this token. *)
Inductive poll_step : Type :=
  | Continue (interval : Z)
  | Finished (tok : TokenSet).

Section Client.

(** The token service, the client id of the environment ([MS_CLIENT_ID];
    the module exits at import when it is empty), and Python's [int] on a
    [str] ([None] when it raises [ValueError]). *)
Variable ep : endpoint.
Variable CLIENT_ID : string.
Variable int_of_str : string -> option Z.

(** [is_access_token_valid(tok)] with its default [skew_seconds=60]. *)
Definition is_access_token_valid (tok : TokenSet) : M bool :=
  let skew_seconds := 60 in
  if negb (truthy (access_token tok)) || negb (truthy (expires_at tok))
  then mret false
  else
    t ← time_int;
    e ← lift (py_int int_of_str (expires_at tok));
    mret (t + skew_seconds <? e).

(** The [print] of the sign-in instructions: it reads [dc["verification_uri"]]
    and [dc["user_code"]] when there is no [message]. *)
Definition instructions (dc : list (string * pyval)) : result unit :=
  if truthy (dict_get "message" dc) then Ok tt
  else
    match dict_item "verification_uri" dc with
    | Err e => Err e
    | Ok _ =>
        match dict_item "user_code" dc with
        | Err e => Err e
        | Ok _ => Ok tt
        end
    end.

(** The poll of the token endpoint. *)
Definition poll_request (device_code : pyval) : request :=
  mk_request TOKEN_URL []
    [("grant_type", PStr "urn:ietf:params:oauth:grant-type:device_code");
     ("client_id", PStr CLIENT_ID);
     ("device_code", device_code)]
    PNone.

(** Body of [while time.time() < deadline] in [device_code_login]. *)
Definition poll_body (dc : list (string * pyval)) (interval : Z)
    : M poll_step :=
  _ ← sleep interval;
  device_code ← lift (dict_item "device_code" dc);
  tr ← post ep (poll_request device_code);
  if status_code tr =? 200 then
    t ← lift (json tr);
    t ← lift (as_dict t);
    expires_in ←
      lift (py_int int_of_str (dict_get_default "expires_in" (PInt 3600) t));
    t_now ← time_int;
    let tok :=
      mk_TokenSet
        (dict_get "access_token" t)
        (dict_get "refresh_token" t)
        (dict_get "id_token" t)
        (PInt (t_now + expires_in))
        (dict_get "scope" t)
        (dict_get "token_type" t) in
    _ ← save_cache tok;
    mret (Finished tok)
  else
    body ← lift (json tr);
    items ← lift (as_dict body);
    let err := dict_get "error" items in
    if is_str err "authorization_pending" || is_str err "slow_down" then
      mret (Continue (if is_str err "slow_down" then interval + 5
                      else interval))
    else raise (RuntimeError "Device code token failed: " (Some body)).

(** The poll loop.  [fuel] bounds the number of turns the model follows;
    [None] is a loop cut off by that bound. *)
Fixpoint poll_loop (fuel : nat) (dc : list (string * pyval))
    (interval deadline : Z) (w : world) : option (result TokenSet * world) :=
  match fuel with
  | O => None
  | S fuel' =>
      if now w <? deadline then
        match poll_body dc interval w with
        | (Ok (Continue interval'), w') =>
            poll_loop fuel' dc interval' deadline w'
        | (Ok (Finished tok), w') => Some (Ok tok, w')
        | (Err e, w') => Some (Err e, w')
        end
      else
        Some (Err (TimeoutError
                     "Device code expired before you finished signing in."),
              w)
  end.

(** The device-code request. *)
Definition device_code_request : request :=
  mk_request DEVICE_CODE_URL []
    [("client_id", PStr CLIENT_ID); ("scope", PStr SCOPES)] PNone.

(** [device_code_login()] up to the loop: the device authorization with its
    [interval] and [expires_in]. *)
Definition device_authorization : M (list (string * pyval) * Z * Z) :=
  r ← post ep device_code_request;
  if negb (status_code r =? 200) then
    raise (RuntimeError "Device code request failed. " None)
  else
    dc ← lift (json r);
    dc ← lift (as_dict dc);
    _ ← lift (instructions dc);
    interval ←
      lift (py_int int_of_str (dict_get_default "interval" (PInt 5) dc));
    expires_in ←
      lift (py_int int_of_str (dict_get_default "expires_in" (PInt 900) dc));
    mret (dc, interval, expires_in).

(** [device_code_login()] *)
Definition device_code_login (fuel : nat) (w : world)
    : option (result TokenSet * world) :=
  match device_authorization w with
  | (Ok (dc, interval, expires_in), w') =>
      poll_loop fuel dc interval (now w' + 1000 * expires_in) w'
  | (Err e, w') => Some (Err e, w')
  end.

(** The refresh request. *)
Definition refresh_request (tok : TokenSet) : request :=
  mk_request TOKEN_URL []
    [("client_id", PStr CLIENT_ID);
     ("grant_type", PStr "refresh_token");
     ("refresh_token", refresh_token tok);
     ("scope", PStr SCOPES)]
    PNone.

(** [refresh(tok)] *)
Definition refresh (tok : TokenSet) : M TokenSet :=
  if negb (truthy (refresh_token tok)) then
    raise (RuntimeError
             "No refresh_token in cache; need interactive device login."
             None)
  else
    r ← post ep (refresh_request tok);
    if negb (status_code r =? 200) then
      match json r with
      | Ok j => raise (RuntimeError "Refresh failed: " (Some j))
      | Err _ => raise (RuntimeError "Refresh failed: HTTP " None)
      end
    else
      t ← lift (json r);
      t ← lift (as_dict t);
      expires_in ←
        lift (py_int int_of_str
                (dict_get_default "expires_in" (PInt 3600) t));
      t_now ← time_int;
      let new_tok :=
        mk_TokenSet
          (dict_get "access_token" t)
          (py_or (dict_get "refresh_token" t) (refresh_token tok))
          (py_or (dict_get "id_token" t) (id_token tok))
          (PInt (t_now + expires_in))
          (py_or (dict_get "scope" t) (scope tok))
          (py_or (dict_get "token_type" t) (token_type tok)) in
      _ ← save_cache new_tok;
      mret new_tok.

(** [return device_code_login(), "device_login"] *)
Definition interactive (fuel : nat) (w : world)
    : option (result (TokenSet * mode) * world) :=
  match device_code_login fuel w with
  | Some (Ok tok, w') => Some (Ok (tok, device_login), w')
  | Some (Err e, w') => Some (Err e, w')
  | None => None
  end.

(** [get_token()] *)
Definition get_token (fuel : nat) (w : world)
    : option (result (TokenSet * mode) * world) :=
  match load_cache (disk w) with
  | Err e => Some (Err e, w)
  | Ok None => interactive fuel w
  | Ok (Some tok) =>
      match is_access_token_valid tok w with
      | (Err e, w1) => Some (Err e, w1)
      | (Ok true, w1) => Some (Ok (tok, cached_access), w1)
      | (Ok false, w1) =>
          if truthy (refresh_token tok) then
            match refresh tok w1 with
            | (Ok new_tok, w2) => Some (Ok (new_tok, refreshed), w2)
            | (Err _, w2) => interactive fuel w2
            end
          else interactive fuel w1
      end
  end.

End Client.

End MsOauth.

(** ** [msal.py]

    The script is the module body; its [print]s are left out. *)

Module Msal.
Import Py Requests Sys.

Definition CLIENT_ID : string := "04b07795-8ddb-461a-bbee-02f9e1bf7b46".
Definition TENANT : string := "consumers".
Definition DEVICE_CODE_URL : string :=
  "https://login.microsoftonline.com/" +:+ TENANT +:+ "/oauth2/v2.0/devicecode".
Definition TOKEN_URL : string :=
  "https://login.microsoftonline.com/" +:+ TENANT +:+ "/oauth2/v2.0/token".
Definition SCOPES : string := "openid profile offline_access".

(** [r.raise_for_status()] *)
Definition raise_for_status (r : response) : result unit :=
  if (400 <=? status_code r) && (status_code r <? 600)
  then Err HTTPError else Ok tt.

(** [j[k]] for a string [k]: only a dict can be indexed by it. *)
Definition subscript (j : pyval) (k : string) : result pyval :=
  match j with
  | PDict items => dict_item k items
  | _ => Err TypeError
  end.

Section Script.

Variable ep : endpoint.
Variable int_of_str : string -> option Z.

(** Body of the module's [while time.time() < deadline]: [None] is
    [continue], [Some tt] is [break]. *)
Definition poll_body (j : pyval) (interval : Z) : M (option unit) :=
  device_code ← lift (subscript j "device_code");
  tok ← post ep
          (mk_request TOKEN_URL []
             [("grant_type",
               PStr "urn:ietf:params:oauth:grant-type:device_code");
              ("client_id", PStr CLIENT_ID);
              ("device_code", device_code)]
             PNone);
  if status_code tok =? 200 then
    t ← lift (json tok);
    _ ← lift (as_dict t);
    mret (Some tt)
  else
    e ← lift (json tok);
    items ← lift (as_dict e);
    let err := dict_get "error" items in
    if is_str err "authorization_pending" || is_str err "slow_down" then
      _ ← sleep (interval + (if is_str err "slow_down" then 5 else 0));
      mret None
    else raise (RuntimeError "" (Some e)).

(** The loop with its [else] clause. *)
Fixpoint poll_loop (fuel : nat) (j : pyval) (interval deadline : Z)
    (w : world) : option (result unit * world) :=
  match fuel with
  | O => None
  | S fuel' =>
      if now w <? deadline then
        match poll_body j interval w with
        | (Ok None, w') => poll_loop fuel' j interval deadline w'
        | (Ok (Some _), w') => Some (Ok tt, w')
        | (Err e, w') => Some (Err e, w')
        end
      else Some (Err (TimeoutError "Device code expired."), w)
  end.

(** The statements before the loop. *)
Definition device_authorization : M (pyval * Z * Z) :=
  dc ← post ep
         (mk_request DEVICE_CODE_URL []
            [("client_id", PStr CLIENT_ID); ("scope", PStr SCOPES)] PNone);
  _ ← lift (raise_for_status dc);
  j ← lift (json dc);
  _ ← lift (subscript j "message");
  items ← lift (as_dict j);
  interval ←
    lift (py_int int_of_str (dict_get_default "interval" (PInt 5) items));
  expires_in ←
    lift (py_int int_of_str (dict_get_default "expires_in" (PInt 900) items));
  mret (j, interval, expires_in).

(** The script. *)
Definition main (fuel : nat) (w : world) : option (result unit * world) :=
  match device_authorization w with
  | (Ok (j, interval, expires_in), w') =>
      poll_loop fuel j interval (now w' + 1000 * expires_in) w'
  | (Err e, w') => Some (Err e, w')
  end.

End Script.

End Msal.

(** ** The exchange matrix and the enumeration, as the specification words
       them *)

Module XboxSpec.
Import Py Flow Requests Xbox.

(** One trial of the matrix: relying party, header flag, candidate. *)
Definition combination : Type := string * bool * ticket.

(** The combinations in their order of trial: relying party outermost, then
    the header present and absent, then the candidates. *)
Definition combinations (uniq : list ticket) : list combination :=
  rp ← relying_parties; c ← [true; false]; t ← uniq; [(rp, c, t)].

Definition request_of (c : combination) : request :=
  attempt_request c.2.2 c.1.1 c.1.2.

Definition label_of (c : combination) : string :=
  attempt_label c.2.1 c.1.1 c.1.2.

(** The label of an attempt as the digest shows it: the label of the
    candidate, the relying party and the header flag. *)
Definition stated_label (c : combination) : string :=
  "XBL(" +:+ c.2.1 +:+ ",rp=" +:+ c.1.1 +:+ ",contract="
    +:+ (if c.1.2 then "True" else "False") +:+ ")".

(** The entries of the digest for the combinations tried and the responses
    to them: the first twelve attempts, each with its status code. *)
Definition digest_entries (cs : list combination) (rs : list response)
    : list string :=
  (λ cr : combination * response,
     stated_label cr.1 +:+ "=" +:+ pretty (status_code cr.2))
  <$> take 12 (zip cs rs).

(** The message of the failure that carries that digest. *)
Definition stated_message (cs : list combination) (rs : list response)
    : string :=
  "XBL user/authenticate failed. First attempts: "
    +:+ String.concat ", " (digest_entries cs rs).

(** One turn of the exchange seen as a single loop over [combinations]. *)
Definition trial (ep : endpoint) (c : combination)
    : xstate -> outcome xstate pyval :=
  try_candidate ep c.1.1 c.1.2 c.2.

(** The state in which a block ended. *)
Definition state_of {S R : Type} (o : outcome S R) : S :=
  match o with
  | Next s | Return _ s | Raise _ s => s
  end.

(** Removal of duplicates by key, keeping first occurrences, in order;
    [seen] are the keys met so far. *)
Fixpoint keep_first {A : Type} (key : A -> string) (seen : list string)
    (l : list A) : list A :=
  match l with
  | [] => []
  | x :: rest =>
      if decide (key x ∈ seen) then keep_first key seen rest
      else x :: keep_first key (key x :: seen) rest
  end.

(** The twelve prefixed variants of the six bases, [d=] and [t=] of each
    base in turn. *)
Definition prefixed (bs : list (string * string)) : list ticket :=
  b ← bs; [("d=" +:+ b.1, "d=" +:+ b.2); ("t=" +:+ b.1, "t=" +:+ b.2)].

Definition nonempty (l : list ticket) : list ticket :=
  filter (λ t : ticket, t.2 ≠ "") l.

Section Stated.

Variable unquote : string -> option string.
Variable quote : string -> string.

(** The eighteen encoded values of section 4.5, as the sentence lists them:
    the decoded form, the raw form, the raw form without its escapes, the
    re-encoding of the three, and the six with each prefix. *)
Definition stated_forms (decoded raw : string) : list string :=
  let three := [decoded; raw; raw_fragment_decoded_of unquote raw] in
  let six := three ++ (quote <$> three) in
  six ++ (b ← six; ["d=" +:+ b; "t=" +:+ b]).

(** The enumeration of section 4.5: those values without later duplicates.
    An absent raw form stands for the decoded one. *)
Definition stated_enumeration (decoded : string) (raw : option string)
    : list string :=
  keep_first id [] (stated_forms decoded (raw_fragment_of decoded raw)).

End Stated.

End XboxSpec.

(** ** Concrete services for the examples *)

Module Scenario.
Import Py Requests.

(** An exchange endpoint that answers 200 to the seventh request it
    receives and 401 to every other. *)
Definition seventh_accepts : Xbox.endpoint :=
  λ n _, Answer (mk_response (if (n =? 6)%nat then 200 else 401)
                   (Doc (PDict [("Token", PStr "xbl")]))).

(** An exchange endpoint that answers 401 to everything. *)
Definition always_401 : Xbox.endpoint :=
  λ _ _, Answer (mk_response 401 Garbage).

End Scenario.

(** ** Logs of a device-code session, as the specification reads them *)

Module MsSpec.
Import Py Requests Sys MsOauth.

(** The arguments of [time.sleep] in a log, oldest first. *)
Definition sleeps (log : list event) : list Z :=
  omap (λ e, match e with Slept n => Some n | Posted _ _ => None end) log.

(** The requests of a log, oldest first. *)
Definition requests (log : list event) : list request :=
  omap (λ e, match e with Posted rq _ => Some rq | Slept _ => None end) log.

(** An answer of the token endpoint that carries the provider error
    [code]: any status but 200 and a JSON object whose [error] is [code]. *)
Definition error_answer (code : string) (a : answer) : Prop :=
  ∃ r items, a = Answer r ∧ status_code r ≠ 200
             ∧ body r = Doc (PDict items)
             ∧ dict_get "error" items = PStr code.

Definition is_error_answer (code : string) (a : answer) : bool :=
  match a with
  | Answer r =>
      negb (status_code r =? 200)
      && match body r with
         | Doc (PDict items) => is_str (dict_get "error" items) code
         | _ => false
         end
  | NoAnswer _ => false
  end.

Definition is_slow_down (e : event) : bool :=
  match e with
  | Posted _ a => is_error_answer "slow_down" a
  | Slept _ => false
  end.

(** The number of [slow_down] answers in a log. *)
Definition slow_downs (log : list event) : Z :=
  Z.of_nat (length (filter (λ e, is_slow_down e) log)).

(** The time the first [k] polls take, when the first of them is the
    request of index [base]. *)
Fixpoint poll_latency (ep : endpoint) (rq : request) (base k : nat) : Z :=
  match k with
  | O => 0
  | S k' => Z.of_N (latency (ep base rq)) + poll_latency ep rq (S base) k'
  end.

(** The log of [k] turns of the poll loop at a fixed interval: a sleep, then
    the poll; the first poll is the request of index [base]. *)
Fixpoint pending_log (ep : endpoint) (rq : request) (interval : Z)
    (base k : nat) : list event :=
  match k with
  | O => []
  | S k' =>
      Slept interval :: Posted rq (answer_of (ep base rq))
      :: pending_log ep rq interval (S base) k'
  end.

(** The answer [a] to the device-code request is a device authorization
    [dc] with these [interval] and [expires_in]. *)
Definition grants (int_of_str : string -> option Z) (a : answer)
    (dc : list (string * pyval)) (interval expires_in : Z) : Prop :=
  ∃ r, a = Answer r ∧ status_code r = 200 ∧ body r = Doc (PDict dc)
       ∧ instructions dc = Ok tt
       ∧ py_int int_of_str (dict_get_default "interval" (PInt 5) dc)
         = Ok interval
       ∧ py_int int_of_str (dict_get_default "expires_in" (PInt 900) dc)
         = Ok expires_in.

(** A cache that [load_cache] finds absent: the directory is missing, or
    it can be searched and the file is missing, cannot be read, is not
    JSON, or is JSON that is not an object. *)
Definition unusable (fs : filesystem) : Prop :=
  match fs with
  | Missing _ => True
  | Present m p cache _ =>
      permits S_IXUSR m p = true
      ∧ match cache with
        | None => True
        | Some f =>
            readable f = false
            ∨ text f = Garbage
            ∨ ∃ v, text f = Doc v ∧ ∀ items, v ≠ PDict items
        end
  end.

(** A cache directory in which [save_cache] can write: a missing one can
    be made; one that is there is the process's own or lets it write and
    search and, when sticky, holds no cache file of somebody else; and a
    file left at [.tmp] is the process's own and writable. *)
Definition can_save (fs : filesystem) : Prop :=
  match fs with
  | Missing creatable => creatable = true
  | Present m p cache tmp =>
      (owns p = true
       ∨ (permits S_IWUSR m p = true ∧ permits S_IXUSR m p = true
          ∧ (sticky m = false
             ∨ match cache with
               | Some g => owns (who g) = true
               | None => True
               end)))
      ∧ match tmp with
        | None => True
        | Some f => writable f = true ∧ owns (who f) = true
        end
  end.

(** The values Python takes for false: [None], [False], a zero, and the
    empty string, list and dict. *)
Definition empty_value (v : pyval) : bool :=
  match v with
  | PNone | PBool false | PInt 0 | PFloat (SpecFloat.S754_zero _)
  | PStr EmptyString | PList [] | PDict [] => true
  | _ => false
  end.

(** The field [k] of the refreshed token as the rule is stated: the value
    the response [t] has for it when present, the prior value when the
    response omits it. *)
Definition stated_field (k : string) (t : list (string * pyval))
    (prior : pyval) : pyval :=
  match assoc k t with
  | Some v => v
  | None => prior
  end.

(** The four fields [refresh] takes from the prior token when the response
    lacks them, with their JSON names. *)
Definition rotating_fields : list ((TokenSet -> pyval) * string) :=
  [(refresh_token, "refresh_token"); (id_token, "id_token");
   (scope, "scope"); (token_type, "token_type")].

(** [tok] is the token issued by the last answer in the log of [w]: a 200
    response whose JSON object [t] gave the access token, and whose
    [expires_in] ([3600] when absent) was added to the time of [w]. *)
Definition issued (int_of_str : string -> option Z) (tok : TokenSet)
    (w : world) : Prop :=
  ∃ rq r t e,
    last (trace w) = Some (Posted rq (Answer r))
    ∧ status_code r = 200
    ∧ body r = Doc (PDict t)
    ∧ py_int int_of_str (dict_get_default "expires_in" (PInt 3600) t) = Ok e
    ∧ access_token tok = dict_get "access_token" t
    ∧ expires_at tok = PInt (Z.quot (now w) 1000 + e).

(** The lifetime left to a token whose [expires_at] is [e], in
    milliseconds. *)
Definition remaining_ms (e : Z) (w : world) : Z := 1000 * e - now w.

End MsSpec.

(** ** Concrete services and worlds for the examples *)

Module MsScenario.
Import Py Requests Sys MsOauth.

(** Decimal digits only; enough for the examples. *)
Fixpoint digits_value (acc : Z) (s : string) : option Z :=
  match s with
  | EmptyString => Some acc
  | String c rest =>
      let n := Z.of_N (N_of_ascii c) in
      if (48 <=? n) && (n <=? 57) then digits_value (10 * acc + (n - 48)) rest
      else None
  end.

Definition int_of_digits (s : string) : option Z :=
  match s with
  | EmptyString => None
  | _ => digits_value 0 s
  end.

(** The answer to a device-code request. *)
Definition device_reply (interval expires_in : Z) : reply :=
  mk_reply 0
    (Answer (mk_response 200
       (Doc (PDict [("device_code", PStr "DEVICE");
                    ("user_code", PStr "ABCD1234");
                    ("verification_uri", PStr "https://microsoft.com/link");
                    ("message", PStr "Open the page and enter the code.");
                    ("interval", PInt interval);
                    ("expires_in", PInt expires_in)])))).

(** A provider error, answered after [lat] milliseconds. *)
Definition error_reply (lat : N) (code : string) : reply :=
  mk_reply lat (Answer (mk_response 400 (Doc (PDict [("error", PStr code)])))).

(** interval 5, expires_in 20, and every poll answered
    [authorization_pending] after [lat] milliseconds. *)
Definition always_pending (lat : N) : endpoint :=
  λ n _, match n with
         | O => device_reply 5 20
         | S _ => error_reply lat "authorization_pending"
         end.

(** interval 5, expires_in 20; the first poll is answered [slow_down], the
    later ones [authorization_pending]. *)
Definition slow_down_once : endpoint :=
  λ n _, match n with
         | O => device_reply 5 20
         | S O => error_reply 0 "slow_down"
         | S (S _) => error_reply 0 "authorization_pending"
         end.

(** A token endpoint that grants every refresh a token good for 30
    seconds. *)
Definition short_lived : endpoint :=
  λ _ _, mk_reply 0
           (Answer (mk_response 200
              (Doc (PDict [("access_token", PStr "fresh");
                           ("expires_in", PInt 30)])))).

(** A token endpoint that refuses every request with [invalid_grant]. *)
Definition refusing : endpoint :=
  λ _ _, error_reply 0 "invalid_grant".

(** The user's own cache directory, with no file in it. *)
Definition empty_dir : filesystem := Present 448 Owner None None.

(** The user's own cache directory with a cache file of mode [0o600]. *)
Definition cache_dir (c : content) : filesystem :=
  Present 448 Owner (Some (mk_file 384 Owner c)) None.

(** A world with no cache, at 1 700 000 000 s after the epoch. *)
Definition fresh_world : world := mk_world 1700000000000 empty_dir 0 [].

(** A cached token with ten seconds left. *)
Definition stale_token : TokenSet :=
  mk_TokenSet (PStr "old") (PStr "refresh-1") (PStr "id-1")
    (PInt 1700000010) (PStr "openid profile offline_access") (PStr "Bearer").

(** A cache file that is not JSON. *)
Definition corrupt_dir : filesystem := cache_dir Garbage.

(** A refresh answer that brings a new access token and nothing else. *)
Definition bare_refresh : endpoint :=
  λ _ _, mk_reply 0
           (Answer (mk_response 200
              (Doc (PDict [("access_token", PStr "fresh")])))).

(** A refresh answer that brings a new access token and an empty scope. *)
Definition empty_scope_items : list (string * pyval) :=
  [("access_token", PStr "fresh"); ("scope", PStr "")].

Definition empty_scope : endpoint :=
  λ _ _, mk_reply 0 (Answer (mk_response 200 (Doc (PDict empty_scope_items)))).

Definition stale_world : world :=
  mk_world 1700000000000 (cache_dir (Doc (to_json stale_token))) 0 [].

(** A cache file that is a JSON object whose [expires_at] is a word. *)
Definition mistyped_world : world :=
  mk_world 1700000000000
    (cache_dir (Doc (PDict [("access_token", PStr "old");
                            ("refresh_token", PStr "refresh-1");
                            ("expires_at", PStr "soon")])))
    0 [].

(** The user's own cache directory with the search permission taken away
    (mode [0o600]), the stale token in it. *)
Definition locked_world : world :=
  mk_world 1700000000000
    (Present 384 Owner (Some (mk_file 384 Owner (Doc (to_json stale_token))))
       None)
    0 [].

End MsScenario.

(** ** Python strings, as far as the scripts use them *)

Module PyStr.

(** [s.split(sep)] for a separator of one character. *)
Fixpoint split (sep : ascii) (s : string) : list string :=
  match s with
  | EmptyString => [EmptyString]
  | String c rest =>
      if Ascii.eqb c sep then EmptyString :: split sep rest
      else
        match split sep rest with
        | head :: tail => String c head :: tail
        | [] => [String c EmptyString]
        end
  end.

(** [s.split(sep, 1)] where [sep in s]: the text before the first separator
    and the text after it.  [None] when [sep not in s]. *)
Fixpoint cut (sep : ascii) (s : string) : option (string * string) :=
  match s with
  | EmptyString => None
  | String c rest =>
      if Ascii.eqb c sep then Some (EmptyString, rest)
      else
        match cut sep rest with
        | Some (k, v) => Some (String c k, v)
        | None => None
        end
  end.

(** A byte that continues a code point in UTF-8. *)
Definition is_continuation (c : ascii) : bool :=
  (N_of_ascii c / 64 =? 2)%N.

(** [len(s)]: the number of code points. *)
Fixpoint py_len (s : string) : Z :=
  match s with
  | EmptyString => 0
  | String c rest => (if is_continuation c then 0 else 1) + py_len rest
  end.

(** [s[:n]] for [n >= 0]: the first [n] code points. *)
Fixpoint py_take (n : nat) (s : string) : string :=
  match s with
  | EmptyString => EmptyString
  | String c rest =>
      if is_continuation c then String c (py_take n rest)
      else
        match n with
        | O => EmptyString
        | S n' => String c (py_take n' rest)
        end
  end.

(** [s[:n]] for any integer [n]: a negative [n] counts from the end, so
    that the slice is all of [s] but its last [-n] code points. *)
Definition py_slice_to (n : Z) (s : string) : string :=
  py_take (Z.to_nat (if n <? 0 then py_len s + n else n)) s.

End PyStr.

(** ** [ms_oauth_cache.py]: the helpers of the debug output *)

Module MsOauthTools.
Import Py PyStr.

(** [s.replace("\n", "\\n")]: every line feed becomes a backslash and an
    [n]. *)
Fixpoint escape_newlines (s : string) : string :=
  match s with
  | EmptyString => EmptyString
  | String c rest =>
      if Ascii.eqb c (ascii_of_nat 10)
      then String "\" (String "n" (escape_newlines rest))
      else String c (escape_newlines rest)
  end.

(** [_safe_prefix(s, n)] for a [str] or [None]. *)
Definition _safe_prefix (s : option string) (n : Z) : string :=
  let s := match s with
           | Some t => t
           | None => ""
           end in
  escape_newlines (py_slice_to n s).

(** ["=" * k] *)
Fixpoint equals_signs (k : nat) : string :=
  match k with
  | O => EmptyString
  | S k' => String "=" (equals_signs k')
  end.

Section Jwt.

(** [json.loads(base64.urlsafe_b64decode(text.encode("utf-8")).decode("utf-8"))],
    [None] when one of the three raises. *)
Variable decode_payload : string -> option pyval.

(** [_decode_jwt_claims(token)] *)
Definition _decode_jwt_claims (token : pyval) : result pyval :=
  if negb (truthy token) then Ok (PDict [])
  else
    match token with
    | PStr token =>
        let parts := split "." token in
        if (length parts <? 2)%nat then Ok (PDict [])
        else
          let payload_b64 := nth 1 parts "" in
          let pad :=
            equals_signs (Z.to_nat ((4 - py_len payload_b64 `mod` 4) `mod` 4)) in
          match decode_payload (payload_b64 +:+ pad) with
          | Some claims => Ok claims
          | None => Ok (PDict [])
          end
    | _ => Err AttributeError
    end.

End Jwt.

End MsOauthTools.

(** ** [xbox_tokens_device_code.py]: the token of the redirect, the second
       exchange and [main] *)

Module XboxMain.
Import Py Flow Requests Xbox PyStr.

Definition XSTS_AUTH_URL : string :=
  "https://xsts.auth.xboxlive.com/xsts/authorize".

(** *** The token of the redirect

    The block of [live_msa_tokens_via_playwright] that is entered once the
    browser has reached the redirect URI with a fragment: [url] is that
    URL and [fragment] is [urlparse(url).fragment].  The browser, the wait
    for the redirect and the [print] are left out. *)

(** The dict returned: every value is a [str] or [None], and
    [redirect_url] is a [str]. *)
Record ms_tokens : Type := mk_ms_tokens {
  ms_access_token_raw : option string;
  ms_access_token : option string;
  ms_refresh_token_raw : option string;
  ms_refresh_token : option string;
  ms_token_type : option string;
  ms_expires_in : option string;
  ms_scope : option string;
  ms_user_id : option string;
  ms_redirect_url : string }.

(** [a or b] on values that are a [str] or [None]. *)
Definition str_or (a b : option string) : option string :=
  match a with
  | Some s => if String.eqb s "" then b else a
  | None => b
  end.

(** The dicts [frag_raw] and [frag_decoded]. *)
Definition frags : Type := gmap string string * gmap string string.

Section Redirect.

(** [urllib.parse.unquote], with the exception it raises if it does. *)
Variable unquote : string -> result string.

(** Body of [for part in (parsed.fragment or "").split("&")]. *)
Definition fragment_part (part : string) (st : frags)
    : outcome frags ms_tokens :=
  if String.eqb part "" then Next st
  else
    match cut "=" part with
    | None => Next (<[part := ""]> st.1, <[part := ""]> st.2)
    | Some (k, v) =>
        match unquote v with
        | Ok decoded => Next (<[k := v]> st.1, <[k := decoded]> st.2)
        | Err e => Raise e (<[k := v]> st.1, st.2)
        end
    end.

Definition token_of_redirect (url fragment : string) : result ms_tokens :=
  match for_each (split "&" fragment) fragment_part (∅, ∅) with
  | Next (frag_raw, frag_decoded) =>
      if bool_decide (frag_raw !! "access_token" = None)
         && bool_decide (frag_decoded !! "access_token" = None)
      then
        Err (RuntimeError
               "Redirect reached but missing access_token fragment: "
               (Some (PStr url)))
      else
        let both k := str_or (frag_decoded !! k) (frag_raw !! k) in
        Ok (mk_ms_tokens
              (frag_raw !! "access_token")
              (both "access_token")
              (frag_raw !! "refresh_token")
              (both "refresh_token")
              (both "token_type")
              (both "expires_in")
              (both "scope")
              (both "user_id")
              url)
  | Return token _ => Ok token
  | Raise e _ => Err e
  end.

End Redirect.

(** *** Exceptions and subscripts of [main] *)

(** What [main] can raise: the exceptions of [Py], and those of an index
    into a list, a string or a dict. *)
Inductive raised : Type :=
  | Exn (e : exn)
  | IndexError
  | KeyError_int (key : Z).

Inductive res (A : Type) : Type :=
  | Val (a : A)
  | Exc (x : raised).
Arguments Val {A} a.
Arguments Exc {A} x.

#[global] Instance res_ret : MRet res := @Val.
#[global] Instance res_bind : MBind res :=
  λ A B k m, match m with Val a => k a | Exc x => Exc x end.

(** [v[k]] for a string [k]. *)
Definition item (v : pyval) (k : string) : res pyval :=
  match v with
  | PDict items =>
      match assoc k items with
      | Some x => Val x
      | None => Exc (Exn (KeyError k))
      end
  | _ => Exc (Exn TypeError)
  end.

(** [v[0]] *)
Definition first_item (v : pyval) : res pyval :=
  match v with
  | PList (x :: _) => Val x
  | PList [] => Exc IndexError
  | PStr EmptyString => Exc IndexError
  | PStr s => Val (PStr (py_take 1 s))
  | PDict _ => Exc (KeyError_int 0)
  | PNone | PBool _ | PInt _ | PFloat _ => Exc (Exn TypeError)
  end.

(** [v.get(k)] *)
Definition get (v : pyval) (k : string) : res pyval :=
  match v with
  | PDict items => Val (dict_get k items)
  | _ => Exc (Exn AttributeError)
  end.

(** [v["DisplayClaims"]["xui"][0]] *)
Definition display_claims (v : pyval) : res pyval :=
  a ← item v "DisplayClaims"; b ← item a "xui"; first_item b.

(** What a called function hands to its caller: falling off the end
    returns [None]. *)
Definition returned {S : Type} (o : outcome S pyval) : res pyval * S :=
  match o with
  | Return v s => (Val v, s)
  | Next s => (Val PNone, s)
  | Raise e s => (Exc (Exn e), s)
  end.

(** *** The output file *)

(** The directory of [CACHE]: whether a file can be created in it, and
    the file. *)
Record out_dir : Type := mk_out_dir {
  dir_writable : bool;
  out_file : option Sys.file }.

(** [CACHE.write_text(json.dumps(data, indent=2))]: the file is created
    with the default mode, or truncated. *)
Definition write_text (data : pyval) (d : out_dir) : result unit * out_dir :=
  match out_file d with
  | Some f =>
      if Sys.writable f
      then (Ok tt, mk_out_dir (dir_writable d)
                     (Some (Sys.mk_file (Sys.mode f) (Sys.who f) (Doc data))))
      else (Err OSError, d)
  | None =>
      if dir_writable d
      then (Ok tt, mk_out_dir true
                     (Some (Sys.mk_file 420 Sys.Owner (Doc data))))
      else (Err OSError, d)
  end.

(** *** The second exchange and [main] *)

(** The request of [xsts_authorize]. *)
Definition xsts_request (xbl_token : pyval) : request :=
  let payload :=
    PDict [("Properties",
            PDict [("SandboxId", PStr "RETAIL");
                   ("UserTokens", PList [xbl_token])]);
           ("RelyingParty", PStr "http://xboxlive.com");
           ("TokenType", PStr "JWT")] in
  let headers :=
    [("Content-Type", "application/json");
     ("Accept", "application/json");
     ("User-Agent", UA);
     ("x-xbl-contract-version", "1")] in
  mk_request XSTS_AUTH_URL headers [] payload.

Definition opt_str (o : option string) : pyval :=
  match o with
  | Some s => PStr s
  | None => PNone
  end.

Section Pipeline.

(** [urllib.parse.unquote] ([None] when it raises),
    [urllib.parse.quote(_, safe='')], Python's [repr] of a list or a dict,
    and the service. *)
Variable unquote : string -> option string.
Variable quote : string -> string.
Variable repr : pyval -> string.
Variable ep : endpoint.

(** [xsts_authorize(xbl_token)], on the requests issued so far.  The call
    to [log_resp] only prints and is left out. *)
Definition xsts_authorize (xbl_token : pyval) (s : xstate)
    : outcome xstate pyval :=
  let rq := xsts_request xbl_token in
  let s' := mk_xstate (sent s ++ [rq]) (attempts s) in
  match ep (length (sent s)) rq with
  | NoAnswer e => Raise e s'
  | Answer r =>
      if negb (status_code r =? 200) then
        Raise (RuntimeError
                 ("XSTS authorize failed: " +:+ pretty (status_code r)) None)
          s'
      else
        match json r with
        | Ok v => Return v s'
        | Err e => Raise e s'
        end
  end.

(** A value inside an f-string. *)
Definition py_str (v : pyval) : string :=
  match v with
  | PStr s => s
  | PInt z => pretty z
  | PBool b => str_of_bool b
  | PNone => "None"
  | PFloat _ | PList _ | PDict _ => repr v
  end.

(** The entry ["ms"] of the output. *)
Definition ms_summary (ms : ms_tokens) (ms_access_token : string) : pyval :=
  let ms_access_token_raw := ms_access_token_raw ms in
  PDict [("token_type", opt_str (ms_token_type ms));
         ("scope", opt_str (ms_scope ms));
         ("expires_in", opt_str (ms_expires_in ms));
         ("user_id", opt_str (ms_user_id ms));
         ("has_refresh_token", PBool (truthy (opt_str (ms_refresh_token ms))));
         ("access_token_len", PInt (py_len ms_access_token));
         ("access_token_raw_len",
          match ms_access_token_raw with
          | Some raw => if String.eqb raw "" then PNone else PInt (py_len raw)
          | None => PNone
          end);
         ("redirect_url_prefix", PStr (py_take 80 (ms_redirect_url ms)))].

Definition authorization_header (uhs xsts_token : pyval) : string :=
  "XBL3.0 x=" +:+ py_str uhs +:+ ";" +:+ py_str xsts_token.

(** [main] from the return of [xbl_user_authenticate] on: [xbl] is the
    value returned and [s] holds the requests issued so far. *)
Definition main_exchanged (ms : ms_tokens) (ms_access_token : string)
    (xbl : pyval) (s : xstate) (d : out_dir)
    : res unit * (list request * out_dir) :=
  match
    xbl_token ← item xbl "Token";
    claims ← display_claims xbl;
    uhs ← item claims "uhs";
    mret (xbl_token, uhs)
  with
  | Exc x => (Exc x, (sent s, d))
  | Val (xbl_token, uhs) =>
      let (xsts, s') := returned (xsts_authorize xbl_token s) in
      match
        xsts ← xsts;
        xsts_token ← item xsts "Token";
        claims ← display_claims xsts;
        xid ← get claims "xid";
        claims ← display_claims xsts;
        xsts_uhs ← item claims "uhs";
        mret
          (PDict [("ms", ms_summary ms ms_access_token);
                  ("xbl", PDict [("uhs", uhs); ("token", xbl_token)]);
                  ("xsts", PDict [("uhs", xsts_uhs); ("xid", xid);
                                  ("token", xsts_token)]);
                  ("authorization_header",
                   PStr (authorization_header uhs xsts_token))])
      with
      | Exc x => (Exc x, (sent s', d))
      | Val out =>
          match write_text out d with
          | (Ok _, d') => (Val tt, (sent s', d'))
          | (Err e, d') => (Exc (Exn e), (sent s', d'))
          end
      end
  end.

(** [main()], on the dict [ms] that [live_msa_tokens_via_playwright]
    returned.  The [print]s are left out.  The result carries the requests
    issued and the directory of the output file. *)
Definition main (ms : ms_tokens) (d : out_dir)
    : res unit * (list request * out_dir) :=
  let no_token :=
    (Exc (Exn (RuntimeError
                 "No access_token from login.live.com token response" None)),
     ([], d)) in
  match ms_access_token ms with
  | None => no_token
  | Some ms_access_token =>
      if String.eqb ms_access_token "" then no_token
      else
        let (xbl, s) :=
          returned (xbl_user_authenticate unquote quote ep ms_access_token
                      (ms_access_token_raw ms)) in
        match xbl with
        | Exc x => (Exc x, (sent s, d))
        | Val xbl => main_exchanged ms ms_access_token xbl s d
        end
  end.

End Pipeline.

End XboxMain.

(** ** [get_xsts.py]

    The script is the module body.  The two settings it reads from the
    environment are given as they are after [strip()]; the [print]s before
    an exit are left out, and the four lines printed at the end are the
    result. *)

Module GetXsts.
Import Py Flow Requests Xbox PyStr XboxMain.

Definition xbl_url : string :=
  "https://user.auth.xboxlive.com/user/authenticate".
Definition xsts_url : string :=
  "https://xsts.auth.xboxlive.com/xsts/authorize".

(** The request of [post_json(url, payload)]. *)
Definition post_json_request (url : string) (payload : pyval) : request :=
  mk_request url [("Content-Type", "application/json")] [] payload.

Definition xbl_payload (MSA_ACCESS_TOKEN : string) : pyval :=
  PDict [("Properties",
          PDict [("AuthMethod", PStr "RPS");
                 ("SiteName", PStr "user.auth.xboxlive.com");
                 ("RpsTicket", PStr ("d=" +:+ MSA_ACCESS_TOKEN))]);
         ("RelyingParty", PStr "http://auth.xboxlive.com");
         ("TokenType", PStr "JWT")].

Definition xsts_payload (xbl_token : pyval) (RELYING_PARTY : string) : pyval :=
  PDict [("Properties",
          PDict [("SandboxId", PStr "RETAIL");
                 ("UserTokens", PList [xbl_token])]);
         ("RelyingParty", PStr RELYING_PARTY);
         ("TokenType", PStr "JWT")].

(** How the script ends: it has printed its lines, it has raised
    [SystemExit] with this argument, or another exception came out. *)
Inductive ending : Type :=
  | Printed (lines : list string)
  | SystemExit (code : pyval)
  | Uncaught (x : raised).

(** The double quote, as a string. *)
Definition dquote : string := String (ascii_of_nat 34) EmptyString.

Section Script.

(** Python's [repr] of a list or a dict, the service,
    [os.environ.get("MSA_ACCESS_TOKEN", "").strip()] and
    [os.environ.get("XSTS_RELYING_PARTY", "http://xboxlive.com").strip()]. *)
Variable repr : pyval -> string.
Variable ep : endpoint.
Variable MSA_ACCESS_TOKEN : string.
Variable XSTS_RELYING_PARTY : string.

Definition RELYING_PARTY : string :=
  if String.eqb XSTS_RELYING_PARTY "" then "http://xboxlive.com"
  else XSTS_RELYING_PARTY.

(** One [post_json] and the test of its status, as the [n]-th request:
    the body when the status is 200. *)
Definition post_json_200 (n : nat) (url : string) (payload : pyval)
    : ending + content :=
  match ep n (post_json_request url payload) with
  | NoAnswer e => inl (Uncaught (Exn e))
  | Answer r =>
      if negb (status_code r =? 200) then inl (SystemExit (PInt 1))
      else inr (body r)
  end.

(** [json.loads(body)] *)
Definition loads (body : content) : res pyval :=
  match body with
  | Doc v => Val v
  | Garbage => Exc (Exn JSONDecodeError)
  end.

Definition exports (uhs xsts_token : pyval) : list string :=
  ["export XSTS_UHS=" +:+ dquote +:+ py_str repr uhs +:+ dquote;
   "export XSTS_TOKEN=" +:+ dquote +:+ py_str repr xsts_token +:+ dquote;
   "export XBL3_AUTH=" +:+ dquote +:+ "XBL3.0 x=" +:+ py_str repr uhs
     +:+ ";" +:+ py_str repr xsts_token +:+ dquote;
   "export XSTS_RELYING_PARTY=" +:+ dquote +:+ RELYING_PARTY +:+ dquote].

(** The script: how it ends, and the requests it has issued. *)
Definition script : ending * list request :=
  if String.eqb MSA_ACCESS_TOKEN "" then
    (SystemExit
       (PStr "Set MSA_ACCESS_TOKEN to the live.com access_token first"), [])
  else
    let first := post_json_request xbl_url (xbl_payload MSA_ACCESS_TOKEN) in
    match post_json_200 0 xbl_url (xbl_payload MSA_ACCESS_TOKEN) with
    | inl stop => (stop, [first])
    | inr body =>
        match
          xbl ← loads body;
          xbl_token ← item xbl "Token";
          claims ← display_claims xbl;
          uhs ← item claims "uhs";
          mret (xbl_token, uhs)
        with
        | Exc x => (Uncaught x, [first])
        | Val (xbl_token, uhs) =>
            let payload := xsts_payload xbl_token RELYING_PARTY in
            let second := post_json_request xsts_url payload in
            match post_json_200 1 xsts_url payload with
            | inl stop => (stop, [first; second])
            | inr body =>
                match xsts ← loads body; item xsts "Token" with
                | Exc x => (Uncaught x, [first; second])
                | Val xsts_token =>
                    (Printed (exports uhs xsts_token), [first; second])
                end
            end
        end
    end.

End Script.

End GetXsts.

(** ** [json_to_ndjson.py] and [convert_to_ndjson.py]

    A JSON document is a [pyval]; what the scripts write is the list of the
    documents they dump, one to a line. *)

Module Ndjson.
Import Py.

Definition is_dict (v : pyval) : bool :=
  match v with
  | PDict _ => true
  | _ => false
  end.

Definition is_list (v : pyval) : bool :=
  match v with
  | PList _ => true
  | _ => false
  end.

(** [d.values()] *)
Definition values (items : list (string * pyval)) : list pyval := items.*2.

(** A generator that has run: what it yielded, and the exception that ended
    it, if one did. *)
Definition generated : Type := list pyval * option exn.

(** The loops of [iter_records]: each value is yielded if it is a dict, and
    the first that is not raises. *)
Fixpoint yield_dicts (vs : list pyval) : generated :=
  match vs with
  | [] => ([], None)
  | v :: rest =>
      if is_dict v then
        let (ys, e) := yield_dicts rest in (v :: ys, e)
      else ([], Some ValueError)
  end.

(** [iter_records(payload)] of [json_to_ndjson.py] *)
Definition iter_records (payload : pyval) : generated :=
  match payload with
  | PDict items => yield_dicts (values items)
  | PList l => yield_dicts l
  | _ => ([], Some TypeError)
  end.

(** The choice of [items] in [main] of [convert_to_ndjson.py]; [None] is
    [sys.exit(3)]. *)
Definition items_of (data : pyval) : option (list pyval) :=
  match data with
  | PDict d =>
      match assoc "games" d with
      | Some (PList games) => Some games
      | _ =>
          let list_fields := filter (λ v, is_list v = true) (values d) in
          match list_fields with
          | [PList l] => Some l
          | _ => Some (values d)
          end
      end
  | PList l => Some l
  | _ => None
  end.

End Ndjson.

(** ** Invariants of the session, for the statements about the cache *)

Module MsInvariants.
Import Py Requests Sys MsOauth.

(** The disk after a block: the returned token is the one in the cache; a
    block that raised or goes round again left the cache file alone. *)
Definition persisted {A : Type} (tok_of : A -> option TokenSet)
    (w : world) (out : result A * world) : Prop :=
  match out.1 with
  | Ok a =>
      match tok_of a with
      | Some tok => load_cache (disk out.2) = Ok (Some tok)
      | None => cache_file (disk out.2) = cache_file (disk w)
      end
  | Err _ => cache_file (disk out.2) = cache_file (disk w)
  end.

End MsInvariants.

(** ** The fields of the redirect, read off the fragment *)

Module RedirectSpec.
Import Py PyStr XboxMain.

(** The key and the value of a part [key=value]; a part without [=] is a
    key with an empty value. *)
Definition key_of (part : string) : string :=
  match cut "=" part with
  | Some (k, _) => k
  | None => part
  end.

Definition value_of (part : string) : string :=
  match cut "=" part with
  | Some (_, v) => v
  | None => ""
  end.

(** The parts of a list that are not empty and have the key [k]. *)
Definition with_key (k : string) (parts : list string) : list string :=
  filter (λ p, p ≠ "" ∧ key_of p = k) parts.

(** The last part of the fragment with the key [k]. *)
Definition last_part (k fragment : string) : option string :=
  last (with_key k (split "&" fragment)).

Section Decoded.

(** [urllib.parse.unquote], where it does not raise. *)
Variable decode : string -> string.

Definition decoded_value_of (part : string) : string :=
  match cut "=" part with
  | Some (_, v) => decode v
  | None => ""
  end.

(** The field [k] of the token: the decoded value of the last part with
    that key, or its raw value when the decoded one is empty. *)
Definition field (k fragment : string) : option string :=
  str_or (decoded_value_of <$> last_part k fragment)
    (value_of <$> last_part k fragment).

End Decoded.

End RedirectSpec.

(** ** More services and worlds for the examples *)

Module MsScenarioMore.
Import Py Requests Sys MsOauth.

(** A cached token whose expiry is not a number. *)
Definition odd_expiry_token : TokenSet :=
  mk_TokenSet (PStr "old") (PStr "refresh-1") PNone (PStr "soon") PNone PNone.

Definition odd_expiry_world : world :=
  mk_world 1700000000000
    (MsScenario.cache_dir (Doc (to_json odd_expiry_token))) 0 [].

(** The stale token in a directory of somebody else, which the process
    can search and not write. *)
Definition read_only_world : world :=
  mk_world 1700000000000
    (Present 493 Other
       (Some (mk_file 420 Other (Doc (to_json MsScenario.stale_token))))
       None)
    0 [].

(** A cache file that holds the empty object. *)
Definition hollow_world : world :=
  mk_world 1700000000000 (MsScenario.cache_dir (Doc (PDict []))) 0 [].

(** The JSON object of [device_reply]. *)
Definition grant_items (interval expires_in : Z) : list (string * pyval) :=
  [("device_code", PStr "DEVICE");
   ("user_code", PStr "ABCD1234");
   ("verification_uri", PStr "https://microsoft.com/link");
   ("message", PStr "Open the page and enter the code.");
   ("interval", PInt interval);
   ("expires_in", PInt expires_in)].

(** A device authorization with these [interval] and [expires_in], and
    every poll answered with the provider error [code] at once. *)
Definition answering (interval expires_in : Z) (code : string) : endpoint :=
  λ n _, match n with
         | O => MsScenario.device_reply interval expires_in
         | S _ => MsScenario.error_reply 0 code
         end.

(** A device authorization that lacks the device code. *)
Definition codeless_items : list (string * pyval) :=
  [("message", PStr "Open the page and enter the code.");
   ("interval", PInt 5);
   ("expires_in", PInt 20)].

Definition codeless : endpoint :=
  λ _ _, mk_reply 0 (Answer (mk_response 200 (Doc (PDict codeless_items)))).

(** The world in which the poll loop starts after [device_reply], twenty
    seconds before the deadline. *)
Definition polling_world : world :=
  mk_world 1700000000000 MsScenario.empty_dir 1 [].

End MsScenarioMore.

(** ** More exchange services for the examples *)

Module ScenarioMore.
Import Py Requests.

(** An exchange endpoint that answers 401 twice and then drops the
    connection. *)
Definition drops_third : Xbox.endpoint :=
  λ n _, if (n =? 2)%nat then NoAnswer RequestException
         else Answer (mk_response 401 Garbage).

End ScenarioMore.

(** ** A redirect and a service for the examples *)

Module RedirectScenario.
Import Py Requests XboxMain.

(** [unquote] as a function that never raises. *)
Definition unquote_ok (s : string) : result string :=
  Ok (Urllib.unquote_bytes s).

(** A fragment with two access tokens, the later one with an escaped
    slash, a plus sign and padding. *)
Definition fragment : string :=
  "access_token=old&token_type=bearer&&access_token=a%2Fb+c==&novalue".

Definition url : string :=
  "https://login.live.com/oauth20_desktop.srf?lc=1033#" +:+ fragment.

(** The answer of the first exchange, and that of the second. *)
Definition xbl_body : pyval :=
  PDict [("Token", PStr "xbl-token");
         ("DisplayClaims", PDict [("xui", PList [PDict [("uhs", PStr "1234")]])])].

Definition xsts_body : pyval :=
  PDict [("Token", PStr "xsts-token");
         ("DisplayClaims",
          PDict [("xui", PList [PDict [("uhs", PStr "1234");
                                       ("xid", PStr "2533")]])])].

(** A service that accepts the first ticket and authorizes its token. *)
Definition accepting : Xbox.endpoint :=
  λ _ rq, if String.eqb (rq_url rq) XSTS_AUTH_URL
          then Answer (mk_response 200 (Doc xsts_body))
          else Answer (mk_response 200 (Doc xbl_body)).

(** The token of a redirect whose access token is [a/b]. *)
Definition ms : ms_tokens :=
  mk_ms_tokens (Some "a%2Fb") (Some "a/b") None None (Some "bearer")
    (Some "86400") None None
    "https://login.live.com/oauth20_desktop.srf#access_token=a%2Fb".

(** An empty directory in which files can be made. *)
Definition empty_out : out_dir := mk_out_dir true None.

(** [repr] is not needed where tokens are strings. *)
Definition no_repr (v : pyval) : string := "".

End RedirectScenario.

(** ** A dump for the examples *)

Module NdjsonScenario.
Import Py.

(** Two records under their identifiers. *)
Definition dump : list (string * pyval) :=
  [("3030-1", PDict [("name", PStr "Desert Strike")]);
   ("3030-2", PDict [("name", PStr "Breakfree"); ("id", PInt 2)])].

End NdjsonScenario.

(** * Theorems *)

(** ** Loops *)

Module FlowFacts.
Import Py Flow.

Lemma for_each_app {X S R : Type} (xs ys : list X)
    (body : X -> S -> outcome S R) (s : S) :
  for_each (xs ++ ys) body s =
  match for_each xs body s with
  | Next s' => for_each ys body s'
  | stop => stop
  end.
Proof.
  revert s. induction xs as [|x xs IH]; intros s; simpl; [done|].
  destruct (body x s); auto.
Qed.

Lemma for_each_ext {X S R : Type} (xs : list X)
    (f g : X -> S -> outcome S R) (s : S) :
  (∀ x s', f x s' = g x s') -> for_each xs f s = for_each xs g s.
Proof.
  intros E. revert s. induction xs as [|x xs IH]; intros s; simpl; [done|].
  rewrite E. destruct (g x s); auto.
Qed.

Lemma for_each_singleton {X S R : Type} (x : X)
    (body : X -> S -> outcome S R) (s : S) :
  for_each [x] body s = body x s.
Proof. simpl. by destruct (body x s). Qed.

(** A loop over a flattened list is the nest of the two loops. *)
Lemma for_each_bind {X Y S R : Type} (xs : list X) (f : X -> list Y)
    (body : Y -> S -> outcome S R) (s : S) :
  for_each (x ← xs; f x) body s =
  for_each xs (λ x, for_each (f x) body) s.
Proof.
  revert s. induction xs as [|x xs IH]; intros s; [done|].
  rewrite bind_cons, for_each_app. simpl.
  destruct (for_each (f x) body s); auto.
Qed.

End FlowFacts.

(** ** The candidate encoder *)

Module XboxFacts.
Import Py Flow Requests Xbox XboxSpec FlowFacts.

Lemma add_app (tickets : list ticket) (label tk : string) :
  add tickets label tk = tickets ++ nonempty [(label, tk)].
Proof.
  unfold add, nonempty. rewrite filter_cons, filter_nil. simpl.
  destruct (String.eqb_spec tk "") as [->|Hne].
  - rewrite decide_False by (intros H; by apply H). by rewrite app_nil_r.
  - by rewrite decide_True.
Qed.

Lemma foldl_add_prefixed (bs : list (string * string)) (acc : list ticket) :
  foldl add_prefixed acc bs = acc ++ prefixed bs.
Proof.
  revert acc. induction bs as [|b bs IH]; intros acc.
  - simpl. by rewrite app_nil_r.
  - simpl. rewrite IH. unfold add_prefixed, add. simpl.
    rewrite <- !app_assoc. done.
Qed.

(** The fold of the loop computes [keep_first], whatever represents the
    set [seen]. *)
Lemma foldl_dedup_step (l : list ticket) (seen : gset string)
    (seen' : list string) (uniq : list ticket) :
  (∀ x, x ∈ seen ↔ x ∈ seen') →
  (foldl dedup_step (seen, uniq) l).2 = uniq ++ keep_first snd seen' l.
Proof.
  revert seen seen' uniq.
  induction l as [|lt l IH]; intros seen seen' uniq Hs; simpl.
  - by rewrite app_nil_r.
  - unfold dedup_step at 2. simpl.
    destruct (decide (lt.2 ∈ seen)) as [Hin|Hin].
    + rewrite decide_True by (by apply Hs). by apply IH.
    + rewrite decide_False by (by rewrite <- Hs).
      rewrite (IH _ (lt.2 :: seen')).
      * by rewrite <- app_assoc.
      * intros x. rewrite elem_of_union, elem_of_singleton, elem_of_cons, Hs.
        done.
Qed.

Section Encoder.

Context (unquote : string -> option string) (quote : string -> string).

Local Abbreviation candidates := (candidates unquote quote).
Local Abbreviation all_tickets := (all_tickets unquote quote).
Local Abbreviation bases := (bases unquote quote).

Lemma all_tickets_eq (d : string) (raw : option string) :
  all_tickets d raw = nonempty (bases d raw) ++ prefixed (bases d raw).
Proof.
  unfold Xbox.all_tickets. rewrite foldl_add_prefixed. f_equal.
  rewrite !add_app. unfold Xbox.bases, nonempty. simpl.
  rewrite !filter_cons, !filter_nil. simpl.
  repeat case_decide; done.
Qed.

Lemma candidates_keep_first (d : string) (raw : option string) :
  candidates d raw = keep_first snd [] (all_tickets d raw).
Proof.
  unfold Xbox.candidates.
  rewrite (foldl_dedup_step _ ∅ []); [done|].
  intros x. rewrite elem_of_nil. set_solver.
Qed.

Lemma keep_first_fresh {A : Type} (key : A -> string) (l : list A)
    (seen : list string) (x : A) :
  x ∈ keep_first key seen l → (key x ∉ seen) ∧ (x ∈ l).
Proof.
  revert seen. induction l as [|y l IH]; intros seen; simpl.
  - by intros ?%elem_of_nil.
  - case_decide as Hy.
    + intros [? ?]%IH. split; [done|by right].
    + intros [->|Hx]%elem_of_cons.
      * split; [done|by left].
      * apply IH in Hx as [Hs ?]. split; [|by right].
        intros ?. apply Hs. by right.
Qed.

Lemma all_tickets_nonempty_values (d : string) (raw : option string)
    (t : ticket) :
  t ∈ all_tickets d raw → t.2 ≠ "".
Proof.
  rewrite all_tickets_eq, elem_of_app. intros [Ht|Ht].
  - unfold nonempty in Ht. by apply list_elem_of_filter in Ht as [? _].
  - unfold prefixed in Ht. apply list_elem_of_bind in Ht as (b & Ht & _).
    apply elem_of_cons in Ht as [->|Ht]; [done|].
    apply elem_of_cons in Ht as [->|Ht]; [done|].
    by apply elem_of_nil in Ht.
Qed.

Lemma keep_first_cons_twice {A : Type} (key : A -> string) (x y : A)
    (l : list A) :
  key y = key x →
  keep_first key [] (x :: y :: l) = x :: keep_first key [key x] l.
Proof.
  intros E. simpl. rewrite E. by rewrite decide_True by (by left).
Qed.

Lemma keep_first_not_nil {A : Type} (key : A -> string) (l : list A) :
  l ≠ [] → keep_first key [] l ≠ [].
Proof.
  destruct l as [|x l]; [done|]. intros _. simpl. done.
Qed.

Lemma candidates_not_nil (d : string) (raw : option string) :
  candidates d raw ≠ [].
Proof.
  rewrite candidates_keep_first. apply keep_first_not_nil.
  rewrite all_tickets_eq. intros [_ H]%app_eq_nil.
  unfold Xbox.bases, prefixed in H. by rewrite bind_cons in H.
Qed.

Lemma keep_first_values (seen : list string) (l : list ticket) :
  (keep_first snd seen l).*2 = keep_first id seen (l.*2).
Proof.
  revert seen. induction l as [|x l IH]; intros seen; simpl; [done|].
  case_decide; simpl; by rewrite IH.
Qed.

Lemma filter_none {A : Type} (P : A → Prop) `{!∀ x, Decision (P x)}
    (l : list A) :
  (∀ x, x ∈ l → ¬ P x) → filter P l = [].
Proof.
  induction l as [|x l IH]; intros Hl; [done|].
  rewrite filter_cons_False by (apply Hl; by left).
  apply IH. intros y Hy. apply Hl. by right.
Qed.

Lemma candidates_nonempty_values (d : string) (raw : option string)
    (t : ticket) :
  t ∈ candidates d raw → t.2 ≠ "".
Proof.
  rewrite candidates_keep_first. intros [_ Ht]%keep_first_fresh.
  by apply all_tickets_nonempty_values in Ht.
Qed.

Lemma nonempty_values (l : list ticket) :
  (nonempty l).*2 = filter (λ v : string, v ≠ "") (l.*2).
Proof.
  unfold nonempty. induction l as [|x l IH]; [done|].
  rewrite fmap_cons, !filter_cons.
  destruct (decide (x.2 ≠ "")); by rewrite ?fmap_cons, IH.
Qed.

Lemma prefixed_values (bs : list (string * string)) :
  (prefixed bs).*2 = b ← bs.*2; ["d=" +:+ b; "t=" +:+ b].
Proof.
  unfold prefixed. induction bs as [|b bs IH]; [done|].
  rewrite fmap_cons, !bind_cons, fmap_app, IH. done.
Qed.

Lemma prefixed_values_nonempty (vs : list string) :
  filter (λ v : string, v ≠ "") (b ← vs; ["d=" +:+ b; "t=" +:+ b])
  = b ← vs; ["d=" +:+ b; "t=" +:+ b].
Proof.
  induction vs as [|v vs IH]; [done|].
  rewrite bind_cons, filter_app, IH. f_equal.
Qed.

(** C2, as amended: the enumeration is a function of the two inputs alone;
    its encoded values are those of the stated list (decoded, raw, raw
    without escapes, the three re-encoded, each of the six under [d=] and
    under [t=]) in that order, with the empty values left out and then the
    later duplicates removed; the raw form is the decoded one when it is
    absent or empty.  With labels: the non-empty ones of the six bases, then
    the twelve prefixed variants, first occurrences kept. *)
Theorem candidate_enumeration (d : string) (raw : option string) :
  candidates d raw
  = keep_first snd [] (nonempty (bases d raw) ++ prefixed (bases d raw))
  ∧ (candidates d raw).*2
    = keep_first id []
        (filter (λ v : string, v ≠ "")
           (stated_forms unquote quote d (raw_fragment_of d raw))).
Proof.
  split.
  - by rewrite candidates_keep_first, all_tickets_eq.
  - rewrite candidates_keep_first, all_tickets_eq, keep_first_values.
    f_equal. rewrite fmap_app, nonempty_values, prefixed_values.
    unfold stated_forms.
    rewrite filter_app, prefixed_values_nonempty. done.
Qed.

(** C10: the enumeration without a raw form is the enumeration with the
    decoded token as raw form; no candidate has an empty encoded value; and
    the candidates whose value is the token itself are a single one,
    labelled [decoded] (none when the token is empty). *)
Theorem raw_defaults_to_decoded (d : string) :
  candidates d None = candidates d (Some d)
  ∧ (∀ raw t, t ∈ candidates d raw → t.2 ≠ "")
  ∧ filter (λ t : ticket, t.2 = d) (candidates d None)
    = if decide (d = "") then [] else [("decoded", d)].
Proof.
  split; [|split].
  - unfold Xbox.candidates, Xbox.all_tickets, Xbox.bases, raw_fragment_of.
    by destruct (String.eqb d "").
  - intros raw t. apply candidates_nonempty_values.
  - case_decide as Hd.
    + apply filter_none. intros t Ht%candidates_nonempty_values. congruence.
    + rewrite candidates_keep_first, all_tickets_eq.
      assert (∃ rest, nonempty (bases d None) ++ prefixed (bases d None)
                      = ("decoded", d) :: ("rawfrag", d) :: rest)
        as [rest ->].
      { unfold Xbox.bases, nonempty. simpl raw_fragment_of.
        rewrite filter_cons_True by done. rewrite filter_cons_True by done.
        eauto. }
      rewrite keep_first_cons_twice by done.
      rewrite filter_cons_True by done. f_equal.
      apply filter_none. intros t [Ht _]%keep_first_fresh. simpl.
      intros E. apply Ht. rewrite E. by left.
Qed.

End Encoder.

(** C2, as stated, fails on the empty token: the stated enumeration begins
    with the decoded form, the code skips it. *)
Lemma enumeration_as_stated_fails :
  (Xbox.candidates Urllib.unquote Urllib.quote "" None).*2
  ≠ stated_enumeration Urllib.unquote Urllib.quote "" None.
Proof. vm_compute. discriminate. Qed.

End XboxFacts.

(** ** The platform-user exchange *)

Module ExchangeFacts.
Import Py Flow Requests Xbox XboxSpec FlowFacts XboxFacts.

Section Exchange.

Context (unquote : string -> option string) (quote : string -> string).
Context (ep : endpoint).

Local Abbreviation candidates := (candidates unquote quote).
Local Abbreviation xbl_user_authenticate :=
  (xbl_user_authenticate unquote quote ep).

Local Abbreviation trial := (trial ep).

(** The three nested loops are one loop over [combinations]. *)
Lemma nested_loops_flat (uniq : list ticket) (s : xstate) :
  for_each relying_parties (λ relying_party,
    for_each [true; false] (λ with_contract,
      for_each uniq (try_candidate ep relying_party with_contract))) s
  = for_each (combinations uniq) trial s.
Proof.
  unfold combinations. rewrite for_each_bind.
  apply for_each_ext; intros rp s1.
  rewrite for_each_bind. apply for_each_ext; intros c s2.
  rewrite for_each_bind. apply for_each_ext; intros t s3.
  by rewrite for_each_singleton.
Qed.

(** While every answer is a failure the loop goes on: it has issued the
    requests of the combinations in order and recorded each answer. *)
Lemma trials_all_fail (cs : list combination) (s : xstate) :
  (∀ j c, cs !! j = Some c →
     ∃ r, ep (length (sent s) + j)%nat (request_of c) = Answer r
          ∧ status_code r ≠ 200) →
  ∃ new,
    for_each cs trial s
    = Next (mk_xstate (sent s ++ (request_of <$> cs)) (attempts s ++ new))
    ∧ length new = length cs
    ∧ ∀ j c, cs !! j = Some c →
        ∃ r, ep (length (sent s) + j)%nat (request_of c) = Answer r
             ∧ new !! j = Some (label_of c, r).
Proof.
  revert s. induction cs as [|c cs IH]; intros s H.
  - exists []. simpl. rewrite !app_nil_r. by destruct s.
  - destruct (H 0%nat c eq_refl) as (r & Hr & Hst).
    rewrite Nat.add_0_r in Hr.
    simpl. unfold XboxSpec.trial at 1, try_candidate. fold (request_of c).
    rewrite Hr. apply Z.eqb_neq in Hst. rewrite Hst. simpl.
    edestruct (IH (mk_xstate (sent s ++ [request_of c])
                     (attempts s ++ [(label_of c, r)]))) as (new & E & L & N).
    { intros j c' Hj. simpl. rewrite length_app. simpl.
      replace (length (sent s) + 1 + j)%nat with (length (sent s) + S j)%nat
        by lia.
      by apply H. }
    exists ((label_of c, r) :: new). split; [|split].
    + fold (label_of c). rewrite E. simpl. by rewrite <- !app_assoc.
    + simpl. by rewrite L.
    + intros [|j] c' Hj; simpl in *.
      * injection Hj as <-. exists r. by rewrite Nat.add_0_r.
      * destruct (N j c' Hj) as (r' & Hr' & Hn). exists r'. split; [|done].
        rewrite length_app in Hr'. simpl in Hr'.
        by replace (length (sent s) + S j)%nat
          with (length (sent s) + 1 + j)%nat by lia.
Qed.

(** Whatever the service answers, the requests issued are the requests of
    an initial segment of [combinations], in that order. *)
Lemma trials_in_order (cs : list combination) (s : xstate) :
  ∃ n, sent (state_of (for_each cs trial s))
       = sent s ++ (request_of <$> take n cs).
Proof.
  revert s. induction cs as [|c cs IH]; intros s.
  - exists 0%nat. simpl. by rewrite app_nil_r.
  - simpl. unfold XboxSpec.trial at 1, try_candidate. fold (request_of c).
    destruct (ep (length (sent s)) (request_of c)) as [r|e].
    + destruct (status_code r =? 200).
      * exists 1%nat. by destruct (json r).
      * simpl. fold (label_of c).
        destruct (IH (mk_xstate (sent s ++ [request_of c])
                        (attempts s ++ [(label_of c, r)])))
          as [n Hn].
        exists (S n). rewrite Hn. simpl. by rewrite <- app_assoc.
    + by exists 1%nat.
Qed.

Lemma combinations_not_nil (uniq : list ticket) :
  uniq ≠ [] → combinations uniq ≠ [].
Proof. destruct uniq; [done|]. intros _. done. Qed.

(** Whatever the service answers, the requests issued are those of an
    initial segment of the combinations, in their order. *)
Lemma exchange_requests_in_order (d : string) (raw : option string) :
  ∃ n, sent (state_of (xbl_user_authenticate d raw))
       = request_of <$> take n (combinations (candidates d raw)).
Proof.
  unfold Xbox.xbl_user_authenticate. rewrite nested_loops_flat.
  generalize (combinations (candidates d raw)). intros cs.
  destruct (trials_in_order cs xstate0) as [n Hn].
  exists n. simpl in Hn.
  by destruct (for_each _ _ _).
Qed.


(** The attempts recorded while every answer is a failure: the label of
    each combination with the response to it. *)
Lemma attempts_all_fail (cs : list combination)
    (new : list (string * response)) :
  length new = length cs →
  (∀ j c, cs !! j = Some c →
     ∃ r, ep j (request_of c) = Answer r ∧ new !! j = Some (label_of c, r)) →
  new = zip (stated_label <$> cs) new.*2
  ∧ ∀ j c, cs !! j = Some c →
      ∃ r, new.*2 !! j = Some r ∧ ep j (request_of c) = Answer r.
Proof.
  intros L N. split.
  - apply list_eq. intros j. rewrite lookup_zip_with, !list_lookup_fmap.
    destruct (cs !! j) as [c|] eqn:Hc; simpl.
    + destruct (N j c Hc) as (r & _ & ->). done.
    + apply lookup_ge_None in Hc. rewrite <- L in Hc.
      by apply lookup_ge_None in Hc as ->.
  - intros j c Hc. destruct (N j c Hc) as (r & Hr & Hn). exists r.
    by rewrite list_lookup_fmap, Hn.
Qed.

(** The message built from the recorded attempts is the stated one. *)
Lemma failure_message_stated (cs : list combination) (rs : list response) :
  failure_message (zip (stated_label <$> cs) rs) = stated_message cs rs.
Proof.
  unfold failure_message, summary_of, stated_message, digest_entries.
  do 2 f_equal. generalize 12%nat. intros n. revert n rs.
  induction cs as [|c cs IH]; intros [|n] [|r rs]; simpl; try done.
  by rewrite IH.
Qed.

(** C9: when every combination is answered with a status other than 200,
    every attempt is recorded in order, as the label of the candidate, the
    relying party and the header flag with the response to it, and the call
    raises [RuntimeError] with the message that carries the digest of the
    first twelve attempts, each with its label and the status actually
    returned; the digest has at least one entry and at most twelve, and its
    first entry is that of the first request. *)
Theorem exhaustion_report (d : string) (raw : option string) :
  (∀ j c, combinations (candidates d raw) !! j = Some c →
     ∃ r, ep j (request_of c) = Answer r ∧ status_code r ≠ 200) →
  ∃ s rs,
    length rs = length (combinations (candidates d raw))
    ∧ (∀ j c, combinations (candidates d raw) !! j = Some c →
         ∃ r, rs !! j = Some r ∧ ep j (request_of c) = Answer r)
    ∧ xbl_user_authenticate d raw
      = Raise (RuntimeError
                 (stated_message (combinations (candidates d raw)) rs) None) s
    ∧ sent s = request_of <$> combinations (candidates d raw)
    ∧ attempts s = zip (stated_label <$> combinations (candidates d raw)) rs
    ∧ length (digest_entries (combinations (candidates d raw)) rs)
      = Nat.min 12 (length (combinations (candidates d raw)))
    ∧ (1 ≤ length (digest_entries (combinations (candidates d raw)) rs)
       ≤ 12)%nat
    ∧ ∃ c r, combinations (candidates d raw) !! 0%nat = Some c
             ∧ ep 0%nat (request_of c) = Answer r
             ∧ digest_entries (combinations (candidates d raw)) rs !! 0%nat
               = Some (stated_label c +:+ "=" +:+ pretty (status_code r)).
Proof.
  unfold Xbox.xbl_user_authenticate. rewrite nested_loops_flat.
  pose proof (combinations_not_nil _ (candidates_not_nil unquote quote d raw))
    as Hne.
  revert Hne. generalize (combinations (candidates d raw)).
  intros cs Hne Hfail.
  destruct (trials_all_fail cs xstate0 Hfail) as (new & E & L & N).
  destruct (attempts_all_fail cs new L N) as [Hz Hrs].
  rewrite E. simpl.
  exists (mk_xstate (request_of <$> cs) new), new.*2.
  assert (length (digest_entries cs new.*2) = Nat.min 12 (length cs)) as Hl.
  { unfold digest_entries.
    rewrite length_fmap, length_take, length_zip_with, length_fmap. lia. }
  split_and!; simpl; try done.
  - by rewrite length_fmap.
  - by rewrite <- failure_message_stated, <- Hz.
  - rewrite Hl. destruct cs; [done|]. simpl. lia.
  - lia.
  - destruct cs as [|c cs']; [done|].
    destruct (Hrs 0%nat c eq_refl) as (r & Hr & He).
    exists c, r. split; [done|]. split; [done|].
    unfold digest_entries. destruct (new.*2); [done|].
    simpl in *. by injection Hr as ->.
Qed.

End Exchange.


(** An endpoint that rejects everything: the error carries the first
    twelve of the attempts made. *)
Lemma exhaustion_report_always_401 :
  ∃ s rs,
    Xbox.xbl_user_authenticate Urllib.unquote Urllib.quote
      Scenario.always_401 "a/b" (Some "a%2Fb")
    = Raise (RuntimeError
               (stated_message
                  (combinations
                     (Xbox.candidates Urllib.unquote Urllib.quote "a/b"
                        (Some "a%2Fb")))
                  rs)
               None) s
    ∧ length (digest_entries
                (combinations
                   (Xbox.candidates Urllib.unquote Urllib.quote "a/b"
                      (Some "a%2Fb")))
                rs) = 12%nat.
Proof.
  destruct (exhaustion_report Urllib.unquote Urllib.quote
              Scenario.always_401 "a/b" (Some "a%2Fb"))
    as (s & rs & _ & _ & E & _ & _ & L & _).
  - intros j c _. exists (mk_response 401 Garbage). split; [done|]. simpl. lia.
  - exists s, rs. split; [exact E|]. rewrite L. vm_compute. reflexivity.
Defined.

(** The message of that error as the script raises it: thirty-six attempts
    were made, and the digest shows the first twelve. *)
Example exhaustion_message_always_401 :
  match Xbox.xbl_user_authenticate Urllib.unquote Urllib.quote
          Scenario.always_401 "a/b" (Some "a%2Fb") with
  | Raise (RuntimeError msg None) s =>
      length (attempts s) = 36%nat
      ∧ msg
        = "XBL user/authenticate failed. First attempts: "
          +:+ "XBL(decoded,rp=http://auth.xboxlive.com,contract=True)=401, "
          +:+ "XBL(rawfrag,rp=http://auth.xboxlive.com,contract=True)=401, "
          +:+ "XBL(rawfrag_enc,rp=http://auth.xboxlive.com,contract=True)=401, "
          +:+ "XBL(d=decoded,rp=http://auth.xboxlive.com,contract=True)=401, "
          +:+ "XBL(t=decoded,rp=http://auth.xboxlive.com,contract=True)=401, "
          +:+ "XBL(d=rawfrag,rp=http://auth.xboxlive.com,contract=True)=401, "
          +:+ "XBL(t=rawfrag,rp=http://auth.xboxlive.com,contract=True)=401, "
          +:+ "XBL(d=rawfrag_enc,rp=http://auth.xboxlive.com,contract=True)=401, "
          +:+ "XBL(t=rawfrag_enc,rp=http://auth.xboxlive.com,contract=True)=401, "
          +:+ "XBL(decoded,rp=http://auth.xboxlive.com,contract=False)=401, "
          +:+ "XBL(rawfrag,rp=http://auth.xboxlive.com,contract=False)=401, "
          +:+ "XBL(rawfrag_enc,rp=http://auth.xboxlive.com,contract=False)=401"
  | _ => False
  end.
Proof. vm_compute. by split. Qed.

End ExchangeFacts.

(** ** Tactics for the statements of the world *)

Module SysTactics.
Import Py Requests Sys.

(** Open the binds and the primitive statements of [M]. *)
Ltac unfold_M :=
  unfold mbind, M_bind, bind, sleep, lift, post, time_int, mret, M_ret, ret,
    raise, json, as_dict.

(** Follow every branch of the code in the hypotheses and the goal. *)
Ltac all_branches := repeat (case_match; simplify_eq; simpl in * ).

End SysTactics.

(** ** The token cache *)

Module CacheFacts.
Import Py Requests Sys MsOauth MsSpec.

Lemma from_json_to_json (tok : TokenSet) : from_json (to_json tok) = Ok tok.
Proof. by destruct tok. Qed.

(** Open [save_cache] down to the system calls. *)
Ltac unfold_save :=
  unfold save_cache, write_secure, mbind, M_bind, bind, on_disk,
    mkdir_secure, write_tmp, chmod_tmp, replace_tmp, writable.

(** The bits of [0o700] let the owner do everything. *)
Lemma permits_448 (bit : Z) (p : party) :
  owns p = true → In bit [S_IRUSR; S_IWUSR; S_IXUSR] →
  permits bit 448 p = true.
Proof.
  intros Hp Hb. destruct p; try done.
  simpl in Hb. destruct Hb as [<-|[<-|[<-|[]]]]; reflexivity.
Qed.

(** What a successful [save_cache] leaves on disk: a directory that can be
    searched, in it the token in a file of mode [0o600] that is the
    process's own, and nothing at [.tmp]. *)
Lemma save_cache_disk (tok : TokenSet) (w w' : world) :
  save_cache tok w = (Ok tt, w') →
  (∃ m p q,
     disk w' = Present m p (Some (mk_file 384 q (Doc (to_json tok)))) None
     ∧ permits S_IXUSR m p = true ∧ owns q = true)
  ∧ now w' = now w ∧ posts w' = posts w ∧ trace w' = trace w.
Proof.
  unfold_save.
  destruct (disk w) as [[]|m p c [f|]]; simpl; [| |destruct f as [fm q ft]|].
  - intros [= <-]. simpl. split; [|done]. by exists 448, Owner, Owner.
  - done.
  - destruct (owns p) eqn:Hp; simpl;
      repeat (case_match; simplify_eq/=); try done;
      intros [= <-]; simpl; (split; [|done]); do 3 eexists;
      (split; [reflexivity|]); split; try done;
      repeat match goal with
             | H : _ && _ = true |- _ => apply andb_prop in H as [? ?]
             end; done.
  - destruct (owns p) eqn:Hp; simpl;
      repeat (case_match; simplify_eq/=); try done;
      intros [= <-]; simpl; (split; [|done]); do 3 eexists;
      (split; [reflexivity|]); split; try done.
Qed.

(** [save_cache] touches neither the clock nor the log. *)
Lemma save_cache_frame (tok : TokenSet) (w w' : world) (r : result unit) :
  save_cache tok w = (r, w') →
  now w' = now w ∧ posts w' = posts w ∧ trace w' = trace w.
Proof.
  unfold_save.
  repeat (case_match; simplify_eq/=); by intros [= <- <-].
Qed.

(** The bits of [0o600] let the owner read and write. *)
Lemma permits_384 (bit : Z) (p : party) :
  owns p = true → In bit [S_IRUSR; S_IWUSR] → permits bit 384 p = true.
Proof.
  intros Hp Hb. destruct p; try done.
  simpl in Hb. destruct Hb as [<-|[<-|[]]]; reflexivity.
Qed.

(** After [_mkdir_secure] in a directory where [save_cache] can write, the
    directory lets the process write, search and replace the cache file. *)
Lemma can_save_mkdir (m : Z) (p : party) (c t : option file) :
  can_save (Present m p c t) →
  ∃ m', (if owns p then Present 448 p c t else Present m p c t)
        = Present m' p c t
        ∧ permits S_IWUSR m' p = true ∧ permits S_IXUSR m' p = true
        ∧ ∀ q, owns q = true →
            negb (sticky m') || owns p
            || (owns q && match c with
                          | Some g => owns (who g)
                          | None => true
                          end) = true.
Proof.
  intros [Hd _]. destruct (owns p) eqn:Hp.
  - exists 448. rewrite !permits_448 by (simpl; auto).
    by split_and!.
  - destruct Hd as [?|(Hw & Hx & Hs)]; [done|]. exists m.
    split_and!; try done. intros q ->.
    destruct Hs as [->|Hs]; [done|].
    destruct c; rewrite ?Hs; simpl; by rewrite orb_true_r.
Qed.

(** [save_cache] succeeds wherever the directory can be written. *)
Lemma save_cache_succeeds (tok : TokenSet) (w : world) :
  can_save (disk w) → ∃ w', save_cache tok w = (Ok tt, w').
Proof.
  unfold_save.
  destruct (disk w) as [[]|m p c t]; simpl; [eauto|done|].
  intros Hc. destruct (can_save_mkdir _ _ _ _ Hc) as (m' & -> & Hw & Hx & Hs).
  destruct Hc as [_ Ht]. rewrite Hx. destruct t as [f|].
  - destruct Ht as [Hwf Hof]. unfold writable in Hwf. rewrite Hwf. simpl.
    rewrite Hx, Hof. simpl. rewrite Hw, Hx, (Hs _ Hof). simpl. eauto.
  - rewrite Hw. simpl. rewrite Hx. simpl.
    pose proof (Hs Owner eq_refl) as Hs'. simpl in Hs'.
    rewrite Hw, Hx, Hs'. simpl. eauto.
Qed.

Lemma load_after_save (tok : TokenSet) (w w' : world) :
  save_cache tok w = (Ok tt, w') → load_cache (disk w') = Ok (Some tok).
Proof.
  intros [(m & p & q & -> & Hx & Hq) _]%save_cache_disk.
  unfold load_cache, path_exists, read_json, readable. rewrite Hx. simpl.
  rewrite (permits_384 S_IRUSR q) by (simpl; auto).
  by rewrite from_json_to_json.
Qed.

(** C7: a token saved and loaded again is the same token, field by field;
    [from_json] after [to_json] is the identity. *)
Theorem cache_round_trip (tok : TokenSet) (w w' : world) :
  save_cache tok w = (Ok tt, w') →
  load_cache (disk w') = Ok (Some tok) ∧ from_json (to_json tok) = Ok tok.
Proof.
  intros H. split; [by eapply load_after_save|apply from_json_to_json].
Qed.

(** Saving into an empty directory and loading again. *)
Lemma cache_round_trip_stale_token :
  load_cache (disk (save_cache MsScenario.stale_token
                      MsScenario.fresh_world).2)
  = Ok (Some MsScenario.stale_token).
Proof.
  apply (cache_round_trip MsScenario.stale_token MsScenario.fresh_world).
  reflexivity.
Defined.

(** Where the directory is missing, or can be searched and the file is
    missing, unreadable, not JSON or not a JSON object, [load_cache] is
    [None]. *)
Lemma load_cache_unusable (fs : filesystem) :
  unusable fs → load_cache fs = Ok None.
Proof.
  unfold unusable, load_cache, path_exists, read_json.
  destruct fs as [|m p [f|] t]; [done| |]; intros [-> H]; [|done]. simpl.
  destruct H as [Hr|[Ht|(v & Ht & Hv)]].
  - by rewrite Hr.
  - rewrite Ht. by destruct (readable f).
  - rewrite Ht. destruct (readable f); [|done].
    destruct v; try done. by destruct (Hv items).
Qed.

(** With such a cache [get_token] is the device-code login. *)
Lemma get_token_unusable (ep : endpoint) (CLIENT_ID : string)
    (int_of_str : string -> option Z) (fuel : nat) (w : world) :
  unusable (disk w) →
  get_token ep CLIENT_ID int_of_str fuel w
  = interactive ep CLIENT_ID int_of_str fuel w.
Proof. intros Hu%load_cache_unusable. unfold get_token. by rewrite Hu. Qed.

(** C8: two damaged caches that block [get_token].  A cache file that is a
    JSON object whose [expires_at] is a word is loaded, and [int] of the
    word raises [ValueError] out of [get_token]; in a cache directory that
    cannot be searched the [exists] of [load_cache], which is outside its
    [try], raises [PermissionError] (an [OSError]) out of [load_cache] and
    of [get_token].  Neither run makes a request or reaches the device-code
    login, whatever the service. *)
Theorem damaged_cache_blocks (ep : endpoint) (CLIENT_ID : string)
    (fuel : nat) :
  get_token ep CLIENT_ID MsScenario.int_of_digits fuel
    MsScenario.mistyped_world
  = Some (Err ValueError, MsScenario.mistyped_world)
  ∧ load_cache (disk MsScenario.locked_world) = Err OSError
  ∧ get_token ep CLIENT_ID MsScenario.int_of_digits fuel
      MsScenario.locked_world
    = Some (Err OSError, MsScenario.locked_world).
Proof. repeat split. Qed.

End CacheFacts.

(** ** Refresh *)

Module RefreshFacts.
Import Py Requests Sys MsOauth MsSpec CacheFacts SysTactics.

Lemma py_or_missing (k : string) (t : list (string * pyval)) (b : pyval) :
  assoc k t = None → py_or (dict_get k t) b = b.
Proof. unfold py_or, dict_get. by intros ->. Qed.

(** [a or b] keeps [a] unless it is one of Python's empty values. *)
Lemma truthy_empty_value (v : pyval) : truthy v = negb (empty_value v).
Proof.
  by destruct v as [|[]|[]|[]|[]|[]|[]].
Qed.

Lemma py_or_rule (k : string) (t : list (string * pyval)) (b : pyval) :
  py_or (dict_get k t) b
  = match assoc k t with
    | Some v => if empty_value v then b else v
    | None => b
    end.
Proof.
  unfold py_or, dict_get. destruct (assoc k t) as [v|]; [|done]. simpl.
  rewrite truthy_empty_value. by destruct (empty_value v).
Qed.

Section Refresh.

Context (ep : endpoint) (CLIENT_ID : string).
Context (int_of_str : string -> option Z).

Local Abbreviation refresh := (refresh ep CLIENT_ID int_of_str).
Local Abbreviation refresh_request := (refresh_request CLIENT_ID).

(** C6: for a prior token with a refresh token.  On a 200 response the new
    token takes each of [refresh_token], [id_token], [scope] and
    [token_type] from the response where the response has a value for it
    that is not empty, and from the prior token where the response omits
    the field or gives it an empty value ([None], [False], a zero, an empty
    string, list or dict); it is the token then found in the cache; in
    particular a response without [refresh_token] leaves the prior refresh
    token in the cache.  On any other status [refresh] raises after that
    single request and leaves the cache as it was. *)
Theorem refresh_rotation (tok : TokenSet) (w : world) (r : response) :
  truthy (refresh_token tok) = true →
  answer_of (ep (posts w) (refresh_request tok)) = Answer r →
  (status_code r ≠ 200 →
     ∃ msg detail w',
       refresh tok w = (Err (RuntimeError msg detail), w')
       ∧ requests (trace w') = requests (trace w) ++ [refresh_request tok]
       ∧ disk w' = disk w)
  ∧ (status_code r = 200 →
     ∀ t e,
       body r = Doc (PDict t) →
       py_int int_of_str (dict_get_default "expires_in" (PInt 3600) t) = Ok e →
       can_save (disk w) →
       ∃ new_tok w',
         refresh tok w = (Ok new_tok, w')
         ∧ requests (trace w') = requests (trace w) ++ [refresh_request tok]
         ∧ load_cache (disk w') = Ok (Some new_tok)
         ∧ access_token new_tok = dict_get "access_token" t
         ∧ Forall (λ f : (TokenSet -> pyval) * string,
                     f.1 new_tok
                     = match assoc f.2 t with
                       | Some v => if empty_value v then f.1 tok else v
                       | None => f.1 tok
                       end)
             rotating_fields
         ∧ (assoc "refresh_token" t = None →
              ∃ saved, load_cache (disk w') = Ok (Some saved)
                       ∧ refresh_token saved = refresh_token tok)).
Proof.
  intros Hrt Hans.
  unfold MsOauth.refresh. rewrite Hrt. simpl.
  unfold mbind, M_bind, bind, post. rewrite Hans.
  split.
  - intros Hst. apply Z.eqb_neq in Hst. rewrite Hst. simpl.
    destruct (json r) as [j|e0]; unfold raise; do 3 eexists;
      (split; [reflexivity|]); simpl;
      (split; [|done]); unfold requests; by rewrite omap_app.
  - intros Hst t e Hbody He Hsave. rewrite Hst. simpl.
    unfold json, lift. rewrite Hbody. simpl. rewrite He.
    unfold time_int. simpl.
    match goal with |- context [save_cache ?T ?W] =>
      destruct (save_cache_succeeds T W Hsave) as [w' Hw'];
      set (nt := T) in *
    end.
    rewrite Hw'. exists nt, w'. split; [reflexivity|].
    pose proof (load_after_save _ _ _ Hw') as Hload.
    apply save_cache_disk in Hw' as (_ & _ & _ & Htr).
    split; [|split; [done|split; [done|split]]].
    + rewrite Htr. simpl. unfold requests. by rewrite omap_app.
    + unfold rotating_fields. repeat constructor; simpl; apply py_or_rule.
    + intros Hnone. exists nt. split; [done|]. by apply py_or_missing.
Qed.

End Refresh.

(** A refresh answered with a new access token only: the refresh token, the
    id token, the scope and the token type stay those of the cached
    token. *)
Lemma refresh_rotation_bare :
  ∃ new_tok w' saved,
    MsOauth.refresh MsScenario.bare_refresh "client" MsScenario.int_of_digits
      MsScenario.stale_token MsScenario.stale_world = (Ok new_tok, w')
    ∧ load_cache (disk w') = Ok (Some saved)
    ∧ refresh_token saved = PStr "refresh-1".
Proof.
  destruct (refresh_rotation MsScenario.bare_refresh "client"
              MsScenario.int_of_digits MsScenario.stale_token
              MsScenario.stale_world
              (mk_response 200 (Doc (PDict [("access_token", PStr "fresh")])))
              eq_refl eq_refl) as [_ H].
  destruct (H eq_refl [("access_token", PStr "fresh")] 3600 eq_refl eq_refl)
    as (nt & w' & E & _ & _ & _ & _ & L).
  - split; [by left|exact I].
  - destruct (L eq_refl) as (saved & Hl & Hs).
    exists nt, w', saved. by split.
Defined.

(** The rule as stated, on a refresh answered with an empty [scope]: the
    stated rule gives the new token the empty scope of the response, and
    [refresh] gives it the scope of the prior token. *)
Lemma refresh_discards_empty_scope :
  match MsOauth.refresh MsScenario.empty_scope "client"
          MsScenario.int_of_digits MsScenario.stale_token
          MsScenario.stale_world with
  | (Ok new_tok, _) =>
      stated_field "scope" MsScenario.empty_scope_items
        (scope MsScenario.stale_token) = PStr ""
      ∧ scope new_tok = PStr "openid profile offline_access"
      ∧ scope new_tok
        ≠ stated_field "scope" MsScenario.empty_scope_items
            (scope MsScenario.stale_token)
  | _ => False
  end.
Proof. vm_compute. by repeat split. Qed.

End RefreshFacts.

(** ** The credential session *)

Module SessionFacts.
Import Py Requests Sys MsOauth MsSpec CacheFacts SysTactics.

Section Session.

Context (ep : endpoint) (CLIENT_ID : string).
Context (int_of_str : string -> option Z).

Local Abbreviation py_int := (py_int int_of_str).
Local Abbreviation is_access_token_valid :=
  (is_access_token_valid int_of_str).
Local Abbreviation refresh := (refresh ep CLIENT_ID int_of_str).
Local Abbreviation poll_body := (poll_body ep CLIENT_ID int_of_str).
Local Abbreviation poll_loop := (poll_loop ep CLIENT_ID int_of_str).
Local Abbreviation device_code_login :=
  (device_code_login ep CLIENT_ID int_of_str).
Local Abbreviation interactive := (interactive ep CLIENT_ID int_of_str).
Local Abbreviation get_token := (get_token ep CLIENT_ID int_of_str).
Local Abbreviation issued := (issued int_of_str).

Lemma is_access_token_valid_world (tok : TokenSet) (w : world) :
  (is_access_token_valid tok w).2 = w.
Proof.
  unfold MsOauth.is_access_token_valid.
  destruct (_ || _); [done|].
  unfold mbind, M_bind, bind, time_int, lift. simpl.
  by destruct (py_int (expires_at tok)).
Qed.

(** The validity test is the 60-second margin: a token passes when it has
    an access token and more than 60 seconds are left before
    [expires_at]. *)
Lemma valid_iff_margin (tok : TokenSet) (w : world) :
  0 ≤ now w →
  (is_access_token_valid tok w).1 = Ok true
  ↔ truthy (access_token tok) = true
    ∧ truthy (expires_at tok) = true
    ∧ ∃ e, py_int (expires_at tok) = Ok e ∧ 60000 < remaining_ms e w.
Proof.
  intros Hnow. unfold MsOauth.is_access_token_valid, remaining_ms.
  destruct (truthy (access_token tok)), (truthy (expires_at tok)); simpl;
    try (split; [done|by intros (? & ? & _)]).
  unfold mbind, M_bind, bind, time_int, lift. simpl.
  destruct (py_int (expires_at tok)) as [e|x]; simpl.
  - rewrite Z.quot_div_nonneg by lia. split.
    + intros [= H%Z.ltb_lt]. repeat split; try done. exists e. split; [done|].
      Z.div_mod_to_equations. lia.
    + intros (_ & _ & e' & [= <-] & H). f_equal. apply Z.ltb_lt.
      Z.div_mod_to_equations. lia.
  - split; [done|]. by intros (_ & _ & e' & ? & _).
Qed.

(** The test returns [False] for a token without an access token, without
    an expiry (or with a zero one), or with 60 seconds or less left. *)
Lemma invalid_iff_margin (tok : TokenSet) (w : world) :
  0 ≤ now w →
  (is_access_token_valid tok w).1 = Ok false
  ↔ truthy (access_token tok) = false
    ∨ truthy (expires_at tok) = false
    ∨ ∃ e, py_int (expires_at tok) = Ok e ∧ remaining_ms e w ≤ 60000.
Proof.
  intros Hnow. unfold MsOauth.is_access_token_valid, remaining_ms.
  destruct (truthy (access_token tok)), (truthy (expires_at tok)); simpl;
    try (split; [auto|done]).
  unfold mbind, M_bind, bind, time_int, lift. simpl.
  destruct (py_int (expires_at tok)) as [e|x]; simpl.
  - rewrite Z.quot_div_nonneg by lia. split.
    + intros [= H%Z.ltb_ge]. right; right. exists e. split; [done|].
      Z.div_mod_to_equations. lia.
    + intros [?|[?|(e' & [= <-] & H)]]; try done. f_equal. apply Z.ltb_ge.
      Z.div_mod_to_equations. lia.
  - split; [done|]. by intros [?|[?|(e' & ? & _)]].
Qed.

(** The test raises exactly where [int] of the expiry does, for a token
    with an access token and an expiry that is not empty. *)
Lemma valid_raises_iff (tok : TokenSet) (w : world) (e : exn) :
  (is_access_token_valid tok w).1 = Err e
  ↔ truthy (access_token tok) = true
    ∧ truthy (expires_at tok) = true
    ∧ py_int (expires_at tok) = Err e.
Proof.
  unfold MsOauth.is_access_token_valid.
  destruct (truthy (access_token tok)), (truthy (expires_at tok)); simpl;
    try (split; [done|by intros (? & ? & _)]).
  unfold mbind, M_bind, bind, time_int, lift. simpl.
  destruct (py_int (expires_at tok)) as [z|x]; simpl.
  - split; [done|]. by intros (_ & _ & ?).
  - split; [by intros [= ->]|]. by intros (_ & _ & [= ->]).
Qed.

Lemma last_snoc_event (l : list event) (e : event) :
  last (l ++ [e]) = Some e.
Proof. apply last_snoc. Qed.

(** A token returned by the poll loop body is the one just issued. *)
Lemma poll_body_finished (dc : list (string * pyval)) (interval : Z)
    (w w' : world) (tok : TokenSet) :
  poll_body dc interval w = (Ok (Finished tok), w') → issued tok w'.
Proof.
  unfold MsOauth.poll_body. unfold_M. intros H. all_branches.
  match goal with
  | Hs : save_cache _ _ = (Ok ?u, _) |- _ =>
      destruct u; apply save_cache_disk in Hs as (_ & Hn & _ & Ht)
  end.
  simpl in *. unfold MsSpec.issued.
  do 4 eexists. rewrite Ht, last_snoc_event. rewrite Hn.
  repeat split; try reflexivity; try eassumption.
  by apply Z.eqb_eq.
Qed.

Lemma poll_loop_finished (fuel : nat) (dc : list (string * pyval))
    (interval deadline : Z) (w w' : world) (tok : TokenSet) :
  poll_loop fuel dc interval deadline w = Some (Ok tok, w') → issued tok w'.
Proof.
  revert interval w. induction fuel as [|fuel IH]; intros interval w; [done|].
  simpl. destruct (now w <? deadline); [|done].
  destruct (poll_body dc interval w) as [[[i|t]|e] w1] eqn:Hb.
  - apply IH.
  - intros [= <- <-]. by eapply poll_body_finished.
  - done.
Qed.

Lemma device_code_login_issued (fuel : nat) (w w' : world) (tok : TokenSet) :
  device_code_login fuel w = Some (Ok tok, w') → issued tok w'.
Proof.
  unfold MsOauth.device_code_login.
  destruct (device_authorization _ _ _ w) as [[[[dc i] e]|x] w1]; [|done].
  apply poll_loop_finished.
Qed.

(** A token returned by [refresh] is the one just issued. *)
Lemma refresh_issued (tok new_tok : TokenSet) (w w' : world) :
  refresh tok w = (Ok new_tok, w') → issued new_tok w'.
Proof.
  unfold MsOauth.refresh. unfold_M. intros H. all_branches.
  match goal with
  | Hs : save_cache _ _ = (Ok ?u, _) |- _ =>
      destruct u; apply save_cache_disk in Hs as (_ & Hn & _ & Ht)
  end.
  simpl in *. unfold MsSpec.issued.
  do 4 eexists. rewrite Ht, last_snoc_event. rewrite Hn.
  repeat split; try reflexivity; try eassumption.
  match goal with Hst : negb _ = false |- _ =>
    apply negb_false_iff in Hst; by apply Z.eqb_eq end.
Qed.

Lemma interactive_ok (fuel : nat) (w w' : world) (tok : TokenSet) (m : mode) :
  interactive fuel w = Some (Ok (tok, m), w') →
  m = device_login ∧ device_code_login fuel w = Some (Ok tok, w').
Proof.
  unfold MsOauth.interactive.
  destruct (device_code_login fuel w) as [[[t|e] w1]|]; try done.
  by intros [= <- <- <-].
Qed.


End Session.



(** An expiry that is a float: [int] drops the fraction, so that
    1700000060.5 is within the margin of 1700000000 and 1700000061.0 is
    not; an infinite one raises [OverflowError]. *)
Example float_expiry :
  (MsOauth.is_access_token_valid MsScenario.int_of_digits
     (mk_TokenSet (PStr "old") PNone PNone
        (PFloat (SpecFloat.S754_finite false 3400000121 (-1))) PNone PNone)
     MsScenario.fresh_world).1 = Ok false
  ∧ (MsOauth.is_access_token_valid MsScenario.int_of_digits
       (mk_TokenSet (PStr "old") PNone PNone
          (PFloat (SpecFloat.S754_finite false 1700000061 0)) PNone PNone)
       MsScenario.fresh_world).1 = Ok true
  ∧ (MsOauth.is_access_token_valid MsScenario.int_of_digits
       (mk_TokenSet (PStr "old") PNone PNone
          (PFloat (SpecFloat.S754_infinity false)) PNone PNone)
       MsScenario.fresh_world).1 = Err OverflowError.
Proof. vm_compute. by repeat split. Qed.

(** A refresh that the provider refuses raises after its one request, and
    [get_token] goes on to the device-code request. *)
Example acquire_refresh_refused :
  match MsOauth.get_token MsScenario.refusing "client"
          MsScenario.int_of_digits 0 MsScenario.stale_world with
  | Some (Err (RuntimeError msg _), w') =>
      msg = "Device code request failed. "
      ∧ requests (trace w')
        = [MsOauth.refresh_request "client" MsScenario.stale_token;
           MsOauth.device_code_request "client"]
      ∧ disk w' = disk MsScenario.stale_world
  | _ => False
  end.
Proof. vm_compute. repeat split; reflexivity. Qed.

End SessionFacts.

(** ** The device-code poll loop *)

Module PollFacts.
Import Py Requests Sys MsOauth MsSpec CacheFacts SysTactics.

Lemma poll_latency_nonneg (ep : endpoint) (rq : request) (base k : nat) :
  0 ≤ poll_latency ep rq base k.
Proof. revert base. induction k as [|k IH]; intros base; simpl; [done|].
  specialize (IH (S base)). lia. Qed.

Lemma poll_latency_mono (ep : endpoint) (rq : request) (base k k' : nat)
    (Hk : (k <= k')%nat) :
  poll_latency ep rq base k ≤ poll_latency ep rq base k'.
Proof.
  revert base k' Hk. induction k as [|k IH]; intros base k' Hk; simpl.
  - apply poll_latency_nonneg.
  - destruct k' as [|k']; [lia|]. simpl.
    specialize (IH (S base) k'). lia.
Qed.

Section Loop.

Context (ep : endpoint) (CLIENT_ID : string).
Context (int_of_str : string -> option Z).

Local Abbreviation poll_body := (poll_body ep CLIENT_ID int_of_str).
Local Abbreviation poll_loop := (poll_loop ep CLIENT_ID int_of_str).
Local Abbreviation device_code_login :=
  (device_code_login ep CLIENT_ID int_of_str).
Local Abbreviation poll_request := (poll_request CLIENT_ID).

Lemma poll_loop_S (fuel : nat) (dc : list (string * pyval))
    (interval deadline : Z) (w : world) :
  poll_loop (S fuel) dc interval deadline w
  = if now w <? deadline then
      match poll_body dc interval w with
      | (Ok (Continue interval'), w') =>
          poll_loop fuel dc interval' deadline w'
      | (Ok (Finished tok), w') => Some (Ok tok, w')
      | (Err e, w') => Some (Err e, w')
      end
    else
      Some (Err (TimeoutError
                   "Device code expired before you finished signing in."),
            w).
Proof. reflexivity. Qed.

(** More fuel does not change a finished run. *)
Lemma poll_loop_more_fuel (fuel fuel' : nat) (dc : list (string * pyval))
    (interval deadline : Z) (w : world) (out : result TokenSet * world) :
  poll_loop fuel dc interval deadline w = Some out →
  (fuel <= fuel')%nat →
  poll_loop fuel' dc interval deadline w = Some out.
Proof.
  revert fuel' interval w. induction fuel as [|fuel IH];
    intros fuel' interval w; [done|].
  destruct fuel' as [|fuel']; [intros _ ?; lia|]. simpl.
  destruct (now w <? deadline); [|done].
  destruct (poll_body dc interval w) as [[[i|t]|e] w1]; try done.
  intros H ?. apply IH; [done|lia].
Qed.

(** One turn of the loop on an [authorization_pending] answer. *)
Lemma poll_body_pending (dc : list (string * pyval)) (dcode : pyval)
    (interval : Z) (w : world) :
  dict_item "device_code" dc = Ok dcode →
  0 ≤ interval →
  error_answer "authorization_pending"
    (answer_of (ep (posts w) (poll_request dcode))) →
  poll_body dc interval w
  = (Ok (Continue interval),
     mk_world
       (now w + 1000 * interval
        + Z.of_N (latency (ep (posts w) (poll_request dcode))))
       (disk w) (S (posts w))
       (trace w ++ [Slept interval;
                    Posted (poll_request dcode)
                      (answer_of (ep (posts w) (poll_request dcode)))])).
Proof.
  intros Hdc Hi (r & items & Ha & Hst & Hb & He).
  unfold MsOauth.poll_body, mbind, M_bind, bind, sleep, lift, post.
  assert ((interval <? 0) = false) as -> by lia.
  rewrite Hdc. simpl. rewrite Ha.
  apply Z.eqb_neq in Hst. rewrite Hst.
  unfold json. rewrite Hb. simpl. rewrite He. simpl.
  unfold mret, M_ret, ret. by rewrite <- app_assoc.
Qed.

(** While every poll is answered [authorization_pending] the loop ends with
    the timeout, after [k] turns of sleep and poll, where [k] is at most the
    number of whole intervals that cover the time to the deadline. *)
Lemma poll_loop_pending (dc : list (string * pyval)) (dcode : pyval)
    (interval deadline : Z) (budget : nat) (w : world) :
  dict_item "device_code" dc = Ok dcode →
  0 < interval →
  (∀ n, (posts w <= n)%nat →
     error_answer "authorization_pending"
       (answer_of (ep n (poll_request dcode)))) →
  deadline - now w ≤ 1000 * interval * Z.of_nat budget →
  ∃ k w',
    poll_loop (S budget) dc interval deadline w
    = Some (Err (TimeoutError
                   "Device code expired before you finished signing in."),
            w')
    ∧ (k <= budget)%nat
    ∧ posts w' = (posts w + k)%nat
    ∧ disk w' = disk w
    ∧ trace w'
      = trace w ++ pending_log ep (poll_request dcode) interval (posts w) k
    ∧ now w' = now w + 1000 * interval * Z.of_nat k
               + poll_latency ep (poll_request dcode) (posts w) k
    ∧ deadline ≤ now w'.
Proof.
  intros Hdc Hi. revert w.
  induction budget as [|budget IH]; intros w Hp Hd.
  - exists 0%nat, w. rewrite poll_loop_S.
    assert ((now w <? deadline) = false) as -> by lia.
    simpl. rewrite app_nil_r. repeat split; try done; lia.
  - rewrite poll_loop_S.
    destruct (now w <? deadline) eqn:Hlt.
    + rewrite (poll_body_pending dc dcode)
        by (try done; try lia; by apply Hp).
      set (w1 := mk_world _ _ _ _). cbv iota beta.
      destruct (IH w1) as (k & w' & E & Hk & Hposts & Hdisk & Htr & Hnow & Hdl).
      { intros n Hn. apply Hp. simpl in Hn. lia. }
      { simpl. lia. }
      exists (S k), w'. rewrite E. simpl in *.
      repeat split; try done; try lia.
      rewrite Htr, <- app_assoc. done.
    + exists 0%nat, w. rewrite app_nil_r. simpl.
      repeat split; try done; lia.
Qed.

Lemma device_authorization_grants (dc : list (string * pyval))
    (interval expires_in : Z) (w : world) :
  grants int_of_str
    (answer_of (ep (posts w) (device_code_request CLIENT_ID)))
    dc interval expires_in →
  device_authorization ep CLIENT_ID int_of_str w
  = (Ok (dc, interval, expires_in),
     mk_world
       (now w + Z.of_N (latency (ep (posts w) (device_code_request CLIENT_ID))))
       (disk w) (S (posts w))
       (trace w ++ [Posted (device_code_request CLIENT_ID)
                      (answer_of (ep (posts w)
                                    (device_code_request CLIENT_ID)))])).
Proof.
  intros (r & Ha & Hst & Hb & Hi & Hint & Hexp).
  unfold MsOauth.device_authorization, mbind, M_bind, bind, lift, post.
  rewrite Ha, Hst. simpl. unfold json. rewrite Hb. simpl.
  by rewrite Hi, Hint, Hexp.
Qed.

(** C4, as amended.  A login granted [interval = 5] and [expires_in = 20]
    whose polls are all answered [authorization_pending] ends, for any fuel
    of 5 or more, by raising [TimeoutError]; it has slept 5 seconds before
    each poll and made [k] polls, at most 4; from the moment the deadline
    was set it has taken the [k] sleeps and the time of the [k] polls, which
    is at least 20 seconds, and at most 25 when the first four polls
    together take no more than 5 seconds (the clock counts
    milliseconds). *)
Theorem device_code_login_expires (fuel : nat) (w : world)
    (dc : list (string * pyval)) (dcode : pyval) :
  let first := device_code_request CLIENT_ID in
  let poll := poll_request dcode in
  let start := now w + Z.of_N (latency (ep (posts w) first)) in
  grants int_of_str (answer_of (ep (posts w) first)) dc 5 20 →
  dict_item "device_code" dc = Ok dcode →
  (∀ n, (posts w < n)%nat →
     error_answer "authorization_pending" (answer_of (ep n poll))) →
  (5 <= fuel)%nat →
  ∃ k w',
    device_code_login fuel w
    = Some (Err (TimeoutError
                   "Device code expired before you finished signing in."),
            w')
    ∧ (k <= 4)%nat
    ∧ trace w'
      = trace w ++ Posted first (answer_of (ep (posts w) first))
                   :: pending_log ep poll 5 (S (posts w)) k
    ∧ disk w' = disk w
    ∧ now w' = start + 5000 * Z.of_nat k
               + poll_latency ep poll (S (posts w)) k
    ∧ 20000 ≤ now w' - start
    ∧ (poll_latency ep poll (S (posts w)) 4 ≤ 5000 →
       now w' - start ≤ 25000).
Proof.
  intros first poll start Hg Hdc Hp Hfuel.
  unfold MsOauth.device_code_login.
  rewrite (device_authorization_grants dc 5 20 w Hg).
  fold first. set (w1 := mk_world _ _ _ _).
  destruct (poll_loop_pending dc dcode 5 (now w1 + 1000 * 20) 4 w1)
    as (k & w' & E & Hk & _ & Hdisk & Htr & Hnow & Hdl);
    [done|lia| |lia|].
  { intros n Hn. apply Hp. simpl in Hn. lia. }
  exists k, w'. split; [by apply (poll_loop_more_fuel 5)|].
  fold poll in Htr, Hnow. simpl in Htr, Hnow, Hdl, Hdisk. fold start in Hnow, Hdl.
  split; [done|]. split; [by rewrite Htr, <- app_assoc|]. split; [done|].
  split; [lia|]. split; [lia|]. intros Hlat.
  pose proof (poll_latency_mono ep poll (S (posts w)) k 4 Hk). lia.
Qed.

(** Any provider error other than the two transient ones ends the login
    with [RuntimeError], not with the timeout. *)
Lemma poll_body_denied (dc : list (string * pyval)) (dcode : pyval)
    (interval : Z) (w : world) (code : string) :
  dict_item "device_code" dc = Ok dcode →
  0 ≤ interval →
  error_answer code (answer_of (ep (posts w) (poll_request dcode))) →
  code ≠ "authorization_pending" → code ≠ "slow_down" →
  ∃ payload, (poll_body dc interval w).1
             = Err (RuntimeError "Device code token failed: " payload).
Proof.
  intros Hdc Hi (r & items & Ha & Hst & Hb & He) Hc1 Hc2.
  unfold MsOauth.poll_body, mbind, M_bind, bind, sleep, lift, post.
  assert ((interval <? 0) = false) as -> by lia.
  rewrite Hdc. simpl. rewrite Ha.
  apply Z.eqb_neq in Hst. rewrite Hst.
  unfold json. rewrite Hb. simpl. rewrite He. simpl.
  apply String.eqb_neq in Hc1, Hc2. rewrite Hc1, Hc2. simpl. eauto.
Qed.

(** What one turn of the loop adds to the log: at most the sleep and the
    poll; and the interval of the next turn is 5 seconds more exactly when
    the poll was answered [slow_down]. *)
Lemma poll_body_log (dc : list (string * pyval)) (interval : Z)
    (w w' : world) (out : result poll_step) :
  poll_body dc interval w = (out, w') →
  (trace w' = trace w ∧ ∃ e, out = Err e)
  ∨ (trace w' = trace w ++ [Slept interval] ∧ ∃ e, out = Err e)
  ∨ ∃ rq a,
      trace w' = trace w ++ [Slept interval; Posted rq a]
      ∧ ∀ interval', out = Ok (Continue interval') →
          interval'
          = interval + 5 * slow_downs [Slept interval; Posted rq a].
Proof.
  unfold MsOauth.poll_body. unfold_M.
  intros H.
  all_branches;
    repeat match goal with
           | Hs : save_cache _ _ = _ |- _ =>
               apply save_cache_frame in Hs as (_ & _ & Hs); simpl in Hs;
               rewrite Hs
           end;
    try (left; split; [done|eauto]; fail);
    try (right; left; split; [done|eauto]; fail);
    right; right; do 2 eexists; (split; [by rewrite <- app_assoc|]);
    intros i' [= <-] || (intros i'; try done).
  all: unfold slow_downs; rewrite filter_cons_False by (by intros []);
    unfold is_slow_down, is_error_answer; rewrite filter_cons, filter_nil.
  all: repeat match goal with
         | Hx : (status_code _ =? 200) = _ |- _ => rewrite Hx; clear Hx
         | Hx : body _ = _ |- _ => rewrite Hx; clear Hx
         | Hx : is_str _ "slow_down" = _ |- _ => rewrite Hx; clear Hx
         end; simpl; lia.
Qed.

Lemma slow_downs_nil : slow_downs [] = 0.
Proof. reflexivity. Qed.

Lemma slow_downs_cons (e : event) (l : list event) :
  slow_downs (e :: l) = (if is_slow_down e then 1 else 0) + slow_downs l.
Proof.
  unfold slow_downs. rewrite filter_cons.
  destruct (is_slow_down e); simpl; lia.
Qed.

Lemma slow_downs_app (l1 l2 : list event) :
  slow_downs (l1 ++ l2) = slow_downs l1 + slow_downs l2.
Proof.
  unfold slow_downs. rewrite filter_app, length_app. lia.
Qed.

Lemma slow_downs_nonneg (l : list event) : 0 ≤ slow_downs l.
Proof. unfold slow_downs. lia. Qed.

Lemma slow_downs_exists (l : list event) :
  Exists (λ e, is_slow_down e = true) l → 1 ≤ slow_downs l.
Proof.
  induction 1 as [e l He|e l _ IH]; rewrite slow_downs_cons.
  - rewrite He. pose proof (slow_downs_nonneg l). lia.
  - destruct (is_slow_down e); lia.
Qed.

(** In [device_code_login] every sleep of the poll loop lasts the initial
    interval plus 5 seconds for each [slow_down] answered before it. *)
Lemma poll_loop_sleeps (fuel : nat) (dc : list (string * pyval))
    (interval deadline : Z) (w : world) (out : result TokenSet * world) :
  poll_loop fuel dc interval deadline w = Some out →
  ∃ new,
    trace out.2 = trace w ++ new
    ∧ ∀ pre n post,
        new = pre ++ Slept n :: post → n = interval + 5 * slow_downs pre.
Proof.
  revert interval w. induction fuel as [|fuel IH]; intros interval w; [done|].
  rewrite poll_loop_S. destruct (now w <? deadline).
  2:{ intros [= <-]. exists []. rewrite app_nil_r. split; [done|].
      intros pre n post E. destruct pre; simplify_eq/=. }
  destruct (poll_body dc interval w) as [o w1] eqn:Hb.
  apply poll_body_log in Hb as [[Ht [e ->]]|[[Ht [e ->]]|(rq & a & Ht & Hi)]].
  - intros [= <-]. exists []. simpl. rewrite Ht, app_nil_r. split; [done|].
    intros pre n post E. destruct pre; simplify_eq/=.
  - intros [= <-]. exists [Slept interval]. simpl. split; [done|].
    intros pre n post E. destruct pre as [|? [|]]; simplify_eq/=.
    rewrite slow_downs_nil. lia.
  - assert (Hshort : ∀ pre n post,
              [Slept interval; Posted rq a] = pre ++ Slept n :: post →
              n = interval + 5 * slow_downs pre).
    { intros pre n post E. destruct pre as [|? [|? [|]]]; simplify_eq/=.
      rewrite slow_downs_nil. lia. }
    destruct o as [[i'|tok]|e].
    + intros Hl. destruct (IH _ _ Hl) as (new & Hn & Hs).
      exists (Slept interval :: Posted rq a :: new).
      rewrite Hn, Ht, <- app_assoc. split; [done|].
      intros [|e1 [|e2 pre]] n post E; simplify_eq/=.
      * rewrite slow_downs_nil. lia.
      * rewrite (Hs _ _ _ eq_refl), (Hi _ eq_refl).
        rewrite !slow_downs_cons, slow_downs_nil. simpl.
        destruct (is_error_answer "slow_down" a); lia.
    + intros [= <-]. by exists [Slept interval; Posted rq a].
    + intros [= <-]. by exists [Slept interval; Posted rq a].
Qed.

(** The interval of [device_code_login] never decreases, and a [slow_down]
    raises it for good: of two sleeps of a session the later is at least
    the earlier, and at least the earlier plus 5 seconds when a [slow_down]
    was answered between them. *)
Theorem device_code_login_slow_down_permanent (fuel : nat)
    (dc : list (string * pyval)) (interval deadline : Z) (w : world)
    (out : result TokenSet * world) :
  poll_loop fuel dc interval deadline w = Some out →
  ∃ new,
    trace out.2 = trace w ++ new
    ∧ ∀ pre a mid b post,
        new = pre ++ Slept a :: mid ++ Slept b :: post →
        a ≤ b
        ∧ (Exists (λ e, is_slow_down e = true) mid → a + 5 ≤ b).
Proof.
  intros (new & Hn & Hs)%poll_loop_sleeps. exists new. split; [done|].
  intros pre a mid b post E.
  pose proof (Hs pre a (mid ++ Slept b :: post) E) as Ha.
  assert (E' : new = (pre ++ Slept a :: mid) ++ Slept b :: post)
    by (by rewrite <- app_assoc).
  pose proof (Hs _ b post E') as Hb.
  rewrite slow_downs_app, slow_downs_cons in Hb. simpl in Hb.
  pose proof (slow_downs_nonneg mid). split; [lia|].
  intros ?%slow_downs_exists. lia.
Qed.

End Loop.

(** C4, as stated, fails on a slow service: with interval 5 and expires_in
    20, polls that take 1.5 seconds each and are all answered
    [authorization_pending], the login makes its four polls and raises the
    timeout 26 seconds after the deadline was set. *)
Lemma device_code_login_late_timeout :
  match MsOauth.device_code_login (MsScenario.always_pending 1500) "client"
          MsScenario.int_of_digits 10 MsScenario.fresh_world with
  | Some (Err (TimeoutError _), w') =>
      now w' - now MsScenario.fresh_world = 26000
      ∧ ¬ (now w' - now MsScenario.fresh_world ≤ 25000)
      ∧ sleeps (trace w') = [5; 5; 5; 5]
  | _ => False
  end.
Proof. vm_compute. repeat split; try reflexivity. intros H. by apply H. Qed.

(** With polls that take no time the login ends after 20 seconds and four
    polls. *)
Lemma device_code_login_expires_instant :
  ∃ k w',
    MsOauth.device_code_login (MsScenario.always_pending 0) "client"
      MsScenario.int_of_digits 5 MsScenario.fresh_world
    = Some (Err (TimeoutError
                   "Device code expired before you finished signing in."),
            w')
    ∧ (k <= 4)%nat
    ∧ 20000 ≤ now w' - now MsScenario.fresh_world ≤ 25000.
Proof.
  destruct (device_code_login_expires (MsScenario.always_pending 0) "client"
              MsScenario.int_of_digits 5 MsScenario.fresh_world
              [("device_code", PStr "DEVICE");
               ("user_code", PStr "ABCD1234");
               ("verification_uri", PStr "https://microsoft.com/link");
               ("message", PStr "Open the page and enter the code.");
               ("interval", PInt 5);
               ("expires_in", PInt 20)]
              (PStr "DEVICE"))
    as (k & w' & E & Hk & _ & _ & _ & Hlo & Hhi).
  - eexists. repeat split; reflexivity.
  - reflexivity.
  - intros [|n] Hn; [simpl in Hn; lia|].
    exists (mk_response 400 (Doc (PDict [("error", PStr "authorization_pending")]))),
      [("error", PStr "authorization_pending")].
    repeat split; try reflexivity. simpl. lia.
  - lia.
  - exists k, w'. split; [exact E|]. split; [exact Hk|].
    simpl in Hlo, Hhi. split; [exact Hlo|]. apply Hhi. vm_compute. discriminate.
Defined.

End PollFacts.

(** ** The poll loop of [msal.py] *)

Module MsalFacts.
Import Py Requests Sys MsSpec SysTactics.

Section Script.

Context (ep : endpoint) (int_of_str : string -> option Z).

Local Abbreviation poll_body := (Msal.poll_body ep).
Local Abbreviation poll_loop := (Msal.poll_loop ep).

(** One turn of the loop of [msal.py] sleeps at most once, for the interval
    or for the interval plus 5 seconds. *)
Lemma msal_poll_body_sleeps (j : pyval) (interval : Z) (w w' : world)
    (out : result (option unit)) :
  poll_body j interval w = (out, w') →
  ∃ new, trace w' = trace w ++ new
         ∧ Forall (λ n, n = interval ∨ n = interval + 5) (sleeps new).
Proof.
  unfold Msal.poll_body, Msal.subscript. unfold_M.
  intros H.
  all_branches;
    try (exists []; rewrite app_nil_r; split; [done|constructor]; fail);
    try (eexists [_]; split; [done|constructor]; fail).
  all: eexists [_; _]; (split; [by rewrite <- app_assoc|]).
  all: unfold sleeps; simpl; repeat constructor; lia.
Qed.

(** In [msal.py] the interval itself never changes: every sleep of a
    session lasts the initial interval, or 5 seconds more. *)
Lemma msal_poll_loop_sleeps (fuel : nat) (j : pyval) (interval deadline : Z)
    (w : world) (out : result unit * world) :
  poll_loop fuel j interval deadline w = Some out →
  ∃ new, trace out.2 = trace w ++ new
         ∧ Forall (λ n, n = interval ∨ n = interval + 5) (sleeps new).
Proof.
  revert w. induction fuel as [|fuel IH]; intros w; [done|]. simpl.
  destruct (now w <? deadline).
  2:{ intros [= <-]. exists []. rewrite app_nil_r. split; [done|constructor]. }
  destruct (poll_body j interval w) as [o w1] eqn:Hb.
  apply msal_poll_body_sleeps in Hb as (new1 & Ht1 & Hs1).
  destruct o as [[[]|]|e].
  - intros [= <-]. by exists new1.
  - intros (new2 & Ht2 & Hs2)%IH. exists (new1 ++ new2).
    rewrite Ht2, Ht1, <- app_assoc. split; [done|].
    unfold sleeps in *. rewrite omap_app. by apply Forall_app.
  - intros [= <-]. by exists new1.
Qed.

End Script.
(** C3 on [msal.py]: interval 5, the first poll answered [slow_down], the
    later ones [authorization_pending].  The script sleeps 10 seconds after
    the [slow_down] and then 5 seconds again: the increase is not kept, and
    the interval goes down within the session. *)
Lemma msal_slow_down_one_shot :
  match Msal.main MsScenario.slow_down_once MsScenario.int_of_digits 10
          MsScenario.fresh_world with
  | Some (Err (TimeoutError _), w') => sleeps (trace w') = [10; 5; 5]
  | _ => False
  end.
Proof. vm_compute. reflexivity. Qed.

(** The same service seen by [device_code_login]: the interval stays at 10
    seconds after the [slow_down]. *)
Lemma device_code_login_slow_down_once :
  match MsOauth.device_code_login MsScenario.slow_down_once "client"
          MsScenario.int_of_digits 10 MsScenario.fresh_world with
  | Some (Err (TimeoutError _), w') => sleeps (trace w') = [5; 10; 10]
  | _ => False
  end.
Proof. vm_compute. reflexivity. Qed.

End MsalFacts.

(** ** What the token cache holds after a call *)

Module PersistFacts.
Import Py Requests Sys MsOauth MsSpec MsInvariants CacheFacts SessionFacts
  SysTactics.

(** What [save_cache] does to the cache directory, one statement at a
    time, from a directory that is there. *)
Lemma save_cache_present (tok : TokenSet) (w : world) (m : Z) (p : party)
    (c t : option file) :
  disk w = Present m p c t →
  ∃ m', (m' = 448 ∧ owns p = true ∨ m' = m ∧ owns p = false)
    ∧ let x := permits S_IXUSR m' p in
      let wx := permits S_IWUSR m' p && x in
      let put (f : file) := mk_file (Sys.mode f) (who f) (Doc (to_json tok)) in
      let keep (t' : option file) :=
        (Err OSError, mk_world (now w) (Present m' p c t') (posts w) (trace w))
      in
      save_cache tok w
      = match t with
        | Some f =>
            if x && writable f then
              if owns (who f) then
                if wx && (negb (sticky m') || owns p
                          || match c with
                             | Some g => owns (who g)
                             | None => true
                             end)
                then (Ok tt,
                      mk_world (now w)
                        (Present m' p
                           (Some (mk_file 384 (who f) (Doc (to_json tok))))
                           None)
                        (posts w) (trace w))
                else keep (Some (mk_file 384 (who f) (Doc (to_json tok))))
              else keep (Some (put f))
            else keep t
        | None =>
            if wx then
              if negb (sticky m') || owns p
                 || match c with
                    | Some g => owns (who g)
                    | None => true
                    end
              then (Ok tt,
                    mk_world (now w)
                      (Present m' p
                         (Some (mk_file 384 Owner (Doc (to_json tok)))) None)
                      (posts w) (trace w))
              else keep (Some (mk_file 384 Owner (Doc (to_json tok))))
            else keep None
        end.
Proof.
  intros Hd. unfold_save. rewrite Hd. simpl.
  exists (if owns p then 448 else m).
  split; [destruct (owns p); auto|].
  replace (if owns p then Present 448 p c t else Present m p c t)
    with (Present (if owns p then 448 else m) p c t) by (by destruct (owns p)).
  generalize (if owns p then 448 else m). intros m'. simpl.
  destruct (permits S_IXUSR m' p) eqn:Hx; simpl.
  - destruct t as [f|]; simpl.
    + destruct (permits S_IWUSR (Sys.mode f) (who f)); simpl; [|done].
      rewrite Hx. simpl. destruct (owns (who f)) eqn:Ho; simpl; [|done].
      rewrite Hx, andb_true_r.
      destruct (permits S_IWUSR m' p); simpl; [|done].
      rewrite Ho. simpl.
      by destruct (negb (sticky m') || owns p || _).
    + destruct (permits S_IWUSR m' p) eqn:Hw; simpl; [|done].
      rewrite Hx. simpl. rewrite Hw, Hx. simpl.
      by destruct (negb (sticky m') || owns p || _).
  - rewrite andb_false_r. by destruct t.
Qed.

(** A [save_cache] that raises, raises [OSError] and leaves the cache file
    as it was. *)
Lemma save_cache_err_disk (tok : TokenSet) (w w' : world) (e : exn) :
  save_cache tok w = (Err e, w') →
  e = OSError ∧ cache_file (disk w') = cache_file (disk w).
Proof.
  destruct (disk w) as [[]|m p c t] eqn:Hd.
  - unfold_save. by rewrite Hd.
  - unfold_save. rewrite Hd. by intros [= <- <-].
  - destruct (save_cache_present tok w m p c t Hd) as (m' & _ & ->).
    simpl. repeat case_match; by intros [= <- <-].
Qed.

(** [save_cache] succeeds only where the directory can be written. *)
Lemma save_cache_ok_can_save (tok : TokenSet) (w w' : world) :
  save_cache tok w = (Ok tt, w') → can_save (disk w).
Proof.
  destruct (disk w) as [[]|m p c t] eqn:Hd.
  - done.
  - unfold_save. by rewrite Hd.
  - destruct (save_cache_present tok w m p c t Hd) as (m' & Hm & ->).
    simpl. unfold can_save.
    destruct Hm as [[-> Hp]|[-> Hp]]; rewrite Hp.
    + repeat case_match; try done; intros _; (split; [by left|]);
        try done; repeat match goal with
                         | H : _ && _ = true |- _ => apply andb_prop in H as [? ?]
                         end; done.
    + rewrite !orb_false_r.
      repeat case_match; try done; intros _;
        repeat match goal with
               | H : _ && _ = true |- _ => apply andb_prop in H as [? ?]
               | H : _ || _ = true |- _ => apply orb_prop in H as [?|?]
               | H : negb _ = true |- _ => apply negb_true_iff in H
               end; split; try done; try (split; done); right; split_and!;
        try done; auto.
Qed.

(** X1: [save_cache] replaces the cache file in one step.  It succeeds
    exactly where the directory can be written: the cache file then holds
    the token with mode [0o600], in a directory that can be searched, and
    nothing is left at [.tmp], so that [load_cache] finds the token.  Where
    it fails it raises [OSError] and the cache file is as it was, while the
    file at [.tmp] is as it was or holds the token.  Either way the clock
    and the log are untouched. *)
Theorem save_cache_replaces_or_keeps (tok : TokenSet) (w : world) :
  now (save_cache tok w).2 = now w
  ∧ posts (save_cache tok w).2 = posts w
  ∧ trace (save_cache tok w).2 = trace w
  ∧ match (save_cache tok w).1 with
    | Ok _ =>
        can_save (disk w)
        ∧ load_cache (disk (save_cache tok w).2) = Ok (Some tok)
        ∧ ∃ m p q,
            disk (save_cache tok w).2
            = Present m p (Some (mk_file 384 q (Doc (to_json tok)))) None
            ∧ permits S_IXUSR m p = true ∧ owns q = true
    | Err e =>
        e = OSError ∧ ¬ can_save (disk w)
        ∧ cache_file (disk (save_cache tok w).2) = cache_file (disk w)
        ∧ (tmp_file (disk (save_cache tok w).2) = tmp_file (disk w)
           ∨ text <$> tmp_file (disk (save_cache tok w).2)
             = Some (Doc (to_json tok)))
    end.
Proof.
  destruct (save_cache tok w) as [r w'] eqn:E.
  destruct (save_cache_frame _ _ _ _ E) as (Hn & Hp & Ht).
  split_and!; try done. simpl. destruct r as [[]|e].
  - split_and!.
    + by eapply save_cache_ok_can_save.
    + by eapply load_after_save.
    + by apply save_cache_disk in E as [? _].
  - destruct (save_cache_err_disk _ _ _ _ E) as [-> Hc].
    split_and!; try done.
    + intros [w2 Hs]%(save_cache_succeeds tok). congruence.
    + revert E. destruct (disk w) as [[]|m p c t] eqn:Hd.
      * unfold_save. by rewrite Hd.
      * unfold_save. rewrite Hd. intros [= <-]. by left.
      * destruct (save_cache_present tok w m p c t Hd) as (m' & _ & ->).
        simpl. repeat case_match; intros [= <-]; simpl; auto.
Qed.

Section Client.

Context (ep : endpoint) (CLIENT_ID : string).
Context (int_of_str : string -> option Z).

Local Abbreviation refresh := (refresh ep CLIENT_ID int_of_str).
Local Abbreviation poll_body := (poll_body ep CLIENT_ID int_of_str).
Local Abbreviation poll_loop := (poll_loop ep CLIENT_ID int_of_str).
Local Abbreviation device_authorization :=
  (device_authorization ep CLIENT_ID int_of_str).
Local Abbreviation device_code_login :=
  (device_code_login ep CLIENT_ID int_of_str).
Local Abbreviation interactive := (interactive ep CLIENT_ID int_of_str).
Local Abbreviation get_token := (get_token ep CLIENT_ID int_of_str).

Lemma poll_body_persisted (dc : list (string * pyval)) (interval : Z)
    (w : world) :
  persisted (λ s, match s with Finished tok => Some tok | Continue _ => None end)
    w (poll_body dc interval w).
Proof.
  unfold persisted.
  destruct (poll_body dc interval w) as [out w'] eqn:H. revert H.
  unfold MsOauth.poll_body. unfold_M. intros H.
  all_branches; try done;
    try (match goal with
         | Hs : save_cache _ _ = (Err _, _) |- _ =>
             by apply save_cache_err_disk in Hs as [_ ?]
         end).
  match goal with
  | Hs : save_cache _ _ = (Ok ?u, _) |- _ =>
      destruct u; by apply load_after_save in Hs
  end.
Qed.

Lemma poll_loop_persisted (fuel : nat) (dc : list (string * pyval))
    (interval deadline : Z) (w : world) (out : result TokenSet * world) :
  poll_loop fuel dc interval deadline w = Some out → persisted Some w out.
Proof.
  revert interval w. induction fuel as [|fuel IH]; intros interval w; [done|].
  simpl. destruct (now w <? deadline); [|by intros [= <-]].
  pose proof (poll_body_persisted dc interval w) as Hb.
  destruct (poll_body dc interval w) as [[[i|t]|e] w1]; unfold persisted in *;
    simpl in *.
  - intros Hl%IH. unfold persisted in Hl. rewrite <- Hb.
    destruct out as [[?|?] ?]; simpl in *; done.
  - by intros [= <-].
  - by intros [= <-].
Qed.

Lemma device_authorization_disk (w : world) :
  disk (device_authorization w).2 = disk w.
Proof.
  unfold MsOauth.device_authorization. unfold_M.
  all_branches; done.
Qed.

Lemma device_code_login_persisted (fuel : nat) (w : world)
    (out : result TokenSet * world) :
  device_code_login fuel w = Some out → persisted Some w out.
Proof.
  unfold MsOauth.device_code_login.
  pose proof (device_authorization_disk w) as Hd.
  destruct (device_authorization w) as [[[[dc i] e]|x] w1]; simpl in Hd.
  - intros Hl%poll_loop_persisted. unfold persisted in *. rewrite <- Hd.
    destruct out as [[?|?] ?]; simpl in *; done.
  - intros [= <-]. unfold persisted. simpl. by rewrite Hd.
Qed.

Lemma refresh_persisted (tok : TokenSet) (w : world) :
  persisted Some w (refresh tok w).
Proof.
  unfold persisted.
  destruct (refresh tok w) as [out w'] eqn:H. revert H.
  unfold MsOauth.refresh. unfold_M. intros H.
  all_branches; try done;
    try (match goal with
         | Hs : save_cache _ _ = (Err _, _) |- _ =>
             by apply save_cache_err_disk in Hs as [_ ?]
         end).
  match goal with
  | Hs : save_cache _ _ = (Ok ?u, _) |- _ =>
      destruct u; by apply load_after_save in Hs
  end.
Qed.

Lemma interactive_persisted (fuel : nat) (w : world)
    (out : result (TokenSet * mode) * world) :
  interactive fuel w = Some out → persisted (λ tm, Some tm.1) w out.
Proof.
  unfold MsOauth.interactive.
  destruct (device_code_login fuel w) as [[[t|e] w1]|] eqn:Hl; [| |done].
  - apply device_code_login_persisted in Hl. by intros [= <-].
  - apply device_code_login_persisted in Hl. by intros [= <-].
Qed.

Lemma get_token_persisted (fuel : nat) (w : world)
    (out : result (TokenSet * mode) * world) :
  get_token fuel w = Some out → persisted (λ tm, Some tm.1) w out.
Proof.
  unfold MsOauth.get_token.
  destruct (load_cache (disk w)) as [[c|]|x] eqn:Hc;
    [|apply interactive_persisted|by intros [= <-]].
  pose proof (is_access_token_valid_world int_of_str c w) as Hw.
  destruct (is_access_token_valid int_of_str c w) as [[[|]|x] w1];
    simpl in Hw; subst w1.
  - by intros [= <-].
  - destruct (truthy (refresh_token c)); [|apply interactive_persisted].
    pose proof (refresh_persisted c w) as Hr.
    destruct (refresh c w) as [[nt|x] w2]; unfold persisted in Hr; simpl in Hr.
    + by intros [= <-].
    + intros Hi%interactive_persisted. unfold persisted in *. rewrite <- Hr.
      destruct out as [[[? ?]|?] ?]; simpl in *; done.
  - by intros [= <-].
Qed.

(** X2: what [get_token] returns is what the cache then holds, however the
    token was obtained; and a call that raises leaves the cache file as it
    found it. *)
Theorem get_token_cache_agrees (fuel : nat) (w w' : world)
    (r : result (TokenSet * mode)) :
  get_token fuel w = Some (r, w') →
  match r with
  | Ok (tok, _) => load_cache (disk w') = Ok (Some tok)
  | Err _ => cache_file (disk w') = cache_file (disk w)
  end.
Proof.
  intros H%get_token_persisted. unfold persisted in H. simpl in H.
  by destruct r as [[tok m]|e].
Qed.

(** X3: a second call straight after a successful one asks nothing of the
    network: while the token returned passes the validity test, [get_token]
    returns that same token from the cache and changes nothing, whatever
    the service would have answered. *)
Theorem get_token_again (fuel fuel' : nat) (w w' : world) (tok : TokenSet)
    (m : mode) (ep' : endpoint) :
  get_token fuel w = Some (Ok (tok, m), w') →
  (is_access_token_valid int_of_str tok w').1 = Ok true →
  MsOauth.get_token ep' CLIENT_ID int_of_str fuel' w'
  = Some (Ok (tok, cached_access), w').
Proof.
  intros H%get_token_persisted Hv. unfold persisted in H. simpl in H.
  unfold MsOauth.get_token. rewrite H.
  pose proof (is_access_token_valid_world int_of_str tok w') as Hw.
  destruct (is_access_token_valid int_of_str tok w') as [r w1].
  simpl in *. by subst.
Qed.

(** X4: a cache whose [expires_at] cannot be read as a number is not treated
    as absent: when the cached token has an access token and a non-empty
    [expires_at] on which [int] raises, [get_token] raises that exception
    ([ValueError] or [TypeError], [OverflowError] for an infinite float) at
    once, with no request and no login. *)
Theorem get_token_bad_expiry (fuel : nat) (w : world) (tok : TokenSet)
    (e : exn) :
  load_cache (disk w) = Ok (Some tok) →
  truthy (access_token tok) = true →
  truthy (expires_at tok) = true →
  py_int int_of_str (expires_at tok) = Err e →
  get_token fuel w = Some (Err e, w).
Proof.
  intros Hc Ha He Hi. unfold MsOauth.get_token, is_access_token_valid.
  rewrite Hc, Ha, He. simpl. unfold_M. by rewrite Hi.
Qed.

(** X5: a refreshed token that cannot be saved is lost, silently.  When
    the refresh is answered 200 but the cache directory cannot be written,
    [refresh] raises [OSError] after its request and leaves the cache file
    as it was; [get_token] does not surface that error: it goes on to the
    device-code login. *)
Theorem refresh_unsaved (tok : TokenSet) (w : world) (r : response)
    (t : list (string * pyval)) (e : Z) :
  truthy (refresh_token tok) = true →
  answer_of (ep (posts w) (refresh_request CLIENT_ID tok)) = Answer r →
  status_code r = 200 →
  body r = Doc (PDict t) →
  py_int int_of_str (dict_get_default "expires_in" (PInt 3600) t) = Ok e →
  ¬ can_save (disk w) →
  ∃ w',
    refresh tok w = (Err OSError, w')
    ∧ cache_file (disk w') = cache_file (disk w)
    ∧ requests (trace w')
      = requests (trace w) ++ [refresh_request CLIENT_ID tok]
    ∧ ∀ fuel,
        load_cache (disk w) = Ok (Some tok) →
        (is_access_token_valid int_of_str tok w).1 = Ok false →
        get_token fuel w = interactive fuel w'.
Proof.
  intros Hrt Ha Hst Hb He Hsave.
  assert (Hr : ∃ w',
            refresh tok w = (Err OSError, w')
            ∧ cache_file (disk w') = cache_file (disk w)
            ∧ requests (trace w')
              = requests (trace w) ++ [refresh_request CLIENT_ID tok]).
  { unfold MsOauth.refresh. rewrite Hrt. cbn [negb].
    unfold mbind, M_bind, bind, post. rewrite Ha, Hst. cbn [Z.eqb Pos.eqb negb].
    unfold json, lift. rewrite Hb. cbn [as_dict]. rewrite He.
    unfold time_int.
    match goal with |- context [save_cache ?T ?W] =>
      pose proof (save_cache_frame T W) as Hf;
      pose proof (save_cache_err_disk T W) as Hd;
      pose proof (save_cache_ok_can_save T W) as Hs;
      destruct (save_cache T W) as [[[]|x] w'] eqn:E
    end.
    - destruct Hsave. exact (Hs _ eq_refl).
    - destruct (Hd _ _ eq_refl) as [-> Hc].
      exists w'. split; [done|]. split; [done|].
      destruct (Hf _ _ eq_refl) as (_ & _ & ->). cbn [trace].
      unfold requests. by rewrite omap_app. }
  destruct Hr as (w' & Hr & Hd & Ht). exists w'.
  split; [done|]. split; [done|]. split; [done|].
  intros fuel Hc Hv. unfold MsOauth.get_token. rewrite Hc.
  pose proof (is_access_token_valid_world int_of_str tok w) as Hw.
  destruct (is_access_token_valid int_of_str tok w) as [v w1].
  cbn [fst snd] in *. subst. by rewrite Hrt, Hr.
Qed.

(** X6: a cache that is a JSON object without the fields.  When the
    object in the cache file (in a directory that can be searched) lacks an
    access token or an expiry (or has them empty) and has no refresh token,
    the token is loaded but never used: [get_token] makes no refresh
    request and is the device-code login. *)
Theorem get_token_hollow_cache (fuel : nat) (w : world) (f : file)
    (items : list (string * pyval)) :
  path_exists (disk w) = Ok true →
  cache_file (disk w) = Some f →
  readable f = true →
  text f = Doc (PDict items) →
  truthy (dict_get "access_token" items) = false
  ∨ truthy (dict_get "expires_at" items) = false →
  truthy (dict_get "refresh_token" items) = false →
  (∃ tok, load_cache (disk w) = Ok (Some tok))
  ∧ get_token fuel w = interactive fuel w.
Proof.
  intros Hp Hc Hr Ht Hv Hrt.
  unfold MsOauth.get_token, load_cache, read_json. rewrite Hp, Hc, Hr, Ht.
  cbn [from_json]. split; [by eexists|].
  unfold is_access_token_valid. cbn [access_token expires_at refresh_token].
  rewrite Hrt. by destruct Hv as [-> | ->]; rewrite ?orb_true_r.
Qed.

End Client.

(** A read-only directory: the refreshed token is not saved, and
    [get_token] asks for a device code next. *)
Lemma refresh_unsaved_read_only :
  ∃ w',
    MsOauth.refresh MsScenario.bare_refresh "client" MsScenario.int_of_digits
      MsScenario.stale_token MsScenarioMore.read_only_world
    = (Err OSError, w')
    ∧ cache_file (disk w') = cache_file (disk MsScenarioMore.read_only_world).
Proof.
  destruct (refresh_unsaved MsScenario.bare_refresh "client"
              MsScenario.int_of_digits MsScenario.stale_token
              MsScenarioMore.read_only_world
              (mk_response 200 (Doc (PDict [("access_token", PStr "fresh")])))
              [("access_token", PStr "fresh")] 3600)
    as (w' & E & Hd & _).
  - reflexivity.
  - reflexivity.
  - reflexivity.
  - reflexivity.
  - reflexivity.
  - intros [[H|[H _]] _]; discriminate H.
  - exists w'. split; [exact E|exact Hd].
Defined.

(** The cache file holds [{}]. *)
Lemma get_token_hollow_cache_empty_object :
  MsOauth.get_token (MsScenario.always_pending 0) "client"
    MsScenario.int_of_digits 5 MsScenarioMore.hollow_world
  = MsOauth.interactive (MsScenario.always_pending 0) "client"
      MsScenario.int_of_digits 5 MsScenarioMore.hollow_world.
Proof.
  apply (get_token_hollow_cache (MsScenario.always_pending 0) "client"
           MsScenario.int_of_digits 5 MsScenarioMore.hollow_world
           (mk_file 384 Owner (Doc (PDict []))) []).
  - reflexivity.
  - reflexivity.
  - reflexivity.
  - reflexivity.
  - by left.
  - reflexivity.
Defined.

(** A refresh, then a second call: the refreshed token is in the cache. *)
Lemma get_token_cache_agrees_stale :
  match MsOauth.get_token MsScenario.bare_refresh "client"
          MsScenario.int_of_digits 0 MsScenario.stale_world with
  | Some (Ok (tok, _), w') => load_cache (disk w') = Ok (Some tok)
  | _ => False
  end.
Proof.
  destruct (MsOauth.get_token MsScenario.bare_refresh "client"
              MsScenario.int_of_digits 0 MsScenario.stale_world)
    as [[[[tok m]|e] w']|] eqn:E.
  - exact (get_token_cache_agrees _ _ _ _ _ _ _ E).
  - vm_compute in E. discriminate.
  - vm_compute in E. discriminate.
Defined.

(** The second call after that refresh is served from the cache. *)
Lemma get_token_again_stale :
  match MsOauth.get_token MsScenario.bare_refresh "client"
          MsScenario.int_of_digits 0 MsScenario.stale_world with
  | Some (Ok (tok, _), w') =>
      MsOauth.get_token MsScenario.refusing "client" MsScenario.int_of_digits
        0 w'
      = Some (Ok (tok, cached_access), w')
  | _ => False
  end.
Proof.
  destruct (MsOauth.get_token MsScenario.bare_refresh "client"
              MsScenario.int_of_digits 0 MsScenario.stale_world)
    as [[[[tok m]|e] w']|] eqn:E.
  - apply (get_token_again MsScenario.bare_refresh "client"
             MsScenario.int_of_digits 0 0 MsScenario.stale_world w' tok m
             MsScenario.refusing E).
    vm_compute in E. injection E as <- <- <-. vm_compute. reflexivity.
  - vm_compute in E. discriminate.
  - vm_compute in E. discriminate.
Defined.

(** A cache whose expiry is the text [soon]: [ValueError], and nothing is
    asked of the service. *)
Lemma get_token_bad_expiry_soon :
  MsOauth.get_token MsScenario.bare_refresh "client" MsScenario.int_of_digits
    5 MsScenarioMore.odd_expiry_world
  = Some (Err ValueError, MsScenarioMore.odd_expiry_world).
Proof.
  apply (get_token_bad_expiry MsScenario.bare_refresh "client"
           MsScenario.int_of_digits 5 MsScenarioMore.odd_expiry_world
           MsScenarioMore.odd_expiry_token);
    reflexivity.
Defined.

End PersistFacts.

(** ** The device-code login, whatever the service answers *)

Module LoginFacts.
Import Py Requests Sys MsOauth MsSpec CacheFacts SysTactics PollFacts
  PersistFacts.

Lemma is_str_other (v : pyval) (s : string) : v ≠ PStr s → is_str v s = false.
Proof.
  destruct v; try done. simpl. intros H.
  apply String.eqb_neq. congruence.
Qed.

Section Login.

Context (ep : endpoint) (CLIENT_ID : string).
Context (int_of_str : string -> option Z).

Local Abbreviation poll_body := (poll_body ep CLIENT_ID int_of_str).
Local Abbreviation poll_loop := (poll_loop ep CLIENT_ID int_of_str).
Local Abbreviation device_code_login :=
  (device_code_login ep CLIENT_ID int_of_str).
Local Abbreviation poll_request := (poll_request CLIENT_ID).
Local Abbreviation device_code_request := (device_code_request CLIENT_ID).

(** One turn of the loop: the sleep raises; or the device code is missing
    after the sleep; or the turn has slept and polled once, with the device
    code of the authorization, and the next interval is no shorter. *)
Lemma poll_body_turn (dc : list (string * pyval)) (interval : Z)
    (w w' : world) (out : result poll_step) :
  poll_body dc interval w = (out, w') →
  (interval < 0 ∧ out = Err ValueError ∧ w' = w)
  ∨ (0 ≤ interval
     ∧ (∃ e, out = Err e ∧ dict_item "device_code" dc = Err e)
     ∧ trace w' = trace w ++ [Slept interval]
     ∧ posts w' = posts w ∧ disk w' = disk w)
  ∨ (0 ≤ interval
     ∧ ∃ dcode,
         dict_item "device_code" dc = Ok dcode
         ∧ trace w'
           = trace w ++ [Slept interval;
                         Posted (poll_request dcode)
                           (answer_of (ep (posts w) (poll_request dcode)))]
         ∧ posts w' = S (posts w)
         ∧ now w + 1000 * interval ≤ now w'
         ∧ ∀ i', out = Ok (Continue i') → interval ≤ i').
Proof.
  unfold MsOauth.poll_body. unfold_M. intros H.
  destruct (interval <? 0) eqn:Hi; [left; simplify_eq; split; [lia|done]|].
  right.
  destruct (dict_item "device_code" dc) as [dcode|e] eqn:Hdc; simpl in H.
  { right. split; [lia|]. exists dcode. split; [done|].
    set (rq := poll_request dcode) in *.
    pose proof (N2Z.is_nonneg (latency (ep (posts w) rq))) as Hlat.
    all_branches;
      repeat match goal with
      | Hs : save_cache _ _ = _ |- _ =>
          let F := fresh in
          pose proof (save_cache_frame _ _ _ _ Hs) as F; clear Hs;
          simpl in F; destruct F as (? & ? & ?)
      end.
    all: split;
      [try match goal with Ht : trace _ = _ |- _ => rewrite Ht end;
       by rewrite <- app_assoc|].
    all: split; [done|]. all: split; [lia|].
    all: intros i' Hout; simplify_eq; lia. }
  left. simplify_eq. split; [lia|]. split; [eauto|]. done.
Qed.

(** The loop ends within the turns that cover the time to the deadline at
    the shortest interval. *)
Lemma poll_loop_terminates (budget : nat) (dc : list (string * pyval))
    (shortest interval deadline : Z) (w : world) :
  0 < shortest → shortest ≤ interval →
  deadline - now w ≤ 1000 * shortest * Z.of_nat budget →
  ∃ out, poll_loop (S budget) dc interval deadline w = Some out
         ∧ (posts out.2 <= posts w + budget)%nat.
Proof.
  intros Hs. revert interval w.
  induction budget as [|budget IH]; intros interval w Hi Hd;
    rewrite poll_loop_S.
  - assert ((now w <? deadline) = false) as -> by lia.
    eexists. split; [done|]. simpl. lia.
  - destruct (now w <? deadline); [|eexists; split; [done|]; simpl; lia].
    destruct (poll_body dc interval w) as [o w1] eqn:Hb.
    apply poll_body_turn in Hb
      as [(_ & -> & ->)|[(_ & [e [-> _]] & _ & Hp & _)
                        |(_ & dcode & _ & _ & Hp & Hn & Hc)]].
    + eexists. split; [done|]. simpl. lia.
    + eexists. split; [done|]. simpl. lia.
    + destruct o as [[i'|tok]|e].
      * destruct (IH i' w1) as (out & E & Ho).
        { specialize (Hc i' eq_refl). lia. }
        { lia. }
        exists out. split; [done|]. lia.
      * eexists. split; [done|]. simpl. lia.
      * eexists. split; [done|]. simpl. lia.
Qed.

(** X7: a login always ends.  With a positive [interval], whatever the
    service answers to the polls, [device_code_login] returns or raises
    after at most [budget] polls, where [budget] intervals cover
    [expires_in]. *)
Theorem device_code_login_terminates (fuel budget : nat) (w : world)
    (dc : list (string * pyval)) (interval expires_in : Z) :
  grants int_of_str (answer_of (ep (posts w) device_code_request))
    dc interval expires_in →
  0 < interval →
  expires_in ≤ interval * Z.of_nat budget →
  (budget < fuel)%nat →
  ∃ out, device_code_login fuel w = Some out
         ∧ (posts out.2 <= posts w + 1 + budget)%nat.
Proof.
  intros Hg Hi He Hf. unfold MsOauth.device_code_login.
  rewrite (device_authorization_grants ep CLIENT_ID int_of_str dc interval
             expires_in w Hg).
  set (w1 := mk_world _ _ _ _).
  destruct (poll_loop_terminates budget dc interval interval
              (now w1 + 1000 * expires_in) w1) as (out & E & Hp);
    [lia|lia|nia|].
  exists out. split; [by apply (poll_loop_more_fuel _ _ _ (S budget))|].
  simpl in Hp. lia.
Qed.

(** The world after the device-code request. *)
Local Abbreviation authorized w :=
  (mk_world
     (now w + Z.of_N (latency (ep (posts w) device_code_request)))
     (disk w) (S (posts w))
     (trace w ++ [Posted device_code_request
                    (answer_of (ep (posts w) device_code_request))])).

(** X8: a refusal is not a timeout.  When the first poll is answered with a
    status other than 200 and a JSON object whose [error] is neither
    [authorization_pending] nor [slow_down] (or is missing),
    [device_code_login] raises [RuntimeError] with that object: it has made
    the device-code request, slept once and polled once, and the cache
    directory is untouched. *)
Theorem device_code_login_refused (fuel : nat) (w : world)
    (dc : list (string * pyval)) (dcode : pyval) (interval expires_in : Z)
    (r : response) (items : list (string * pyval)) :
  grants int_of_str (answer_of (ep (posts w) device_code_request))
    dc interval expires_in →
  dict_item "device_code" dc = Ok dcode →
  0 ≤ interval → 0 < expires_in →
  answer_of (ep (S (posts w)) (poll_request dcode)) = Answer r →
  status_code r ≠ 200 →
  body r = Doc (PDict items) →
  dict_get "error" items ≠ PStr "authorization_pending" →
  dict_get "error" items ≠ PStr "slow_down" →
  (0 < fuel)%nat →
  ∃ w', device_code_login fuel w
        = Some (Err (RuntimeError "Device code token failed: "
                       (Some (PDict items))), w')
      ∧ trace w'
        = trace (authorized w)
          ++ [Slept interval; Posted (poll_request dcode) (Answer r)]
      ∧ disk w' = disk w.
Proof.
  intros Hg Hdc Hi He Ha Hst Hb Hp%is_str_other Hs%is_str_other Hf.
  unfold MsOauth.device_code_login.
  rewrite (device_authorization_grants ep CLIENT_ID int_of_str dc interval
             expires_in w Hg).
  destruct fuel as [|fuel]; [lia|]. rewrite poll_loop_S.
  cbn [now]. assert (∀ t, (t <? t + 1000 * expires_in) = true) as -> by lia.
  unfold MsOauth.poll_body, mbind, M_bind, bind, sleep, lift, post.
  assert ((interval <? 0) = false) as -> by lia.
  rewrite Hdc. cbn [posts]. rewrite Ha.
  apply Z.eqb_neq in Hst. rewrite Hst.
  unfold json. rewrite Hb. cbn -[String.eqb]. rewrite Hp, Hs.
  cbn -[String.eqb]. eexists. split; [reflexivity|]. simpl.
  split; [by rewrite <- app_assoc|done].
Qed.

(** X9: an authorization that has already expired ([expires_in] zero or
    negative) raises the timeout at once: after the device-code request
    there is no sleep and no poll. *)
Theorem device_code_login_expired_on_arrival (fuel : nat) (w : world)
    (dc : list (string * pyval)) (interval expires_in : Z) :
  grants int_of_str (answer_of (ep (posts w) device_code_request))
    dc interval expires_in →
  expires_in ≤ 0 →
  (0 < fuel)%nat →
  device_code_login fuel w
  = Some (Err (TimeoutError
                 "Device code expired before you finished signing in."),
          authorized w).
Proof.
  intros Hg He Hf. unfold MsOauth.device_code_login.
  rewrite (device_authorization_grants ep CLIENT_ID int_of_str dc interval
             expires_in w Hg).
  destruct fuel as [|fuel]; [lia|]. rewrite poll_loop_S. cbn [now].
  by assert (∀ t, (t <? t + 1000 * expires_in) = false) as -> by lia.
Qed.

(** X10: what the first turn of the loop does with a bad authorization.  A
    negative [interval] makes [time.sleep] raise [ValueError] before any
    poll; an authorization without [device_code] raises [KeyError] only
    after the first sleep, and no poll is made. *)
Theorem device_code_login_bad_authorization (fuel : nat) (w : world)
    (dc : list (string * pyval)) (interval expires_in : Z) :
  grants int_of_str (answer_of (ep (posts w) device_code_request))
    dc interval expires_in →
  0 < expires_in →
  (0 < fuel)%nat →
  (interval < 0 →
     device_code_login fuel w = Some (Err ValueError, authorized w))
  ∧ (0 ≤ interval → assoc "device_code" dc = None →
     device_code_login fuel w
     = Some (Err (KeyError "device_code"),
             mk_world (now (authorized w) + 1000 * interval) (disk w)
               (S (posts w)) (trace (authorized w) ++ [Slept interval]))).
Proof.
  intros Hg He Hf. unfold MsOauth.device_code_login.
  rewrite (device_authorization_grants ep CLIENT_ID int_of_str dc interval
             expires_in w Hg).
  destruct fuel as [|fuel]; [lia|]. rewrite poll_loop_S. cbn [now].
  assert (∀ t, (t <? t + 1000 * expires_in) = true) as -> by lia.
  unfold MsOauth.poll_body, mbind, M_bind, bind, sleep, lift, post.
  split.
  - intros Hi. by assert ((interval <? 0) = true) as -> by lia.
  - intros Hi Hdc. assert ((interval <? 0) = false) as -> by lia.
    unfold dict_item. by rewrite Hdc.
Qed.

(** X11: the back-off of [device_code_login] is permanent.  After a
    granted authorization every sleep of the login lasts the granted
    interval plus 5 seconds for each [slow_down] answered before it in the
    session. *)
Theorem device_code_login_backoff (fuel : nat) (w : world)
    (dc : list (string * pyval)) (interval expires_in : Z)
    (out : result TokenSet * world) :
  grants int_of_str (answer_of (ep (posts w) device_code_request))
    dc interval expires_in →
  device_code_login fuel w = Some out →
  ∃ new,
    trace out.2 = trace (authorized w) ++ new
    ∧ ∀ pre n post,
        new = pre ++ Slept n :: post → n = interval + 5 * slow_downs pre.
Proof.
  intros Hg. unfold MsOauth.device_code_login.
  rewrite (device_authorization_grants ep CLIENT_ID int_of_str dc interval
             expires_in w Hg).
  apply poll_loop_sleeps.
Qed.

(** X12: the polls keep to their interval.  In the log of the poll loop
    every poll comes straight after a sleep of at least the initial
    interval, and it carries the device code of the authorization. *)
Theorem polls_wait_their_turn (fuel : nat) (dc : list (string * pyval))
    (interval deadline : Z) (w : world) (out : result TokenSet * world) :
  poll_loop fuel dc interval deadline w = Some out →
  ∃ new,
    trace out.2 = trace w ++ new
    ∧ ∀ pre rq a post,
        new = pre ++ Posted rq a :: post →
        ∃ pre' n dcode,
          pre = pre' ++ [Slept n] ∧ interval ≤ n
          ∧ dict_item "device_code" dc = Ok dcode
          ∧ rq = poll_request dcode.
Proof.
  revert interval w. induction fuel as [|fuel IH]; intros interval w; [done|].
  rewrite poll_loop_S. destruct (now w <? deadline).
  2:{ intros [= <-]. exists []. rewrite app_nil_r. split; [done|].
      intros pre rq a post E. destruct pre; simplify_eq/=. }
  destruct (poll_body dc interval w) as [o w1] eqn:Hb.
  apply poll_body_turn in Hb
    as [(_ & -> & ->)|[(_ & [e [-> _]] & Ht & _)
                      |(_ & dcode & Hdc & Ht & _ & _ & Hc)]].
  - intros [= <-]. exists []. rewrite app_nil_r. split; [done|].
    intros pre rq a post E. destruct pre; simplify_eq/=.
  - intros [= <-]. exists [Slept interval]. split; [done|].
    intros pre rq a post E. destruct pre as [|? [|]]; simplify_eq/=.
  - set (ans := answer_of _) in Ht.
    assert (Hshort : ∀ tl pre rq a post,
              (∀ pre rq a post,
                 tl = pre ++ Posted rq a :: post →
                 ∃ pre' n dcode,
                   pre = pre' ++ [Slept n] ∧ interval ≤ n
                   ∧ dict_item "device_code" dc = Ok dcode
                   ∧ rq = poll_request dcode) →
              Slept interval :: Posted (poll_request dcode) ans :: tl
              = pre ++ Posted rq a :: post →
              ∃ pre' n dcode,
                pre = pre' ++ [Slept n] ∧ interval ≤ n
                ∧ dict_item "device_code" dc = Ok dcode
                ∧ rq = poll_request dcode).
    { intros tl [|e1 [|e2 pre]] rq a post Htl E; simplify_eq/=.
      - exists [], interval, dcode. repeat split; done || lia.
      - destruct (Htl _ _ _ _ eq_refl) as (pre' & n & dcode' & -> & ? & ? & ?).
        exists (Slept interval :: Posted (poll_request dcode) ans :: pre'),
          n, dcode'.
        repeat split; done. }
    destruct o as [[i'|tok]|e].
    + intros Hl. destruct (IH _ _ Hl) as (new & Hn & Hs).
      exists (Slept interval :: Posted (poll_request dcode) ans :: new).
      rewrite Hn, Ht, <- app_assoc. split; [done|].
      intros pre rq a post E. apply (Hshort new pre rq a post); [|done].
      intros pre0 rq0 a0 post0 E0.
      destruct (Hs _ _ _ _ E0) as (pre' & n & dcode' & ? & ? & ? & ?).
      exists pre', n, dcode'. specialize (Hc i' eq_refl).
      repeat split; try done. lia.
    + intros [= <-]. exists [Slept interval; Posted (poll_request dcode) ans].
      split; [done|]. intros pre rq a post E.
      apply (Hshort [] pre rq a post); [|done].
      intros pre0 ? ? ? E0. destruct pre0; simplify_eq/=.
    + intros [= <-]. exists [Slept interval; Posted (poll_request dcode) ans].
      split; [done|]. intros pre rq a post E.
      apply (Hshort [] pre rq a post); [|done].
      intros pre0 ? ? ? E0. destruct pre0; simplify_eq/=.
Qed.

End Login.

(** Interval 5, [expires_in] 20 and a service that always answers
    [authorization_pending]: the login ends within five requests. *)
Lemma device_code_login_terminates_pending :
  ∃ out,
    MsOauth.device_code_login (MsScenario.always_pending 0) "client"
      MsScenario.int_of_digits 5 MsScenario.fresh_world = Some out
    ∧ (posts out.2 <= 5)%nat.
Proof.
  apply (device_code_login_terminates (MsScenario.always_pending 0) "client"
           MsScenario.int_of_digits 5 4 MsScenario.fresh_world
           (MsScenarioMore.grant_items 5 20) 5 20).
  - eexists. repeat split; reflexivity.
  - lia.
  - simpl. lia.
  - lia.
Defined.

(** The user declines: [RuntimeError] after one poll. *)
Lemma device_code_login_refused_declined :
  ∃ w', MsOauth.device_code_login
          (MsScenarioMore.answering 5 20 "authorization_declined") "client"
          MsScenario.int_of_digits 1 MsScenario.fresh_world
        = Some (Err (RuntimeError "Device code token failed: "
                       (Some (PDict [("error",
                                      PStr "authorization_declined")]))), w')
      ∧ sleeps (trace w') = [5]
      ∧ disk w' = MsScenario.empty_dir.
Proof.
  destruct (device_code_login_refused
              (MsScenarioMore.answering 5 20 "authorization_declined")
              "client" MsScenario.int_of_digits 1 MsScenario.fresh_world
              (MsScenarioMore.grant_items 5 20) (PStr "DEVICE") 5 20
              (mk_response 400
                 (Doc (PDict [("error", PStr "authorization_declined")])))
              [("error", PStr "authorization_declined")])
    as (w' & E & Ht & Hd).
  - eexists. repeat split; reflexivity.
  - reflexivity.
  - lia.
  - lia.
  - reflexivity.
  - simpl. lia.
  - reflexivity.
  - discriminate.
  - discriminate.
  - lia.
  - exists w'. split; [exact E|]. split; [|exact Hd].
    rewrite Ht. reflexivity.
Defined.

(** An authorization with [expires_in] 0: the timeout, and the device-code
    request is the only thing in the log. *)
Lemma device_code_login_expired_on_arrival_zero :
  ∃ w', MsOauth.device_code_login
          (MsScenarioMore.answering 5 0 "authorization_pending") "client"
          MsScenario.int_of_digits 1 MsScenario.fresh_world
        = Some (Err (TimeoutError
                       "Device code expired before you finished signing in."),
                w')
      ∧ length (trace w') = 1%nat.
Proof.
  eexists. split.
  - apply (device_code_login_expired_on_arrival
             (MsScenarioMore.answering 5 0 "authorization_pending") "client"
             MsScenario.int_of_digits 1 MsScenario.fresh_world
             (MsScenarioMore.grant_items 5 0) 5 0).
    + eexists. repeat split; reflexivity.
    + lia.
    + lia.
  - reflexivity.
Defined.

(** An interval of -1, and an authorization without device code. *)
Lemma device_code_login_bad_authorization_both :
  (∃ w', MsOauth.device_code_login
           (MsScenarioMore.answering (-1) 20 "authorization_pending")
           "client" MsScenario.int_of_digits 1 MsScenario.fresh_world
         = Some (Err ValueError, w')
       ∧ sleeps (trace w') = [])
  ∧ (∃ w', MsOauth.device_code_login MsScenarioMore.codeless "client"
             MsScenario.int_of_digits 1 MsScenario.fresh_world
           = Some (Err (KeyError "device_code"), w')
         ∧ sleeps (trace w') = [5] ∧ posts w' = 1%nat).
Proof.
  split.
  - destruct (device_code_login_bad_authorization
                (MsScenarioMore.answering (-1) 20 "authorization_pending")
                "client" MsScenario.int_of_digits 1 MsScenario.fresh_world
                (MsScenarioMore.grant_items (-1) 20) (-1) 20)
      as [H _].
    + eexists. repeat split; reflexivity.
    + lia.
    + lia.
    + eexists. split; [apply H; lia|reflexivity].
  - destruct (device_code_login_bad_authorization
                MsScenarioMore.codeless "client" MsScenario.int_of_digits 1
                MsScenario.fresh_world MsScenarioMore.codeless_items 5 20)
      as [_ H].
    + eexists. repeat split; reflexivity.
    + lia.
    + lia.
    + eexists. split; [apply H; [lia|reflexivity]|].
      split; reflexivity.
Defined.

(** A login against a service that answers [slow_down] to the first
    poll: 5 seconds, then 10 and 10. *)
Lemma device_code_login_backoff_once :
  match MsOauth.device_code_login MsScenario.slow_down_once "client"
          MsScenario.int_of_digits 10 MsScenario.fresh_world with
  | Some out =>
      sleeps (trace out.2) = [5; 10; 10]
      ∧ ∃ new,
          trace out.2
          = [Posted (MsOauth.device_code_request "client")
               (answer_of (MsScenario.device_reply 5 20))] ++ new
          ∧ ∀ pre n post,
              new = pre ++ Slept n :: post → n = 5 + 5 * slow_downs pre
  | None => False
  end.
Proof.
  destruct (MsOauth.device_code_login MsScenario.slow_down_once "client"
              MsScenario.int_of_digits 10 MsScenario.fresh_world)
    as [out|] eqn:E.
  - split; [vm_compute in E; by injection E as <-|].
    apply (device_code_login_backoff MsScenario.slow_down_once "client"
             MsScenario.int_of_digits 10 MsScenario.fresh_world
             (MsScenarioMore.grant_items 5 20) 5 20 out); [|exact E].
    eexists. repeat split; reflexivity.
  - vm_compute in E. discriminate.
Defined.

(** The loop against a service that answers [slow_down] once. *)
Lemma polls_wait_their_turn_slow_down :
  match MsOauth.poll_loop MsScenario.slow_down_once "client"
          MsScenario.int_of_digits 10 (MsScenarioMore.grant_items 5 20) 5
          1700000020000 MsScenarioMore.polling_world with
  | Some out =>
      ∃ new,
        trace out.2 = new
        ∧ ∀ pre rq a post,
            new = pre ++ Posted rq a :: post →
            ∃ pre' n dcode,
              pre = pre' ++ [Slept n] ∧ 5 ≤ n
              ∧ dict_item "device_code" (MsScenarioMore.grant_items 5 20)
                = Ok dcode
              ∧ rq = MsOauth.poll_request "client" dcode
  | None => False
  end.
Proof.
  destruct (MsOauth.poll_loop MsScenario.slow_down_once "client"
              MsScenario.int_of_digits 10 (MsScenarioMore.grant_items 5 20) 5
              1700000020000 MsScenarioMore.polling_world) as [out|] eqn:E.
  - exact (polls_wait_their_turn _ _ _ _ _ _ _ _ _ E).
  - vm_compute in E. discriminate.
Defined.

End LoginFacts.

(** ** The candidates and the exchange, whatever the service answers *)

Module MatrixFacts.
Import Py Flow Requests Xbox XboxSpec FlowFacts XboxFacts ExchangeFacts.

Lemma keep_first_keys_fresh {A : Type} (key : A -> string) (l : list A)
    (seen : list string) (k : string) :
  k ∈ key <$> keep_first key seen l → k ∉ seen.
Proof.
  intros (x & -> & Hx)%list_elem_of_fmap.
  by apply keep_first_fresh in Hx as [? _].
Qed.

Lemma keep_first_NoDup {A : Type} (key : A -> string) (l : list A)
    (seen : list string) :
  NoDup (key <$> keep_first key seen l).
Proof.
  revert seen. induction l as [|x l IH]; intros seen; simpl.
  - constructor.
  - case_decide; [apply IH|]. rewrite fmap_cons. constructor; [|apply IH].
    intros Hk%keep_first_keys_fresh. apply Hk. by left.
Qed.

(** No key is lost: a key of the list is among those seen before or among
    those kept. *)
Lemma keep_first_complete {A : Type} (key : A -> string) (l : list A)
    (seen : list string) (x : A) :
  x ∈ l → key x ∈ seen ∨ key x ∈ key <$> keep_first key seen l.
Proof.
  revert seen. induction l as [|y l IH]; intros seen; [by intros ?%elem_of_nil|].
  intros [->|Hx]%elem_of_cons; simpl.
  - case_decide; [by left|]. right. rewrite fmap_cons. by left.
  - case_decide.
    + by apply IH.
    + destruct (IH (key y :: seen) Hx) as [[->|?]%elem_of_cons|?].
      * right. rewrite fmap_cons. by left.
      * by left.
      * right. rewrite fmap_cons. by right.
Qed.

Lemma keep_first_length {A : Type} (key : A -> string) (l : list A)
    (seen : list string) :
  (length (keep_first key seen l) <= length l)%nat.
Proof.
  revert seen. induction l as [|x l IH]; intros seen; simpl; [done|].
  case_decide; simpl.
  - specialize (IH seen). lia.
  - specialize (IH (key x :: seen)). lia.
Qed.

Lemma length_prefixed (bs : list (string * string)) :
  length (prefixed bs) = (2 * length bs)%nat.
Proof.
  induction bs as [|b bs IH]; [done|].
  change (prefixed (b :: bs))
    with (("d=" +:+ b.1, "d=" +:+ b.2) :: ("t=" +:+ b.1, "t=" +:+ b.2)
          :: prefixed bs).
  cbn [length]. rewrite IH. lia.
Qed.

Lemma length_combinations (uniq : list ticket) :
  length (combinations uniq) = (4 * length uniq)%nat.
Proof.
  assert (H : ∀ (rp : string) (c : bool),
            length (t ← uniq; [(rp, c, t)]) = length uniq).
  { intros rp c. induction uniq as [|t uniq IH]; [done|].
    change (length ((t :: uniq) ≫= λ t0, [(rp, c, t0)]))
      with (S (length (uniq ≫= λ t0, [(rp, c, t0)]))).
    by rewrite IH. }
  unfold combinations, relying_parties.
  rewrite !bind_cons, !length_app, !H. simpl. lia.
Qed.

Section Matrix.

Context (unquote : string -> option string) (quote : string -> string).

Local Abbreviation candidates := (candidates unquote quote).
Local Abbreviation all_tickets := (all_tickets unquote quote).
Local Abbreviation bases := (bases unquote quote).

Lemma length_all_tickets (d : string) (raw : option string) :
  (12 <= length (all_tickets d raw) <= 18)%nat.
Proof.
  rewrite all_tickets_eq, length_app, length_prefixed.
  pose proof (length_filter (λ t : ticket, t.2 ≠ "") (bases d raw)) as Hf.
  unfold nonempty. change (length (bases d raw)) with 6%nat in *. lia.
Qed.

Lemma length_candidates (d : string) (raw : option string) :
  (length (candidates d raw) <= 18)%nat.
Proof.
  rewrite candidates_keep_first.
  etrans; [apply keep_first_length|apply length_all_tickets].
Qed.

(** X13: the candidates are pairwise distinct in their encoded value, no
    encoded value of the list before de-duplication is lost, and there are
    between two and eighteen of them. *)
Theorem candidates_distinct_complete (d : string) (raw : option string) :
  NoDup (candidates d raw).*2
  ∧ (∀ v, v ∈ (candidates d raw).*2 ↔ v ∈ (all_tickets d raw).*2)
  ∧ (2 <= length (candidates d raw) <= 18)%nat.
Proof.
  rewrite candidates_keep_first. split; [apply keep_first_NoDup|]. split.
  - intros v. split.
    + intros (t & -> & [_ Ht]%keep_first_fresh)%list_elem_of_fmap.
      apply list_elem_of_fmap. eauto.
    + intros (t & -> & Ht)%list_elem_of_fmap.
      destruct (keep_first_complete snd _ [] t Ht) as [?%elem_of_nil|?]; done.
  - split.
    2:{ rewrite <- candidates_keep_first. apply length_candidates. }
    assert (Hd : ("d=decoded", "d=" +:+ d) ∈ all_tickets d raw).
    { rewrite all_tickets_eq. apply elem_of_app. right.
      unfold prefixed, Xbox.bases. rewrite bind_cons. apply elem_of_app. left.
      by left. }
    assert (Ht : ("t=decoded", "t=" +:+ d) ∈ all_tickets d raw).
    { rewrite all_tickets_eq. apply elem_of_app. right.
      unfold prefixed, Xbox.bases. rewrite bind_cons. apply elem_of_app. left.
      right. by left. }
    destruct (keep_first_complete snd _ [] _ Hd) as [?%elem_of_nil|Hd'];
      [done|].
    destruct (keep_first_complete snd _ [] _ Ht) as [?%elem_of_nil|Ht'];
      [done|].
    pose proof (keep_first_NoDup snd (all_tickets d raw) []) as Hnd.
    cut (2 <= length (keep_first snd [] (all_tickets d raw)).*2)%nat;
      [by rewrite length_fmap|].
    destruct (snd <$> keep_first snd [] (all_tickets d raw)) as [|a [|b l]].
    + by apply elem_of_nil in Hd'.
    + apply list_elem_of_singleton in Hd', Ht'. simpl in Hd', Ht'.
      rewrite <- Hd' in Ht'. discriminate.
    + simpl. lia.
Qed.

Context (ep : endpoint).

Local Abbreviation xbl_user_authenticate :=
  (xbl_user_authenticate unquote quote ep).
Local Abbreviation trial := (trial ep).

Lemma trial_sends (c : combination) (s : xstate) :
  sent (state_of (trial c s)) = sent s ++ [request_of c].
Proof.
  unfold XboxSpec.trial, try_candidate. fold (request_of c).
  destruct (ep (length (sent s)) (request_of c)) as [r|e]; [|done].
  destruct (status_code r =? 200); [|done]. by destruct (json r).
Qed.

(** The token under the prefix [d=] is always among the candidates. *)
Lemma d_decoded_candidate (d : string) (raw : option string) :
  "d=" +:+ d ∈ (candidates d raw).*2.
Proof.
  assert (Hd : ("d=decoded", "d=" +:+ d) ∈ all_tickets d raw).
  { rewrite all_tickets_eq. apply elem_of_app. right.
    unfold prefixed, Xbox.bases. rewrite bind_cons. apply elem_of_app. left.
    by left. }
  rewrite candidates_keep_first.
  by destruct (keep_first_complete snd _ [] _ Hd) as [?%elem_of_nil|?].
Qed.

(** The requests of a call are at least one and at most 72. *)
Lemma exchange_sent_bounds (d : string) (raw : option string) :
  (1 <= length (sent (state_of (xbl_user_authenticate d raw))) <= 72)%nat.
Proof.
  pose proof (candidates_not_nil unquote quote d raw) as Hne.
  apply combinations_not_nil in Hne.
  assert (Hc : (length (combinations (candidates d raw)) <= 72)%nat).
  { rewrite length_combinations. pose proof (length_candidates d raw). lia. }
  unfold Xbox.xbl_user_authenticate. rewrite nested_loops_flat.
  revert Hne Hc. generalize (combinations (candidates d raw)). intros cs Hne Hc.
  destruct (trials_in_order ep cs xstate0) as [n Hn]. simpl in Hn.
  assert (H1 : (1 <= length (sent (state_of (for_each cs trial xstate0))))%nat).
  { destruct cs as [|c cs]; [done|]. cbn [for_each].
    pose proof (trial_sends c xstate0) as H1.
    destruct (trial c xstate0) as [s1| |]; cbn [state_of] in *;
      try (rewrite H1; cbn; lia).
    destruct (trials_in_order ep cs s1) as [m Hm].
    rewrite Hm, H1, !length_app. cbn. lia. }
  assert (H72 : (length (sent (state_of (for_each cs trial xstate0))) <= 72)%nat).
  { rewrite Hn, length_fmap, length_take. lia. }
  revert H1 H72. generalize (for_each cs trial xstate0).
  by intros [s|v s|e s] H1 H72; cbn [state_of] in *.
Qed.

(** X14: the budget of a call.  Whatever the service answers,
    [xbl_user_authenticate] issues at least one request and at most 72, and
    the requests issued are those of an initial segment of the matrix, in
    its order. *)
Theorem exchange_request_budget (d : string) (raw : option string) :
  (1 <= length (sent (state_of (xbl_user_authenticate d raw))) <= 72)%nat
  ∧ ∃ n, sent (state_of (xbl_user_authenticate d raw))
         = request_of <$> take n (combinations (candidates d raw)).
Proof.
  split; [apply exchange_sent_bounds|].
  apply exchange_requests_in_order.
Qed.

(** A token that is not empty is the first candidate, as it is. *)
Lemma candidates_head (d : string) (raw : option string) :
  d ≠ "" → ∃ rest, candidates d raw = ("decoded", d) :: rest.
Proof.
  intros Hd. rewrite candidates_keep_first, all_tickets_eq.
  unfold Xbox.bases, nonempty. rewrite filter_cons_True by done.
  cbn [app keep_first]. rewrite decide_False by (by intros ?%elem_of_nil).
  eauto.
Qed.

(** The first request of a call for a token that is not empty. *)
Lemma exchange_first_request (d : string) (raw : option string) :
  d ≠ "" →
  head (sent (state_of (xbl_user_authenticate d raw)))
  = Some (attempt_request d "http://auth.xboxlive.com" true).
Proof.
  intros [rest Hc]%(candidates_head d raw).
  unfold Xbox.xbl_user_authenticate. rewrite nested_loops_flat, Hc.
  assert (∃ cs, combinations (("decoded", d) :: rest)
                = ("http://auth.xboxlive.com", true, ("decoded", d)) :: cs)
    as [cs ->] by (unfold combinations, relying_parties; cbn; eauto).
  cbn [for_each].
  pose proof (trial_sends ("http://auth.xboxlive.com", true, ("decoded", d))
                xstate0) as H1.
  destruct (trial _ xstate0) as [s1| |]; cbn [state_of] in *;
    try (by rewrite H1).
  destruct (trials_in_order ep cs s1) as [m Hm].
  assert (Hs : ∀ o : outcome xstate pyval,
            head (sent (state_of o)) = Some (attempt_request d "http://auth.xboxlive.com" true) →
            head (sent (state_of
                          match o with
                          | Next s =>
                              Raise (RuntimeError
                                       (failure_message (attempts s)) None) s
                          | Return r s => Return r s
                          | Raise e s => Raise e s
                          end)) = Some (attempt_request d "http://auth.xboxlive.com" true))
    by (by intros []).
  apply Hs. by rewrite Hm, H1.
Qed.

(** X15: an exception of [requests.post] is not caught.  When the
    combinations before the [k+1]-th were answered with a status other than
    200 and the [k+1]-th request raises, the call raises that exception
    after exactly [k+1] requests: no later combination is tried and no
    digest is made. *)
Theorem exchange_transport_error (d : string) (raw : option string) (k : nat)
    (combo : combination) (e : exn) :
  combinations (candidates d raw) !! k = Some combo →
  (∀ j c, (j < k)%nat → combinations (candidates d raw) !! j = Some c →
     ∃ r', ep j (request_of c) = Answer r' ∧ status_code r' ≠ 200) →
  ep k (request_of combo) = NoAnswer e →
  ∃ s, xbl_user_authenticate d raw = Raise e s
     ∧ sent s = request_of <$> take (S k) (combinations (candidates d raw))
     ∧ length (attempts s) = k.
Proof.
  unfold Xbox.xbl_user_authenticate. rewrite nested_loops_flat.
  generalize (combinations (candidates d raw)). intros cs Hk Hfail Hr.
  assert (Hlt : (k < length cs)%nat) by (by eapply lookup_lt_Some).
  replace (for_each cs trial xstate0)
    with (for_each (take k cs ++ combo :: drop (S k) cs) trial xstate0)
    by (by rewrite take_drop_middle).
  rewrite for_each_app.
  destruct (trials_all_fail ep (take k cs) xstate0) as (new & E & L & _).
  { intros j c Hj. simpl.
    apply lookup_take_Some in Hj as [Hj Hjk]. by apply Hfail. }
  rewrite E. simpl. unfold XboxSpec.trial at 1, try_candidate. simpl.
  rewrite length_fmap, length_take, Nat.min_l by lia.
  fold (request_of combo). rewrite Hr.
  exists (mk_xstate ((request_of <$> take k cs) ++ [request_of combo]) new).
  split; [done|]. simpl.
  assert (Ht : take (S k) cs = take k cs ++ [combo])
    by (by apply take_S_r).
  rewrite Ht, fmap_app. split; [done|].
  rewrite L, length_take. lia.
Qed.

End Matrix.

(** The connection drops at the third request: the exception comes out
    after three requests and two recorded attempts. *)
Lemma exchange_transport_error_third :
  ∃ s, Xbox.xbl_user_authenticate Urllib.unquote Urllib.quote
         ScenarioMore.drops_third "a/b" (Some "a%2Fb")
       = Raise RequestException s
     ∧ length (sent s) = 3%nat
     ∧ length (attempts s) = 2%nat.
Proof.
  destruct (exchange_transport_error Urllib.unquote Urllib.quote
              ScenarioMore.drops_third "a/b" (Some "a%2Fb") 2
              ("http://auth.xboxlive.com", true, ("rawfrag_enc", "a%252Fb"))
              RequestException)
    as (s & E & Hs & Ha).
  - vm_compute. reflexivity.
  - intros j c Hj _. exists (mk_response 401 Garbage).
    unfold ScenarioMore.drops_third.
    destruct (Nat.eqb_spec j 2) as [->|_]; [lia|]. split; [done|]. simpl. lia.
  - reflexivity.
  - exists s. split; [exact E|]. split; [|exact Ha].
    rewrite Hs. vm_compute. reflexivity.
Defined.

End MatrixFacts.

(** ** The sleeps of [msal.py] *)

Module ScriptFacts.
Import Py Requests Sys MsSpec SysTactics.

Section Script.

Context (ep : endpoint) (int_of_str : string -> option Z).

Local Abbreviation poll_body := (Msal.poll_body ep).
Local Abbreviation poll_loop := (Msal.poll_loop ep).

(** One turn of the loop of [msal.py]: at most a poll and then a sleep,
    whose length is read off the answer to that poll. *)
Lemma msal_poll_body_log (j : pyval) (interval : Z) (w w' : world)
    (out : result (option unit)) :
  poll_body j interval w = (out, w') →
  trace w' = trace w
  ∨ (∃ rq a, trace w' = trace w ++ [Posted rq a] ∧ out ≠ Ok None)
  ∨ ∃ rq a,
      trace w'
      = trace w
        ++ [Posted rq a;
            Slept (interval
                   + if is_error_answer "slow_down" a then 5 else 0)].
Proof.
  unfold Msal.poll_body, Msal.subscript. unfold_M.
  intros H.
  all_branches; try (by left);
    try (right; left; do 2 eexists; split; [reflexivity|done]; fail).
  all: right; right.
  all: match goal with |- context [Posted ?rq ?a] => exists rq, a end.
  all: rewrite <- app_assoc; simpl; unfold is_error_answer.
  all: repeat match goal with
         | Hx : (status_code _ =? 200) = _ |- _ => rewrite Hx; clear Hx
         | Hx : body _ = _ |- _ => rewrite Hx; clear Hx
         | Hx : is_str _ "slow_down" = _ |- _ => rewrite Hx; clear Hx
         end; done.
Qed.

(** X16: in [msal.py] a [slow_down] lengthens one sleep only.  Every sleep
    of the poll loop comes straight after a poll and lasts the initial
    interval, plus 5 seconds exactly when the answer to that very poll was
    [slow_down]; no earlier answer counts. *)
Theorem msal_sleep_follows_answer (fuel : nat) (j : pyval)
    (interval deadline : Z) (w : world) (out : result unit * world) :
  poll_loop fuel j interval deadline w = Some out →
  ∃ new,
    trace out.2 = trace w ++ new
    ∧ ∀ pre n post,
        new = pre ++ Slept n :: post →
        ∃ pre' rq a,
          pre = pre' ++ [Posted rq a]
          ∧ n = interval + if is_error_answer "slow_down" a then 5 else 0.
Proof.
  revert w. induction fuel as [|fuel IH]; intros w; [done|]. simpl.
  destruct (now w <? deadline).
  2:{ intros [= <-]. exists []. rewrite app_nil_r. split; [done|].
      intros pre n post E. destruct pre; simplify_eq/=. }
  destruct (poll_body j interval w) as [o w1] eqn:Hb.
  apply msal_poll_body_log in Hb
    as [Ht|[(rq & a & Ht & Ho)|(rq & a & Ht)]].
  - destruct o as [[[]|]|e].
    + intros [= <-]. exists []. simpl. rewrite Ht, app_nil_r. split; [done|].
      intros pre n post E. destruct pre; simplify_eq/=.
    + intros (new & Hn & Hs)%IH. exists new. by rewrite Hn, Ht.
    + intros [= <-]. exists []. simpl. rewrite Ht, app_nil_r. split; [done|].
      intros pre n post E. destruct pre; simplify_eq/=.
  - destruct o as [[[]|]|e]; [| done |].
    + intros [= <-]. exists [Posted rq a]. split; [done|].
      intros pre n post E. destruct pre as [|? [|]]; simplify_eq/=.
    + intros [= <-]. exists [Posted rq a]. split; [done|].
      intros pre n post E. destruct pre as [|? [|]]; simplify_eq/=.
  - set (n0 := interval + _) in Ht.
    assert (Hshort : ∀ tl pre n post,
              (∀ pre n post,
                 tl = pre ++ Slept n :: post →
                 ∃ pre' rq a,
                   pre = pre' ++ [Posted rq a]
                   ∧ n = interval
                         + if is_error_answer "slow_down" a then 5 else 0) →
              Posted rq a :: Slept n0 :: tl = pre ++ Slept n :: post →
              ∃ pre' rq a,
                pre = pre' ++ [Posted rq a]
                ∧ n = interval
                      + if is_error_answer "slow_down" a then 5 else 0).
    { intros tl [|e1 [|e2 pre]] n post Htl E; simplify_eq/=.
      - by exists [], rq, a.
      - destruct (Htl _ _ _ eq_refl) as (pre' & rq' & a' & -> & ?).
        by exists (Posted rq a :: Slept n0 :: pre'), rq', a'. }
    destruct o as [[[]|]|e].
    + intros [= <-]. exists [Posted rq a; Slept n0]. split; [done|].
      intros pre n post E. apply (Hshort [] pre n post); [|done].
      intros pre0 ? ? E0. destruct pre0; simplify_eq/=.
    + intros (new & Hn & Hs)%IH.
      exists (Posted rq a :: Slept n0 :: new).
      rewrite Hn, Ht, <- app_assoc. split; [done|].
      intros pre n post E. by apply (Hshort new pre n post).
    + intros [= <-]. exists [Posted rq a; Slept n0]. split; [done|].
      intros pre n post E. apply (Hshort [] pre n post); [|done].
      intros pre0 ? ? E0. destruct pre0; simplify_eq/=.
Qed.

End Script.

(** The loop of [msal.py] against a service that answers [slow_down]
    once. *)
Lemma msal_sleep_follows_answer_once :
  match Msal.poll_loop MsScenario.slow_down_once 10
          (PDict (MsScenarioMore.grant_items 5 20)) 5 1700000020000
          MsScenarioMore.polling_world with
  | Some out =>
      ∃ new,
        trace out.2 = new
        ∧ ∀ pre n post,
            new = pre ++ Slept n :: post →
            ∃ pre' rq a,
              pre = pre' ++ [Posted rq a]
              ∧ n = 5 + if is_error_answer "slow_down" a then 5 else 0
  | None => False
  end.
Proof.
  destruct (Msal.poll_loop MsScenario.slow_down_once 10
              (PDict (MsScenarioMore.grant_items 5 20)) 5 1700000020000
              MsScenarioMore.polling_world) as [out|] eqn:E.
  - exact (msal_sleep_follows_answer _ _ _ _ _ _ _ E).
  - vm_compute in E. discriminate.
Defined.

End ScriptFacts.

(** ** The token of the redirect *)

Module RedirectFacts.
Import Py Flow Requests PyStr XboxMain RedirectSpec.

Lemma with_key_cons (k p : string) (parts : list string) :
  with_key k (p :: parts)
  = if decide (p ≠ "" ∧ key_of p = k) then p :: with_key k parts
    else with_key k parts.
Proof. unfold with_key. by rewrite filter_cons. Qed.

Section Parse.

Context (decode : string -> string).

Local Abbreviation unquote := (λ s : string, Ok (decode s)).

(** One turn of the loop on a part that is not empty. *)
Lemma fragment_part_step (p : string) (st : frags) :
  p ≠ "" →
  fragment_part unquote p st
  = Next (<[key_of p := value_of p]> st.1,
          <[key_of p := decoded_value_of decode p]> st.2).
Proof.
  intros Hp%String.eqb_neq.
  unfold fragment_part, key_of, value_of, decoded_value_of. rewrite Hp.
  by destruct (cut "=" p) as [[k v]|].
Qed.

(** The loop over the parts leaves, under every key, the value of the last
    part with that key. *)
Lemma fragment_parts_last (parts : list string) (st : frags) :
  ∃ raw dec,
    for_each parts (fragment_part unquote) st = Next (raw, dec)
    ∧ ∀ k,
        raw !! k = match last (with_key k parts) with
                   | Some p => Some (value_of p)
                   | None => st.1 !! k
                   end
        ∧ dec !! k = match last (with_key k parts) with
                     | Some p => Some (decoded_value_of decode p)
                     | None => st.2 !! k
                     end.
Proof.
  revert st. induction parts as [|p parts IH]; intros [raw0 dec0].
  - exists raw0, dec0. done.
  - cbn [for_each].
    destruct (decide (p = "")) as [->|Hp].
    + destruct (IH (raw0, dec0)) as (raw & dec & E & H).
      exists raw, dec. split; [done|]. intros k.
      rewrite with_key_cons, decide_False by (by intros [? _]). apply H.
    + rewrite fragment_part_step by done. cbn [fst snd].
      destruct (IH (<[key_of p := value_of p]> raw0,
                    <[key_of p := decoded_value_of decode p]> dec0))
        as (raw & dec & E & H).
      exists raw, dec. split; [done|]. intros k.
      destruct (H k) as [Hr Hd]. rewrite with_key_cons.
      case_decide as Hk.
      * destruct Hk as [_ <-]. rewrite last_cons.
        destruct (last (with_key (key_of p) parts)); [done|].
        cbn [fst snd] in Hr, Hd. by rewrite lookup_insert_eq in Hr, Hd.
      * destruct (last (with_key k parts)); [done|].
        cbn [fst snd] in Hr, Hd.
        assert (key_of p ≠ k) by (intros ?; by apply Hk).
        by rewrite lookup_insert_ne in Hr, Hd.
Qed.

(** X17: the token of the redirect, read off the fragment.  When [unquote]
    does not raise, the block raises [RuntimeError] exactly when no
    non-empty part of the fragment has the key [access_token]; otherwise
    every field is that of the last part with its key: the raw value is the
    text after the first [=] of that part, unchanged, and the other fields
    are its decoded value, or the raw one when the decoded one is empty. *)
Theorem token_of_redirect_last_wins (url fragment : string) :
  token_of_redirect unquote url fragment
  = match last_part "access_token" fragment with
    | None =>
        Err (RuntimeError
               "Redirect reached but missing access_token fragment: "
               (Some (PStr url)))
    | Some p =>
        Ok (mk_ms_tokens
              (Some (value_of p))
              (field decode "access_token" fragment)
              (value_of <$> last_part "refresh_token" fragment)
              (field decode "refresh_token" fragment)
              (field decode "token_type" fragment)
              (field decode "expires_in" fragment)
              (field decode "scope" fragment)
              (field decode "user_id" fragment)
              url)
    end.
Proof.
  unfold token_of_redirect, field, last_part.
  destruct (fragment_parts_last (split "&" fragment) (∅, ∅))
    as (raw & dec & -> & H).
  assert (Hr : ∀ k, raw !! k = value_of <$> last (with_key k (split "&" fragment))).
  { intros k. destruct (H k) as [-> _].
    by destruct (last (with_key k (split "&" fragment))). }
  assert (Hd : ∀ k, dec !! k
                    = decoded_value_of decode
                        <$> last (with_key k (split "&" fragment))).
  { intros k. destruct (H k) as [_ ->].
    by destruct (last (with_key k (split "&" fragment))). }
  rewrite !Hr, !Hd.
  destruct (last (with_key "access_token" (split "&" fragment))); done.
Qed.

End Parse.

(** Two access tokens in the fragment: the later one is taken, its raw
    value with the escape, the plus sign and the padding as they came. *)
Example token_of_redirect_later_token :
  token_of_redirect RedirectScenario.unquote_ok RedirectScenario.url
    RedirectScenario.fragment
  = Ok (mk_ms_tokens (Some "a%2Fb+c==") (Some "a/b+c==") None None
          (Some "bearer") None None None RedirectScenario.url).
Proof. vm_compute. reflexivity. Qed.

End RedirectFacts.

(** ** [main] of [xbox_tokens_device_code.py] *)

Module PipelineFacts.
Import Py Flow Requests Xbox XboxSpec PyStr XboxMain FlowFacts XboxFacts
  ExchangeFacts MatrixFacts.

Lemma returned_state {S : Type} (o : outcome S pyval) :
  (returned o).2 = state_of o.
Proof. by destruct o. Qed.

Section Pipeline.

Context (unquote : string -> option string) (quote : string -> string).
Context (repr : pyval -> string) (ep : endpoint).

Local Abbreviation candidates := (candidates unquote quote).
Local Abbreviation xbl_user_authenticate :=
  (xbl_user_authenticate unquote quote ep).
Local Abbreviation xsts_authorize := (xsts_authorize ep).
Local Abbreviation main_exchanged := (main_exchanged repr ep).
Local Abbreviation main := (main unquote quote repr ep).

Lemma xsts_authorize_sent (xbl_token : pyval) (s : xstate) :
  sent (state_of (xsts_authorize xbl_token s))
  = sent s ++ [xsts_request xbl_token].
Proof.
  unfold XboxMain.xsts_authorize.
  destruct (ep (length (sent s)) (xsts_request xbl_token)) as [r|e]; [|done].
  destruct (negb (status_code r =? 200)); [done|]. by destruct (json r).
Qed.

(** The requests of [main] after the first exchange: none, or the one of
    [xsts_authorize] for the token of the response. *)
Lemma main_exchanged_posted (ms : ms_tokens) (tok : string) (xbl : pyval)
    (s : xstate) (d : out_dir) :
  (main_exchanged ms tok xbl s d).2.1 = sent s
  ∨ ∃ t, item xbl "Token" = Val t
         ∧ (main_exchanged ms tok xbl s d).2.1 = sent s ++ [xsts_request t].
Proof.
  unfold XboxMain.main_exchanged, mbind, res_bind, mret, res_ret.
  destruct (item xbl "Token") as [t|x]; [|by left].
  destruct (display_claims xbl) as [c|x]; [|by left].
  destruct (item c "uhs") as [uhs|x]; [|by left].
  right. exists t. split; [done|].
  pose proof (xsts_authorize_sent t s) as Hs.
  rewrite <- returned_state in Hs.
  destruct (returned (xsts_authorize t s)) as [xsts s']. simpl in Hs.
  destruct xsts as [xsts|x]; [|done].
  destruct (item xsts "Token"); [|done].
  destruct (display_claims xsts); [|done].
  destruct (get _ "xid"); [|done].
  destruct (item _ "uhs"); [|done].
  by destruct (write_text _ d) as [[?|?] ?].
Qed.

(** X18: the requests of [main].  With an access token that is not empty,
    [main] issues the requests of [xbl_user_authenticate] and then at most
    one more, the request of [xsts_authorize]; that request is made only
    after the first exchange has returned, and it carries the [Token] of
    what it returned.  The first request of all carries the access token
    itself as ticket, and there are at most 73. *)
Theorem main_requests (ms : ms_tokens) (tok : string) (d : out_dir) :
  ms_access_token ms = Some tok →
  tok ≠ "" →
  let o := xbl_user_authenticate tok (ms_access_token_raw ms) in
  (∃ rest,
     (main ms d).2.1 = sent (state_of o) ++ rest
     ∧ (rest = []
        ∨ ∃ xbl s t, o = Return xbl s ∧ item xbl "Token" = Val t
                     ∧ rest = [xsts_request t]))
  ∧ head (main ms d).2.1
    = Some (attempt_request tok "http://auth.xboxlive.com" true)
  ∧ (length (main ms d).2.1 <= 73)%nat.
Proof.
  intros Htok Hne o.
  assert (Hshape : ∃ rest,
            (main ms d).2.1 = sent (state_of o) ++ rest
            ∧ (rest = []
               ∨ ∃ xbl s t, o = Return xbl s ∧ item xbl "Token" = Val t
                            ∧ rest = [xsts_request t])).
  { unfold XboxMain.main. rewrite Htok.
    apply String.eqb_neq in Hne. rewrite Hne. fold o.
    destruct o as [s|xbl s|e s]; cbn [returned state_of].
    - destruct (main_exchanged_posted ms tok PNone s d) as [->|(t & Ht & _)];
        [|done].
      exists []. rewrite app_nil_r. split; [done|by left].
    - destruct (main_exchanged_posted ms tok xbl s d) as [->|(t & Ht & ->)].
      + exists []. rewrite app_nil_r. split; [done|by left].
      + exists [xsts_request t]. split; [done|]. right. by exists xbl, s, t.
    - exists []. rewrite app_nil_r. split; [done|by left]. }
  split; [done|].
  destruct Hshape as (rest & -> & Hrest).
  pose proof (exchange_first_request unquote quote ep tok
                (ms_access_token_raw ms) Hne) as Hh.
  pose proof (exchange_sent_bounds unquote quote ep tok
                (ms_access_token_raw ms)) as Hb.
  fold o in Hh, Hb.
  assert (Hl : (length rest <= 1)%nat)
    by (destruct Hrest as [->|(? & ? & ? & _ & _ & ->)]; cbn [length]; lia).
  clearbody o. split.
  - by destruct (sent (state_of o)).
  - rewrite length_app. lia.
Qed.

(** X19: the output file of [main].  When [main] raises, whatever the
    cause, the file is as it was; when it returns, the file holds a
    document whose [authorization_header] is [XBL3.0 x=<uhs>;<token>], and
    the file has kept its mode, or has the default mode when it is new: the
    mode is not restricted. *)
Theorem main_output_file (ms : ms_tokens) (d : out_dir) :
  match main ms d with
  | (Exc _, (_, d')) => d' = d
  | (Val _, (_, d')) =>
      ∃ f out uhs xsts_token,
        out_file d' = Some f
        ∧ Sys.text f = Doc (PDict out)
        ∧ assoc "authorization_header" out
          = Some (PStr ("XBL3.0 x=" +:+ py_str repr uhs +:+ ";"
                        +:+ py_str repr xsts_token))
        ∧ Sys.mode f = match out_file d with
                       | Some f0 => Sys.mode f0
                       | None => 420
                       end
  end.
Proof.
  unfold XboxMain.main.
  destruct (ms_access_token ms) as [tok|]; [|done].
  destruct (String.eqb tok ""); [done|].
  destruct (returned (xbl_user_authenticate tok (ms_access_token_raw ms)))
    as [[xbl|x] s]; [|done].
  unfold XboxMain.main_exchanged, mbind, res_bind, mret, res_ret.
  destruct (item xbl "Token") as [t|x]; [|done].
  destruct (display_claims xbl) as [c|x]; [|done].
  destruct (item c "uhs") as [uhs|x]; [|done].
  destruct (returned (xsts_authorize t s)) as [[xsts|x] s']; [|done].
  destruct (item xsts "Token") as [xt|x]; [|done].
  destruct (display_claims xsts) as [c'|x]; [|done].
  destruct (get c' "xid") as [xid|x]; [|done].
  destruct (item c' "uhs") as [xuhs|x]; [|done].
  unfold write_text.
  destruct (out_file d) as [f0|] eqn:Hf.
  - destruct (Sys.writable f0); [|done].
    eexists _, _, uhs, xt. repeat split; reflexivity.
  - destruct (dir_writable d); [|done].
    eexists _, _, uhs, xt. repeat split; reflexivity.
Qed.

(** X20: the two exchanges compose.  When the first exchange returns a
    document with a [Token] and a user hash, the second is answered 200
    with a document that has a [Token] and claims with a user hash, and the
    file can be written, [main] returns after exactly one more request, the
    one that carries the first [Token]; the file then holds the header
    [XBL3.0 x=<uhs>;<token>] made of the user hash of the first exchange
    and the [Token] of the second, beside both tokens. *)
Theorem main_composes (ms : ms_tokens) (tok : string) (d : out_dir)
    (xbl xsts xbl_token uhs xsts_token : pyval) (s : xstate) (r : response)
    (claims : list (string * pyval)) :
  ms_access_token ms = Some tok →
  tok ≠ "" →
  xbl_user_authenticate tok (ms_access_token_raw ms) = Return xbl s →
  item xbl "Token" = Val xbl_token →
  (c ← display_claims xbl; item c "uhs") = Val uhs →
  ep (length (sent s)) (xsts_request xbl_token) = Answer r →
  status_code r = 200 →
  body r = Doc xsts →
  item xsts "Token" = Val xsts_token →
  display_claims xsts = Val (PDict claims) →
  is_Some (assoc "uhs" claims) →
  match out_file d with
  | Some f => Sys.writable f = true
  | None => dir_writable d = true
  end →
  ∃ out d' f,
    main ms d = (Val tt, (sent s ++ [xsts_request xbl_token], d'))
    ∧ out_file d' = Some f
    ∧ Sys.text f = Doc (PDict out)
    ∧ assoc "authorization_header" out
      = Some (PStr ("XBL3.0 x=" +:+ py_str repr uhs +:+ ";"
                    +:+ py_str repr xsts_token))
    ∧ assoc "xbl" out = Some (PDict [("uhs", uhs); ("token", xbl_token)])
    ∧ ∃ xsts_uhs,
        assoc "uhs" claims = Some xsts_uhs
        ∧ assoc "xsts" out
          = Some (PDict [("uhs", xsts_uhs); ("xid", dict_get "xid" claims);
                         ("token", xsts_token)]).
Proof.
  intros Htok Hne%String.eqb_neq Hx Ht Hu Ha Hst Hb Hxt Hc [xuhs Hxu] Hw.
  unfold XboxMain.main. rewrite Htok, Hne, Hx. cbn [returned].
  unfold XboxMain.main_exchanged, XboxMain.xsts_authorize.
  rewrite Ht. cbn [mbind res_bind].
  unfold mbind, res_bind in Hu.
  destruct (display_claims xbl) as [c|x]; [|done].
  cbn [mbind res_bind]. rewrite Hu.
  cbn [mbind res_bind mret res_ret]. rewrite Ha, Hst.
  cbn [Z.eqb Pos.eqb negb].
  unfold json. rewrite Hb. cbn [returned mbind res_bind]. rewrite Hxt.
  cbn [mbind res_bind]. rewrite Hc. cbn [mbind res_bind get item].
  rewrite Hxu. cbn [mbind res_bind mret res_ret]. unfold write_text.
  destruct (out_file d) as [f0|].
  - rewrite Hw. eexists _, _, _. split; [reflexivity|]. cbn.
    repeat split; try reflexivity. eauto.
  - rewrite Hw. eexists _, _, _. split; [reflexivity|]. cbn.
    repeat split; try reflexivity. eauto.
Qed.

End Pipeline.

(** A redirect with the access token [a/b] and a service that accepts the
    first ticket: two requests, the first with the token as it is. *)
Lemma main_requests_accepting :
  head (XboxMain.main Urllib.unquote Urllib.quote RedirectScenario.no_repr
          RedirectScenario.accepting RedirectScenario.ms
          RedirectScenario.empty_out).2.1
  = Some (attempt_request "a/b" "http://auth.xboxlive.com" true)
  ∧ (length (XboxMain.main Urllib.unquote Urllib.quote
               RedirectScenario.no_repr RedirectScenario.accepting
               RedirectScenario.ms RedirectScenario.empty_out).2.1
     <= 73)%nat.
Proof.
  destruct (main_requests Urllib.unquote Urllib.quote RedirectScenario.no_repr
              RedirectScenario.accepting RedirectScenario.ms "a/b"
              RedirectScenario.empty_out)
    as (_ & H & L).
  - reflexivity.
  - discriminate.
  - split; [exact H|exact L].
Defined.

(** The same run to its end: the header written. *)
Lemma main_composes_accepting :
  ∃ out d' f,
    XboxMain.main Urllib.unquote Urllib.quote RedirectScenario.no_repr
      RedirectScenario.accepting RedirectScenario.ms
      RedirectScenario.empty_out
    = (Val tt,
       ([attempt_request "a/b" "http://auth.xboxlive.com" true;
         xsts_request (PStr "xbl-token")], d'))
    ∧ out_file d' = Some f
    ∧ Sys.text f = Doc (PDict out)
    ∧ assoc "authorization_header" out
      = Some (PStr "XBL3.0 x=1234;xsts-token").
Proof.
  destruct (main_composes Urllib.unquote Urllib.quote RedirectScenario.no_repr
              RedirectScenario.accepting RedirectScenario.ms "a/b"
              RedirectScenario.empty_out
              RedirectScenario.xbl_body RedirectScenario.xsts_body
              (PStr "xbl-token") (PStr "1234") (PStr "xsts-token")
              (mk_xstate
                 [attempt_request "a/b" "http://auth.xboxlive.com" true] [])
              (mk_response 200 (Doc RedirectScenario.xsts_body))
              [("uhs", PStr "1234"); ("xid", PStr "2533")])
    as (out & d' & f & E & Hf & Ht & Hh & _).
  - reflexivity.
  - discriminate.
  - vm_compute. reflexivity.
  - reflexivity.
  - reflexivity.
  - reflexivity.
  - reflexivity.
  - reflexivity.
  - reflexivity.
  - reflexivity.
  - by eexists.
  - reflexivity.
  - exists out, d', f. split; [exact E|]. split; [exact Hf|].
    split; [exact Ht|exact Hh].
Defined.

End PipelineFacts.

(** ** The helpers of the debug output *)

Module ToolsFacts.
Import Py PyStr MsOauthTools.

Lemma py_len_nonneg (s : string) : 0 ≤ py_len s.
Proof.
  induction s as [|c s IH]; simpl; [done|].
  destruct (is_continuation c); lia.
Qed.

Lemma py_len_take (n : nat) (s : string) :
  py_len (py_take n s) ≤ Z.of_nat n.
Proof.
  revert n. induction s as [|c s IH]; intros n; simpl; [lia|].
  destruct (is_continuation c) eqn:Hc; simpl.
  - rewrite Hc. specialize (IH n). lia.
  - destruct n as [|n]; simpl; [lia|]. rewrite Hc. specialize (IH n). lia.
Qed.

Lemma py_len_escape (s : string) :
  py_len (escape_newlines s) ≤ 2 * py_len s.
Proof.
  induction s as [|c s IH]; simpl; [done|].
  destruct (Ascii.eqb_spec c (ascii_of_nat 10)) as [->|_]; simpl.
  - lia.
  - pose proof (py_len_nonneg s). destruct (is_continuation c); lia.
Qed.

Lemma escape_no_newline (s : string) :
  ascii_of_nat 10 ∉ list_ascii_of_string (escape_newlines s).
Proof.
  induction s as [|c s IH]; simpl; [by intros ?%elem_of_nil|].
  destruct (Ascii.eqb_spec c (ascii_of_nat 10)) as [->|Hc]; simpl.
  - intros [?|[?|?]%elem_of_cons]%elem_of_cons; done.
  - intros [?|?]%elem_of_cons; done.
Qed.

Lemma escape_id (s : string) :
  ascii_of_nat 10 ∉ list_ascii_of_string s → escape_newlines s = s.
Proof.
  induction s as [|c s IH]; simpl; [done|].
  intros H. destruct (Ascii.eqb_spec c (ascii_of_nat 10)) as [->|Hc].
  - destruct H. by left.
  - f_equal. apply IH. intros ?. apply H. by right.
Qed.

(** X21: the prefix for the log is one line.  [_safe_prefix(s, n)] never
    contains a line feed, whatever the integer [n]; it has at most twice
    the characters of the slice [s[:n]], which is [2 n] at most for
    [n >= 0] and nothing for a negative [n] that reaches past the start of
    [s]; and it is that slice unchanged when the slice holds no line
    feed. *)
Theorem safe_prefix_one_line (s : option string) (n : Z) :
  (ascii_of_nat 10 ∉ list_ascii_of_string (_safe_prefix s n))
  ∧ py_len (_safe_prefix s n) ≤ 2 * py_len (py_slice_to n (default "" s))
  ∧ (0 ≤ n → py_len (_safe_prefix s n) ≤ 2 * n)
  ∧ (n < 0 →
     py_len (_safe_prefix s n) ≤ 2 * Z.max 0 (py_len (default "" s) + n))
  ∧ (ascii_of_nat 10 ∉ list_ascii_of_string (py_slice_to n (default "" s)) →
     _safe_prefix s n = py_slice_to n (default "" s)).
Proof.
  unfold _safe_prefix.
  assert (match s with Some t => t | None => "" end = default "" s) as ->
    by (by destruct s).
  pose proof (py_len_escape (py_slice_to n (default "" s))) as He.
  split; [apply escape_no_newline|]. split; [done|].
  unfold py_slice_to in *. split; [|split].
  - intros Hn. assert ((n <? 0) = false) as Hb by lia. rewrite Hb in *.
    pose proof (py_len_take (Z.to_nat n) (default "" s)). lia.
  - intros Hn. assert ((n <? 0) = true) as Hb by lia. rewrite Hb in *.
    pose proof (py_len_take (Z.to_nat (py_len (default "" s) + n))
                  (default "" s)). lia.
  - intros H. by apply escape_id.
Qed.

Section Jwt.

Context (decode_payload : string -> option pyval).

Local Abbreviation _decode_jwt_claims := (_decode_jwt_claims decode_payload).

(** X22: the claims of a token come from its second segment alone.  On a
    [str], [_decode_jwt_claims] does not raise; it returns the empty dict
    when the token has fewer than two segments between dots, and otherwise
    what the decoder makes of the second segment followed by the fewest
    [=] signs that bring its length to a multiple of 4, or the empty dict
    when the decoder fails.  The header and the signature play no part. *)
Theorem decode_jwt_claims_payload_only (token : string) :
  match split "." token with
  | _ :: payload_b64 :: _ =>
      ∃ k : nat,
        (k < 4)%nat
        ∧ (py_len payload_b64 + Z.of_nat k) `mod` 4 = 0
        ∧ _decode_jwt_claims (PStr token)
          = Ok (default (PDict [])
                  (decode_payload (payload_b64 +:+ equals_signs k)))
  | _ => _decode_jwt_claims (PStr token) = Ok (PDict [])
  end.
Proof.
  unfold MsOauthTools._decode_jwt_claims. cbn [truthy].
  destruct (String.eqb_spec token "") as [->|Hne]; [done|]. cbn [negb].
  destruct (split "." token) as [|h [|p rest]] eqn:Hs; [done|done|].
  cbn [length Nat.ltb Nat.leb nth].
  pose proof (py_len_nonneg p) as Hp.
  set (k := (4 - py_len p `mod` 4) `mod` 4).
  assert (Hk : 0 ≤ k < 4) by (apply Z.mod_pos_bound; lia).
  exists (Z.to_nat k). split; [lia|]. split.
  - rewrite Z2Nat.id by lia. unfold k.
    pose proof (Z.mod_pos_bound (py_len p) 4 ltac:(lia)) as Hm.
    rewrite (Z.div_mod (py_len p) 4) at 1 by lia.
    destruct (decide (py_len p `mod` 4 = 0)) as [E|E].
    + rewrite E. change ((4 - 0) `mod` 4) with 0.
      rewrite Z.add_0_r, Z.add_0_r, Z.mul_comm. apply Z.mod_mul. lia.
    + rewrite (Z.mod_small (4 - _)) by lia.
      replace (4 * (py_len p `div` 4) + py_len p `mod` 4
               + (4 - py_len p `mod` 4))
        with ((py_len p `div` 4 + 1) * 4) by lia.
      apply Z.mod_mul. lia.
  - by destruct (decode_payload _).
Qed.

End Jwt.

End ToolsFacts.

(** ** [get_xsts.py] beside [xbox_tokens_device_code.py] *)

Module GetXstsFacts.
Import Py Flow Requests Xbox XboxSpec PyStr XboxMain GetXsts XboxFacts
  MatrixFacts.

Lemma append_assoc (a b c : string) : (a +:+ b) +:+ c = a +:+ (b +:+ c).
Proof.
  induction a as [|x a IH]; [done|].
  change (String x ((a +:+ b) +:+ c) = String x (a +:+ b +:+ c)).
  by rewrite IH.
Qed.

Section Script.

Context (repr : pyval -> string) (ep : endpoint).

Local Abbreviation script := (script repr ep).

(** X23: [get_xsts.py] tries one ticket of the matrix.  With a token that
    is not empty the script issues one request or two, the second only
    after a 200 to the first; the first goes to the address of
    [xbl_user_authenticate] with the payload of its attempt for the ticket
    [d=<token>] and the first relying party, and that ticket is among the
    candidates [xbl_user_authenticate] tries for the same token. *)
Theorem script_one_ticket (tok rp : string)
    (unquote : string -> option string) (quote : string -> string) :
  tok ≠ "" →
  let first := post_json_request xbl_url (xbl_payload tok) in
  (∃ rest,
     (script tok rp).2 = first :: rest
     ∧ (length rest <= 1)%nat
     ∧ (rest ≠ [] → ∃ r, ep 0%nat first = Answer r ∧ status_code r = 200))
  ∧ rq_url first = XBL_AUTH_URL
  ∧ rq_json first
    = rq_json (attempt_request ("d=" +:+ tok) "http://auth.xboxlive.com" true)
  ∧ "d=" +:+ tok ∈ (candidates unquote quote tok None).*2.
Proof.
  intros Hne%String.eqb_neq first.
  split; [|split; [done|split; [done|apply d_decoded_candidate]]].
  unfold GetXsts.script, post_json_200. rewrite Hne. fold first.
  assert (Hnone : ∀ stop : ending,
            ∃ rest, (stop, [first]).2 = first :: rest
                    ∧ (length rest <= 1)%nat
                    ∧ (rest ≠ [] →
                       ∃ r, ep 0%nat first = Answer r ∧ status_code r = 200)).
  { intros stop. exists []. split; [done|]. split; [cbn; lia|done]. }
  destruct (ep 0%nat first) as [r|e]; [|apply Hnone].
  destruct (status_code r =? 200) eqn:Hst; cbn [negb]; [|apply Hnone].
  apply Z.eqb_eq in Hst.
  destruct (xbl ← loads (body r);
            xbl_token ← item xbl "Token";
            claims ← display_claims xbl;
            uhs ← item claims "uhs"; mret (xbl_token, uhs))
    as [[t uhs]|x]; [|apply Hnone].
  set (second := post_json_request xsts_url _).
  assert (Hone : ∀ stop : ending,
            ∃ rest, (stop, [first; second]).2 = first :: rest
                    ∧ (length rest <= 1)%nat
                    ∧ (rest ≠ [] →
                       ∃ r0, Answer r = Answer r0 ∧ status_code r0 = 200)).
  { intros stop. exists [second]. split; [done|]. split; [cbn; lia|eauto]. }
  destruct (ep 1%nat second) as [r2|e2]; [|apply Hone].
  destruct (negb (status_code r2 =? 200)); [apply Hone|].
  destruct (xsts ← loads (body r2); item xsts "Token"); apply Hone.
Qed.

(** X24: the header of [get_xsts.py] is the header of [main].  When the
    script prints its four lines, both requests were answered 200, and the
    line [XBL3_AUTH] quotes [XBL3.0 x=<uhs>;<token>] with the user hash of
    the first answer and the [Token] of the second, as the
    [authorization_header] of [xbox_tokens_device_code.py] does; with the
    default relying party the second request has the payload of
    [xsts_authorize]. *)
Theorem script_exports (tok rp : string) (lines : list string)
    (rqs : list request) :
  script tok rp = (Printed lines, rqs) →
  ∃ r1 r2 xbl xsts xbl_token uhs xsts_token,
    let second :=
      post_json_request xsts_url (xsts_payload xbl_token (RELYING_PARTY rp)) in
    rqs = [post_json_request xbl_url (xbl_payload tok); second]
    ∧ ep 0%nat (post_json_request xbl_url (xbl_payload tok)) = Answer r1
    ∧ status_code r1 = 200 ∧ body r1 = Doc xbl
    ∧ item xbl "Token" = Val xbl_token
    ∧ (c ← display_claims xbl; item c "uhs") = Val uhs
    ∧ ep 1%nat second = Answer r2
    ∧ status_code r2 = 200 ∧ body r2 = Doc xsts
    ∧ item xsts "Token" = Val xsts_token
    ∧ length lines = 4%nat
    ∧ lines !! 2%nat
      = Some ("export XBL3_AUTH=" +:+ dquote
              +:+ authorization_header repr uhs xsts_token +:+ dquote)
    ∧ (RELYING_PARTY rp = "http://xboxlive.com" →
       rq_url second = XSTS_AUTH_URL
       ∧ rq_json second = rq_json (xsts_request xbl_token)).
Proof.
  unfold GetXsts.script, post_json_200.
  destruct (String.eqb tok ""); [done|].
  destruct (ep 0%nat _) as [r1|e] eqn:H1; [|done].
  destruct (status_code r1 =? 200) eqn:Hs1; cbn [negb]; [|done].
  unfold loads at 1. destruct (body r1) as [|xbl] eqn:Hb1; [done|].
  cbn [mbind res_bind].
  destruct (item xbl "Token") as [t|x] eqn:Ht; [|done]. cbn [mbind res_bind].
  destruct (display_claims xbl ≫= λ c, item c "uhs") as [uhs|x] eqn:Hu.
  2:{ unfold mbind, res_bind in Hu |- *.
      destruct (display_claims xbl); [by rewrite Hu|done]. }
  assert (Hu' : (display_claims xbl
                 ≫= λ claims, item claims "uhs"
                 ≫= λ uhs0, mret (t, uhs0)) = Val (t, uhs)).
  { unfold mbind, res_bind in Hu |- *.
    destruct (display_claims xbl); [by rewrite Hu|done]. }
  rewrite Hu'.
  destruct (ep 1%nat _) as [r2|e] eqn:H2; [|done].
  destruct (status_code r2 =? 200) eqn:Hs2; cbn [negb]; [|done].
  unfold loads. destruct (body r2) as [|xsts] eqn:Hb2; [done|].
  cbn [mbind res_bind].
  destruct (item xsts "Token") as [xt|x] eqn:Hxt; [|done].
  intros [= <- <-].
  exists r1, r2, xbl, xsts, t, uhs, xt. cbn zeta.
  apply Z.eqb_eq in Hs1, Hs2.
  repeat split; try done.
  - unfold exports, authorization_header. cbn [lookup list_lookup].
    by rewrite !append_assoc.
  - unfold xsts_payload, xsts_request. cbn [rq_json]. by rewrite H.
Qed.

End Script.

(** A token and the accepting service: the script prints the header. *)
Lemma script_one_ticket_accepting :
  length (GetXsts.script RedirectScenario.no_repr RedirectScenario.accepting
            "a/b" "").2 = 2%nat
  ∧ "d=a/b" ∈ (Xbox.candidates Urllib.unquote Urllib.quote "a/b" None).*2.
Proof.
  destruct (script_one_ticket RedirectScenario.no_repr
              RedirectScenario.accepting "a/b" "" Urllib.unquote Urllib.quote)
    as (_ & _ & _ & H).
  - discriminate.
  - split; [reflexivity|exact H].
Defined.

Lemma script_exports_accepting :
  ∃ lines,
    (GetXsts.script RedirectScenario.no_repr RedirectScenario.accepting
       "a/b" "").1 = Printed lines
    ∧ lines !! 2%nat
      = Some ("export XBL3_AUTH=" +:+ dquote +:+ "XBL3.0 x=1234;xsts-token"
              +:+ dquote).
Proof.
  pose (run := GetXsts.script RedirectScenario.no_repr
                 RedirectScenario.accepting "a/b" "").
  pose (lines := match run.1 with Printed l => l | _ => [] end).
  destruct (script_exports RedirectScenario.no_repr RedirectScenario.accepting
              "a/b" "" lines run.2)
    as (r1 & r2 & xbl & xsts & t & uhs & xt & _).
  - vm_compute. reflexivity.
  - exists lines. split; vm_compute; reflexivity.
Defined.

End GetXstsFacts.

(** ** The two converters to newline-delimited JSON *)

Module NdjsonFacts.
Import Py Ndjson.

(** The loop yields the values before the first that is not a dict, and
    raises there. *)
Lemma yield_dicts_prefix (vs : list pyval) :
  ∃ k,
    (yield_dicts vs).1 = take k vs
    ∧ Forall (λ v, is_dict v = true) (take k vs)
    ∧ match (yield_dicts vs).2 with
      | None => k = length vs
      | Some e =>
          e = ValueError ∧ ∃ v, vs !! k = Some v ∧ is_dict v = false
      end.
Proof.
  induction vs as [|v vs (k & E & F & H)]; [by exists 0%nat|].
  cbn [yield_dicts]. destruct (is_dict v) eqn:Hv.
  - destruct (yield_dicts vs) as [ys e]. exists (S k). cbn in *.
    rewrite E. split; [done|]. split; [by constructor|].
    destruct e; [done|]. by rewrite H.
  - exists 0%nat. cbn. split; [done|]. split; [constructor|]. eauto.
Qed.


Lemma yield_dicts_all (vs : list pyval) :
  Forall (λ v, is_dict v = true) vs → yield_dicts vs = (vs, None).
Proof.
  induction 1 as [|v vs Hv _ IH]; [done|].
  cbn [yield_dicts]. by rewrite Hv, IH.
Qed.

Lemma no_list_among_dicts (vs : list pyval) :
  Forall (λ v, is_dict v = true) vs → filter (λ v, is_list v = true) vs = [].
Proof.
  induction 1 as [|v vs Hv _ IH]; [done|].
  rewrite filter_cons_False; [done|]. by destruct v.
Qed.

Lemma assoc_in_values (k : string) (items : list (string * pyval))
    (v : pyval) :
  assoc k items = Some v → v ∈ values items.
Proof.
  induction items as [|[k' v'] items IH]; [done|]. cbn [assoc].
  unfold values. rewrite fmap_cons.
  destruct (String.eqb k k').
  - intros [= ->]. by left.
  - intros ?. right. by apply IH.
Qed.



End NdjsonFacts.
